(** * Requirement extraction from meeting transcripts

    A shallow embedding of [scripts/process_transcript.py] (class
    [TranscriptProcessor]), of [utils/ticket_generator.py] (class
    [TicketGenerator]: the detection of the ticket type, the summaries,
    the description templates, the priorities and the tickets of an epic)
    and of [WorkflowOrchestrator._generate_ticket_from_spec] from
    [scripts/workflow.py], with the properties of the extraction pipeline
    and of the ticket generation stated over it.

    Modelling choices.
    - A Python [str] is a [string]; the character functions ([str.lower],
      [str.isspace], the classes of [re]) are given on the ASCII range, and
      a character above 127 is caseless, not a space and not a word
      character.
    - The patterns of the source are values of [regex], read by a
      backtracking matcher that tries alternatives left to right, greedy
      repetitions longest first and lazy ones shortest first, as [re] does.
    - A Python [dict] with a fixed set of keys is a record; the RBAC map,
      whose keys come from the text and whose order is the insertion order,
      is an association list.
    - [datetime.now()] is the parameter [today].
    - [_is_mandatory] compiles a pattern assembled from transcript text at
      run time; what [re] answers for such a pattern is the Section
      variable [re_search_dynamic], and a pattern that does not compile
      makes the whole call fail ([None]). *)

From Stdlib Require Import String Ascii List Bool Arith Lia.
Import ListNotations.
Open Scope list_scope.
Open Scope string_scope.
Open Scope nat_scope.

(* ================================================================= *)
(** ** Characters and strings as Python's [str] methods see them *)

Module Py.

Definition code (c : ascii) : nat := nat_of_ascii c.

Definition between (lo hi : nat) (c : ascii) : bool :=
  (lo <=? code c) && (code c <=? hi).

Definition is_upper (c : ascii) : bool := between 65 90 c.
Definition is_lower (c : ascii) : bool := between 97 122 c.
Definition is_alpha (c : ascii) : bool := is_upper c || is_lower c.
Definition is_digit (c : ascii) : bool := between 48 57 c.

(** [str.isspace] and the class [\s]: tab, newline, vertical tab, form
    feed, carriage return, the four separators 28..31, and the space. *)
Definition is_space (c : ascii) : bool :=
  between 9 13 c || between 28 32 c.

(** The class [\w]: letters, digits and the underscore. *)
Definition is_word (c : ascii) : bool :=
  is_alpha c || is_digit c || (code c =? 95).

Definition lower_char (c : ascii) : ascii :=
  if is_upper c then ascii_of_nat (code c + 32) else c.

Definition upper_char (c : ascii) : ascii :=
  if is_lower c then ascii_of_nat (code c - 32) else c.

(** [s.lower()] *)
Fixpoint lower (s : string) : string :=
  match s with
  | EmptyString => EmptyString
  | String c s' => String (lower_char c) (lower s')
  end.

(** [s.capitalize()]: first character upper case, the rest lower case. *)
Definition capitalize (s : string) : string :=
  match s with
  | EmptyString => EmptyString
  | String c s' => String (upper_char c) (lower s')
  end.

(** [s.upper()] *)
Fixpoint upper (s : string) : string :=
  match s with
  | EmptyString => EmptyString
  | String c s' => String (upper_char c) (upper s')
  end.

(** [s.startswith(p)] *)
Fixpoint startswith (p s : string) : bool :=
  match p, s with
  | EmptyString, _ => true
  | String a p', String b s' => Ascii.eqb a b && startswith p' s'
  | String _ _, EmptyString => false
  end.

(** [w in s] for strings: [w] occurs in [s] as a contiguous run. *)
Fixpoint contains (w s : string) : bool :=
  startswith w s ||
  match s with
  | EmptyString => false
  | String _ s' => contains w s'
  end.

(** [c in s] for a single character [c]. *)
Fixpoint has_char (c : ascii) (s : string) : bool :=
  match s with
  | EmptyString => false
  | String a s' => Ascii.eqb a c || has_char c s'
  end.

(** [any(w in s for w in ws)] *)
Definition any_in (ws : list string) (s : string) : bool :=
  existsb (fun w => contains w s) ws.

Fixpoint drop (n : nat) (s : string) : string :=
  match n, s with
  | O, _ => s
  | S n', String _ s' => drop n' s'
  | S _, EmptyString => EmptyString
  end.

Fixpoint lstrip (s : string) : string :=
  match s with
  | String c s' => if is_space c then lstrip s' else s
  | EmptyString => EmptyString
  end.

(** Removes the trailing white space: a character is kept when it is not
    a space or when something is kept after it. *)
Fixpoint rstrip (s : string) : string :=
  match s with
  | EmptyString => EmptyString
  | String c s' =>
      match rstrip s' with
      | EmptyString => if is_space c then EmptyString else String c EmptyString
      | String d t => String c (String d t)
      end
  end.

(** [s.strip()] *)
Definition strip (s : string) : string := rstrip (lstrip s).

(** [s.replace(a, b)] for single characters [a] and [b]. *)
Fixpoint replace_char (a b : ascii) (s : string) : string :=
  match s with
  | EmptyString => EmptyString
  | String c s' => String (if Ascii.eqb c a then b else c) (replace_char a b s')
  end.

(** Truthiness of a string: the empty string is false. *)
Definition truthy (s : string) : bool :=
  match s with EmptyString => false | _ => true end.

(** [x in xs] for a list of strings. *)
Definition mem (x : string) (xs : list string) : bool :=
  existsb (String.eqb x) xs.

End Py.

(* ================================================================= *)
(** ** The pattern language of the source and its matcher *)

Module Re.

(** One member of a bracketed class, or a class escape. *)
Inductive citem : Type :=
| IChar (c : ascii)            (* a literal character *)
| IRange (lo hi : ascii)       (* [lo-hi] *)
| ISpace                       (* \s *)
| IDigit                       (* \d *)
| IWord.                       (* \w *)

(** A set of characters: the items, complemented when [neg] is set. *)
Record cset : Type := CSet { neg : bool; items : list citem }.

Inductive regex : Type :=
| Lit (s : string)                                  (* literal text *)
| Cls (cs : cset)                                   (* one character of a set *)
| Rep (greedy : bool) (lo : nat) (hi : option nat) (cs : cset)
                                                    (* cs{lo,hi}, cs*, cs+ and the lazy forms *)
| Seq (r1 r2 : regex)
| Alt (r1 r2 : regex)                               (* r1|r2 *)
| Opt (r : regex)                                   (* (?:r)? *)
| Grp (n : nat) (r : regex).                        (* the n-th capturing group *)

(** Equality of characters, up to case under [re.IGNORECASE]. *)
Definition char_eq (ic : bool) (a b : ascii) : bool :=
  if ic then Ascii.eqb (Py.lower_char a) (Py.lower_char b) else Ascii.eqb a b.

Definition item_ok (ic : bool) (i : citem) (c : ascii) : bool :=
  match i with
  | IChar a => char_eq ic a c
  | IRange lo hi =>
      Py.between (Py.code lo) (Py.code hi) c ||
      (ic && (Py.between (Py.code lo) (Py.code hi) (Py.lower_char c) ||
              Py.between (Py.code lo) (Py.code hi) (Py.upper_char c)))
  | ISpace => Py.is_space c
  | IDigit => Py.is_digit c
  | IWord => Py.is_word c
  end.

Definition cset_ok (ic : bool) (cs : cset) (c : ascii) : bool :=
  xorb (neg cs) (existsb (fun i => item_ok ic i c) (items cs)).

(** Spans of the groups that took part in the match, as offsets from the
    place where the match was tried. *)
Definition caps : Type := list (nat * (nat * nat)).

Definition set_cap (n : nat) (sp : nat * nat) (c : caps) : caps :=
  (n, sp) :: filter (fun e => negb (fst e =? n)) c.

Fixpoint get_cap (n : nat) (c : caps) : option (nat * nat) :=
  match c with
  | [] => None
  | (k, sp) :: c' => if k =? n then Some sp else get_cap n c'
  end.

Section Matcher.
Context {A : Type}.
Variable ic : bool.

(** A continuation takes the offset reached, the text left and the
    groups so far. *)
Definition cont : Type := nat -> string -> caps -> option A.

Fixpoint lit (l : string) (n : nat) (s : string) : option (nat * string) :=
  match l, s with
  | EmptyString, _ => Some (n, s)
  | String a l', String b s' =>
      if char_eq ic a b then lit l' (S n) s' else None
  | String _ _, EmptyString => None
  end.

Definition hi_pos (hi : option nat) : bool :=
  match hi with Some O => false | _ => true end.

Definition hi_pred (hi : option nat) : option nat :=
  match hi with Some h => Some (pred h) | None => None end.

(** Greedy repetition: take a character while allowed, and give one
    back at a time when the rest of the pattern fails. *)
Fixpoint rep_greedy (cs : cset) (lo : nat) (hi : option nat)
         (n : nat) (s : string) (k : nat -> string -> option A) : option A :=
  let stop := if lo =? 0 then k n s else None in
  match s with
  | String a s' =>
      if hi_pos hi && cset_ok ic cs a then
        match rep_greedy cs (pred lo) (hi_pred hi) (S n) s' k with
        | Some x => Some x
        | None => stop
        end
      else stop
  | EmptyString => stop
  end.

(** Lazy repetition: stop as soon as allowed, and take one more
    character at a time when the rest of the pattern fails. *)
Fixpoint rep_lazy (cs : cset) (lo : nat) (hi : option nat)
         (n : nat) (s : string) (k : nat -> string -> option A) : option A :=
  let more :=
    match s with
    | String a s' =>
        if hi_pos hi && cset_ok ic cs a
        then rep_lazy cs (pred lo) (hi_pred hi) (S n) s' k
        else None
    | EmptyString => None
    end in
  if lo =? 0 then
    match k n s with
    | Some x => Some x
    | None => more
    end
  else more.

Fixpoint run (r : regex) (n : nat) (s : string) (c : caps) (k : cont) : option A :=
  match r with
  | Lit l =>
      match lit l n s with
      | Some (n', s') => k n' s' c
      | None => None
      end
  | Cls cs =>
      match s with
      | String a s' => if cset_ok ic cs a then k (S n) s' c else None
      | EmptyString => None
      end
  | Rep true lo hi cs => rep_greedy cs lo hi n s (fun n' s' => k n' s' c)
  | Rep false lo hi cs => rep_lazy cs lo hi n s (fun n' s' => k n' s' c)
  | Seq r1 r2 => run r1 n s c (fun n' s' c' => run r2 n' s' c' k)
  | Alt r1 r2 =>
      match run r1 n s c k with
      | Some x => Some x
      | None => run r2 n s c k
      end
  | Opt r1 =>
      match run r1 n s c k with
      | Some x => Some x
      | None => k n s c
      end
  | Grp g r1 => run r1 n s c (fun n' s' c' => k n' s' (set_cap g (n, n') c'))
  end.
End Matcher.

(** The patterns of a list one after the other, then [k]: what [run] does
    on their sequence. *)
Fixpoint run_list {A : Type} (ic : bool) (rs : list regex) (n : nat) (s : string)
         (c : caps) (k : cont) : option A :=
  match rs with
  | [] => k n s c
  | r :: rs' => run ic r n s c (fun n' s' c' => run_list ic rs' n' s' c' k)
  end.

(** The length of the longest prefix of [s] made of characters of [cs]. *)
Fixpoint span (ic : bool) (cs : cset) (s : string) : nat :=
  match s with
  | String a s' => if cset_ok ic cs a then S (span ic cs s') else 0
  | EmptyString => 0
  end.

(** A match object: where it starts and ends in the subject, the matched
    text ([group(0)]) and the text of each group that took part. *)
Record rmatch : Type := MkMatch {
  m_start : nat;
  m_end : nat;
  m_text : string;
  m_groups : list (nat * string)
}.

(** [m.group(n)]; a group that did not take part gives [None]. *)
Fixpoint group_opt (n : nat) (gs : list (nat * string)) : option string :=
  match gs with
  | [] => None
  | (k, t) :: gs' => if k =? n then Some t else group_opt n gs'
  end.

(** [m.group(n)] for a group that takes part in every match of its
    pattern, which is the case of each group the source reads. *)
Definition group (n : nat) (m : rmatch) : string :=
  match group_opt n (m_groups m) with
  | Some t => t
  | None => EmptyString
  end.

(** The pattern tried at offset [pos] of the subject, [s] being the text
    from there on. *)
Definition match_at (ic : bool) (r : regex) (pos : nat) (s : string) : option rmatch :=
  run ic r 0 s []
      (fun n _ c =>
         Some (MkMatch pos (pos + n) (substring 0 n s)
                 (map (fun e => (fst e, substring (fst (snd e))
                                          (snd (snd e) - fst (snd e)) s)) c))).

(** [re.search]: the match at the leftmost offset that has one. *)
Fixpoint search_from (ic : bool) (r : regex) (pos : nat) (s : string) : option rmatch :=
  match match_at ic r pos s with
  | Some m => Some m
  | None =>
      match s with
      | String _ s' => search_from ic r (S pos) s'
      | EmptyString => None
      end
  end.

Definition search (ic : bool) (r : regex) (s : string) : option rmatch :=
  search_from ic r 0 s.

(** [re.finditer]: the matches from left to right, none overlapping
    another.  [skip] counts the characters of the last match still to be
    passed over.  No pattern of the source matches the empty string, so
    the scan resumes where a match ended. *)
Fixpoint finditer_from (ic : bool) (r : regex) (pos skip : nat) (s : string) : list rmatch :=
  match skip with
  | S k =>
      match s with
      | String _ s' => finditer_from ic r (S pos) k s'
      | EmptyString => []
      end
  | O =>
      match match_at ic r pos s with
      | Some m =>
          m :: match s with
               | String _ s' => finditer_from ic r (S pos) (pred (m_end m - m_start m)) s'
               | EmptyString => []
               end
      | None =>
          match s with
          | String _ s' => finditer_from ic r (S pos) 0 s'
          | EmptyString => []
          end
      end
  end.

Definition finditer (ic : bool) (r : regex) (s : string) : list rmatch :=
  finditer_from ic r 0 0 s.

(** [re.split] for a pattern without groups: the pieces of [s] between
    the matches [ms], [pos] being the offset of [s] in the subject. *)
Fixpoint pieces (ms : list rmatch) (pos : nat) (s : string) : list string :=
  match ms with
  | [] => [s]
  | m :: ms' =>
      substring 0 (m_start m - pos) s :: pieces ms' (m_end m) (Py.drop (m_end m - pos) s)
  end.

Definition split (ic : bool) (r : regex) (s : string) : list string :=
  pieces (finditer ic r s) 0 s.

(** *** Shorthands for writing the patterns *)

Definition ch (c : ascii) : cset := CSet false [IChar c].
Definition sp : cset := CSet false [ISpace].
Definition digit : cset := CSet false [IDigit].
Definition word : cset := CSet false [IWord].
Definition no (c : ascii) : cset := CSet true [IChar c].
Definition star (cs : cset) : regex := Rep true 0 None cs.
Definition plus (cs : cset) : regex := Rep true 1 None cs.
Definition plus_lazy (cs : cset) : regex := Rep false 1 None cs.
Definition times (lo hi : nat) (cs : cset) : regex := Rep true lo (Some hi) cs.

Fixpoint seq (rs : list regex) : regex :=
  match rs with
  | [] => Lit EmptyString
  | [r] => r
  | r :: rs' => Seq r (seq rs')
  end.

Fixpoint alt (rs : list regex) : regex :=
  match rs with
  | [] => Lit EmptyString
  | [r] => r
  | r :: rs' => Alt r (alt rs')
  end.

(** [ws?] for a word [w] and a last letter [s]: [nurses?], [tabs?]. *)
Definition plural (w : string) (c : ascii) : regex :=
  Seq (Lit w) (Rep true 0 (Some 1) (ch c)).

End Re.

(* ================================================================= *)
(** ** The requirement document *)

Record MeetingMetadata : Type := {
  date : string;
  attendees : list string;
  duration : string;
  topics : list string
}.

Record Field : Type := {
  f_name : string;
  f_type : string;
  f_mandatory : bool
}.

(** The value kept for one actor in the RBAC map. *)
Record RbacEntry : Type := {
  permissions : list string;
  actions : list string
}.

(** The RBAC map: a [dict] keyed by the actor, in insertion order. *)
Definition RbacMap : Type := list (string * RbacEntry).

(** The [details] dictionary of a ticket; a key that is absent is [None]. *)
Record Details : Type := {
  d_rbac : option RbacMap;
  d_tab_name : option string;
  d_columns : option (list string);
  d_entity_name : option string;
  d_fields : option (list Field)
}.

Definition no_details : Details :=
  {| d_rbac := None; d_tab_name := None; d_columns := None;
     d_entity_name := None; d_fields := None |}.

Record TicketSpec : Type := {
  ticket_type : string;
  summary : string;
  priority : string;
  details : option Details
}.

Record Epic : Type := {
  epic_name : string;
  epic_description : string;
  e_priority : string;
  scope : string;
  tabs : list string;
  tickets : list TicketSpec
}.

Record ActionItem : Type := {
  item : string;
  owner : string;
  due_date : string
}.

Record ClarificationItem : Type := {
  question : string;
  context : string
}.

Record RequirementDocument : Type := {
  meeting_metadata : MeetingMetadata;
  epics : list Epic;
  action_items : list ActionItem;
  clarifications_needed : list ClarificationItem
}.

(** The closed enumeration of ticket kinds, the keys that
    [TicketGenerator] knows. *)
Definition ticket_types : list string :=
  ["view_table_data"; "add_entity"; "perform_actions"; "search_filter";
   "download"; "upload_csv"; "backend_architecture"; "rbac_permissions";
   "nav_menu"; "edge_cases"; "generic_story"].

(* ================================================================= *)
(** ** The pattern library *)

Import Re.

Record Patterns : Type := {
  p_epic_name : list regex;
  p_user_story : list regex;
  p_field_spec : list regex;
  p_table_columns : list regex;
  p_tabs : list regex;
  p_priority : list regex;
  p_rbac : list regex;
  p_validation : list regex
}.

Definition upper_AZ : cset := CSet false [IRange "A" "Z"].
Definition letters_sp : cset := CSet false [IRange "A" "Z"; IRange "a" "z"; ISpace].
Definition no_dot : cset := no ".".
(** [[-–—]]: of the three dashes only the hyphen is an ASCII character. *)
Definition dash : cset := CSet false [IChar "-"].

(** The two rules for tabs and the two for RBAC. *)

(* (?:tabs?|sections?)\s*:\s*([^.]+) *)
Definition tabs_rule_1 : regex :=
  seq [alt [plural "tab" "s"; plural "section" "s"]; star sp; Lit ":"; star sp;
       Grp 1 (plus no_dot)].

(* (?:split|divided)\s+into\s+(?:\d+\s+)?tabs?\s*:\s*([^.]+) *)
Definition tabs_rule_2 : regex :=
  seq [alt [Lit "split"; Lit "divided"]; plus sp; Lit "into"; plus sp;
       Opt (seq [plus digit; plus sp]); plural "tab" "s"; star sp; Lit ":"; star sp;
       Grp 1 (plus no_dot)].

(* (nurses?|doctors?|admins?|staff|users?)\s+can\s+([^.]+) *)
Definition rbac_rule_1 : regex :=
  seq [Grp 1 (alt [plural "nurse" "s"; plural "doctor" "s"; plural "admin" "s";
                   Lit "staff"; plural "user" "s"]);
       plus sp; Lit "can"; plus sp; Grp 2 (plus no_dot)].

(* only\s+(nurses?|doctors?|admins?)\s+(?:can|should|may)\s+([^.]+) *)
Definition rbac_rule_2 : regex :=
  seq [Lit "only"; plus sp;
       Grp 1 (alt [plural "nurse" "s"; plural "doctor" "s"; plural "admin" "s"]);
       plus sp; alt [Lit "can"; Lit "should"; Lit "may"]; plus sp;
       Grp 2 (plus no_dot)].

(** [_load_extraction_patterns] *)
Definition _load_extraction_patterns : Patterns := {|
  p_epic_name := [
    (* (?:build|create|implement|develop)\s+(?:a\s+|an\s+|the\s+)?([A-Z][A-Za-z\s]+?)(?:\s+feature|\s+module|\s+system) *)
    seq [alt [Lit "build"; Lit "create"; Lit "implement"; Lit "develop"]; plus sp;
         Opt (alt [seq [Lit "a"; plus sp]; seq [Lit "an"; plus sp]; seq [Lit "the"; plus sp]]);
         Grp 1 (seq [Cls upper_AZ; plus_lazy letters_sp]);
         alt [seq [plus sp; Lit "feature"]; seq [plus sp; Lit "module"];
              seq [plus sp; Lit "system"]]];
    (* (?:for\s+the\s+)([A-Z][A-Za-z\s]+?)(?:\s+feature|\s+module) *)
    seq [Lit "for"; plus sp; Lit "the"; plus sp;
         Grp 1 (seq [Cls upper_AZ; plus_lazy letters_sp]);
         alt [seq [plus sp; Lit "feature"]; seq [plus sp; Lit "module"]]]
  ];
  p_user_story := [
    (* (users?|nurses?|doctors?|admins?|staff)\s+(?:should\s+be\s+able\s+to|need\s+to|must|can)\s+([^.]+) *)
    seq [Grp 1 (alt [plural "user" "s"; plural "nurse" "s"; plural "doctor" "s";
                     plural "admin" "s"; Lit "staff"]); plus sp;
         alt [seq [Lit "should"; plus sp; Lit "be"; plus sp; Lit "able"; plus sp; Lit "to"];
              seq [Lit "need"; plus sp; Lit "to"]; Lit "must"; Lit "can"];
         plus sp; Grp 2 (plus no_dot)];
    (* (?:the\s+system|it)\s+(?:should|must|needs?\s+to)\s+(?:allow|enable|let)\s+(?:users?|nurses?|doctors?)\s+to\s+([^.]+) *)
    seq [alt [seq [Lit "the"; plus sp; Lit "system"]; Lit "it"]; plus sp;
         alt [Lit "should"; Lit "must"; seq [plural "need" "s"; plus sp; Lit "to"]]; plus sp;
         alt [Lit "allow"; Lit "enable"; Lit "let"]; plus sp;
         alt [plural "user" "s"; plural "nurse" "s"; plural "doctor" "s"]; plus sp;
         Lit "to"; plus sp; Grp 1 (plus no_dot)]
  ];
  p_field_spec := [
    (* (?:fields?\s+(?:for|include)|need|require|capture)\s+([^.]+?)\s*[-–—]\s*(all\s+)?(?:required|mandatory|optional) *)
    seq [alt [seq [plural "field" "s"; plus sp; alt [Lit "for"; Lit "include"]];
              Lit "need"; Lit "require"; Lit "capture"]; plus sp;
         Grp 1 (plus_lazy no_dot); star sp; Cls dash; star sp;
         Opt (Grp 2 (seq [Lit "all"; plus sp]));
         alt [Lit "required"; Lit "mandatory"; Lit "optional"]];
    (* with\s+fields?\s+(?:for\s+)?([^.]+) *)
    seq [Lit "with"; plus sp; plural "field" "s"; plus sp;
         Opt (seq [Lit "for"; plus sp]); Grp 1 (plus no_dot)]
  ];
  p_table_columns := [
    (* (?:table|columns?)\s+(?:showing|with|for|displaying)\s+([^.]+) *)
    seq [alt [Lit "table"; plural "column" "s"]; plus sp;
         alt [Lit "showing"; Lit "with"; Lit "for"; Lit "displaying"]; plus sp;
         Grp 1 (plus no_dot)];
    (* (?:show|display)\s+(?:columns?\s+for\s+)?([^.]+)\s+in\s+(?:the\s+)?table *)
    seq [alt [Lit "show"; Lit "display"]; plus sp;
         Opt (seq [plural "column" "s"; plus sp; Lit "for"; plus sp]);
         Grp 1 (plus no_dot); plus sp; Lit "in"; plus sp;
         Opt (seq [Lit "the"; plus sp]); Lit "table"]
  ];
  p_tabs := [tabs_rule_1; tabs_rule_2];
  p_priority := [
    (* (?:priority\s+is\s+|)(?:highest|high|medium|low|critical) *)
    seq [alt [seq [Lit "priority"; plus sp; Lit "is"; plus sp]; Lit EmptyString];
         alt [Lit "highest"; Lit "high"; Lit "medium"; Lit "low"; Lit "critical"]];
    (* (?:critical|urgent|important)\s+for *)
    seq [alt [Lit "critical"; Lit "urgent"; Lit "important"]; plus sp; Lit "for"]
  ];
  p_rbac := [rbac_rule_1; rbac_rule_2];
  p_validation := [
    (* (?:should\s+not\s+allow|don't\s+allow|prevent|block)\s+([^.]+) *)
    seq [alt [seq [Lit "should"; plus sp; Lit "not"; plus sp; Lit "allow"];
              seq [Lit "don't"; plus sp; Lit "allow"]; Lit "prevent"; Lit "block"];
         plus sp; Grp 1 (plus no_dot)];
    (* (?:required\s+when|only\s+if|mandatory\s+when)\s+([^.]+) *)
    seq [alt [seq [Lit "required"; plus sp; Lit "when"]; seq [Lit "only"; plus sp; Lit "if"];
              seq [Lit "mandatory"; plus sp; Lit "when"]];
         plus sp; Grp 1 (plus no_dot)]
  ]
|}.

(** The patterns that the methods write in place. *)

(* (?:date|meeting)\s*:\s*(\d{4}-\d{2}-\d{2}|\d{1,2}/\d{1,2}/\d{4}) *)
Definition date_pattern : regex :=
  seq [alt [Lit "date"; Lit "meeting"]; star sp; Lit ":"; star sp;
       Grp 1 (alt [seq [times 4 4 digit; Lit "-"; times 2 2 digit; Lit "-"; times 2 2 digit];
                   seq [times 1 2 digit; Lit "/"; times 1 2 digit; Lit "/"; times 4 4 digit]])].

(* (?:attendees|participants)\s*:\s*([^\n]+) *)
Definition attendees_pattern : regex :=
  seq [alt [Lit "attendees"; Lit "participants"]; star sp; Lit ":"; star sp;
       Grp 1 (plus (no "010"))].

(* [,;] *)
Definition comma_semicolon : regex := Cls (CSet false [IChar ","; IChar ";"]).

(* [,;]|\s+and\s+ *)
Definition list_separator : regex :=
  alt [Cls (CSet false [IChar ","; IChar ";"]); seq [plus sp; Lit "and"; plus sp]].

(* [.!?] *)
Definition sentence_end : regex := Cls (CSet false [IChar "."; IChar "!"; IChar "?"]).

(* add\s+(?:a\s+|an\s+)?(\w+) *)
Definition add_pattern : regex :=
  seq [Lit "add"; plus sp; Opt (alt [seq [Lit "a"; plus sp]; seq [Lit "an"; plus sp]]);
       Grp 1 (plus word)].

Definition field_patterns : list regex := [
  (* fields?\s+(?:for|include)\s+([^.]+) *)
  seq [plural "field" "s"; plus sp; alt [Lit "for"; Lit "include"]; plus sp;
       Grp 1 (plus no_dot)];
  (* (?:need|require|capture)\s+([^.]+?)\s*[-–—]\s*(?:all\s+)?(?:required|mandatory|optional) *)
  seq [alt [Lit "need"; Lit "require"; Lit "capture"]; plus sp;
       Grp 1 (plus_lazy no_dot); star sp; Cls dash; star sp;
       Opt (seq [Lit "all"; plus sp]);
       alt [Lit "required"; Lit "mandatory"; Lit "optional"]]
].

Definition action_patterns : list regex := [
  (* (?:action item|todo|task)\s*:\s*([^.]+) *)
  seq [alt [Lit "action item"; Lit "todo"; Lit "task"]; star sp; Lit ":"; star sp;
       Grp 1 (plus no_dot)];
  (* ([A-Z][^.]+?)\s+(?:will|should|needs? to)\s+([^.]+)\s+by\s+(\d{1,2}/\d{1,2}|\w+ \d{1,2}) *)
  seq [Grp 1 (seq [Cls upper_AZ; plus_lazy no_dot]); plus sp;
       alt [Lit "will"; Lit "should"; seq [plural "need" "s"; Lit " to"]]; plus sp;
       Grp 2 (plus no_dot); plus sp; Lit "by"; plus sp;
       Grp 3 (alt [seq [times 1 2 digit; Lit "/"; times 1 2 digit];
                   seq [plus word; Lit " "; times 1 2 digit]])]
].

(** The number of capturing groups of a pattern: [len(match.groups())]. *)
Fixpoint ngroups (r : regex) : nat :=
  match r with
  | Lit _ | Cls _ | Rep _ _ _ _ => 0
  | Seq r1 r2 | Alt r1 r2 => ngroups r1 + ngroups r2
  | Opt r1 => ngroups r1
  | Grp _ r1 => S (ngroups r1)
  end.

(* ================================================================= *)
(** ** The transcript processor *)

(** The state of a [TranscriptProcessor] object. *)
Record TranscriptProcessor : Type := {
  extraction_patterns : Patterns
}.

(** [__init__] *)
Definition init : TranscriptProcessor :=
  {| extraction_patterns := _load_extraction_patterns |}.

(** What [re.search] answers for a pattern built at run time: the pattern
    does not compile ([re.error]), it has no match, or it has one, whose
    [group(1)] may not have taken part. *)
Inductive dyn_result : Type :=
| DynError
| DynNoMatch
| DynMatch (group1 : option string).

Notation "x <- e ;; k" :=
  (match e with Some x => k | None => None end)
  (at level 61, e at next level, right associativity).

(** The double quote, and a text between double quotes. *)
Definition dq : string := String (ascii_of_nat 34) EmptyString.
Definition quoted (s : string) : string := dq ++ s ++ dq.

Section Processor.

(** [re.search(pattern, text, re.IGNORECASE)] for a run-time pattern. *)
Variable re_search_dynamic : string -> string -> dyn_result.

(** [datetime.now().strftime("%Y-%m-%d")] *)
Variable today : string.

Variable self : TranscriptProcessor.

(** [[t.strip() for t in names if t.strip()]] *)
Definition stripped_nonempty (names : list string) : list string :=
  filter Py.truthy (map Py.strip names).

Definition _extract_metadata (text : string) : MeetingMetadata :=
  let d :=
    match Re.search true date_pattern text with
    | Some date_match => group 1 date_match
    | None => today
    end in
  let a :=
    match Re.search true attendees_pattern text with
    | Some attendees_match =>
        let attendees_text := group 1 attendees_match in
        stripped_nonempty (Re.split false comma_semicolon attendees_text)
    | None => []
    end in
  {| date := d; attendees := a; duration := "Unknown"; topics := [] |}.

(** The inner loop of [_extract_epics]: a name is appended when it is
    not empty and not yet in the list. *)
Definition add_epic (epics : list string) (m : rmatch) : list string :=
  let epic_name := Py.strip (group 1 m) in
  if Py.truthy epic_name && negb (Py.mem epic_name epics)
  then (epics ++ [epic_name])%list else epics.

Definition _extract_epics (text : string) : list string :=
  let epics :=
    fold_left (fun epics pattern =>
                 fold_left add_epic (finditer true pattern text) epics)
              (p_epic_name (extraction_patterns self)) [] in
  match epics with
  | [] => ["Unnamed Feature"]
  | _ => epics
  end.

Fixpoint first_description (epic_name : string) (sentences : list string) : option string :=
  match sentences with
  | [] => None
  | sentence :: rest =>
      if Py.contains (Py.lower epic_name) (Py.lower sentence) then
        let description := Py.strip sentence in
        if 20 <? String.length description then Some description
        else first_description epic_name rest
      else first_description epic_name rest
  end.

Definition _extract_epic_description (text epic_name : string) : string :=
  let sentences := Re.split false sentence_end text in
  match first_description epic_name sentences with
  | Some description => description
  | None => "Feature for " ++ epic_name
  end.

Definition _extract_priority (text : string) : string :=
  let text_lower := Py.lower text in
  if Py.any_in ["highest"; "critical"; "urgent"] text_lower then "Highest"
  else if Py.contains "high priority" text_lower || Py.contains "important" text_lower
  then "High"
  else if Py.contains "low priority" text_lower then "Low"
  else "Medium".

(** The body shared by [_extract_tabs] and [_extract_columns]: the first
    group of a match, cut at the separators, the pieces stripped and the
    empty ones left out. *)
Definition split_names (m : rmatch) : list string :=
  stripped_nonempty (Re.split false list_separator (group 1 m)).

Definition _extract_tabs (text : string) : list string :=
  flat_map (fun pattern => flat_map split_names (finditer true pattern text))
           (p_tabs (extraction_patterns self)).

Definition _has_rbac_requirements (text : string) : bool :=
  let rbac_keywords :=
    ["permission"; "access"; "role"; "only"; "can view"; "can edit"; "restricted"] in
  Py.any_in rbac_keywords (Py.lower text).

Fixpoint rbac_has (role : string) (rbac : RbacMap) : bool :=
  match rbac with
  | [] => false
  | (k, _) :: rest => String.eqb k role || rbac_has role rest
  end.

Fixpoint rbac_get (role : string) (rbac : RbacMap) : option RbacEntry :=
  match rbac with
  | [] => None
  | (k, e) :: rest => if String.eqb k role then Some e else rbac_get role rest
  end.

(** [rbac[role]["actions"].append(action)] *)
Fixpoint rbac_append (role action : string) (rbac : RbacMap) : RbacMap :=
  match rbac with
  | [] => []
  | (k, e) :: rest =>
      if String.eqb k role
      then (k, {| permissions := permissions e;
                  actions := (actions e ++ [action])%list |}) :: rest
      else (k, e) :: rbac_append role action rest
  end.

(** The body of the loop of [_extract_rbac] for one match of [pattern]. *)
Definition add_rbac (pattern : regex) (rbac : RbacMap) (m : rmatch) : RbacMap :=
  let role := Py.capitalize (group 1 m) in
  let action := if 1 <? ngroups pattern then group 2 m else group 1 m in
  let rbac :=
    if negb (rbac_has role rbac)
    then (rbac ++ [(role, {| permissions := []; actions := [] |})])%list
    else rbac in
  rbac_append role (Py.strip action) rbac.

Definition _extract_rbac (text : string) : RbacMap :=
  fold_left (fun rbac pattern =>
               fold_left (add_rbac pattern) (finditer true pattern text) rbac)
            (p_rbac (extraction_patterns self)) [].

Definition _extract_columns (text : string) (tab_name : option string) : list string :=
  let columns :=
    flat_map (fun pattern => flat_map split_names (finditer true pattern text))
             (p_table_columns (extraction_patterns self)) in
  match columns with
  | [] => ["<Column 1>"; "<Column 2>"; "<Column 3>"]
  | _ => columns
  end.

Definition _extract_entity_name (text epic_name : string) : string :=
  match Re.search true add_pattern text with
  | Some add_match => Py.lower (group 1 add_match)
  | None => Py.replace_char " " "_" (Py.lower epic_name)
  end.

Definition _guess_field_type (field_name : string) : string :=
  let field_lower := Py.lower field_name in
  if Py.contains "date" field_lower then "Date picker"
  else if Py.contains "name" field_lower then "Text field"
  else if Py.contains "email" field_lower then "Email field"
  else if Py.contains "phone" field_lower then "Phone field"
  else if Py.contains "note" field_lower || Py.contains "comment" field_lower
          || Py.contains "instruction" field_lower then "Large text field"
  else if Py.contains "status" field_lower || Py.contains "type" field_lower
          || Py.contains "frequency" field_lower then "Dropdown"
  else "Text field".

(** [None] when the call raises: the pattern made of the field name does
    not compile, or its first group did not take part in the match. *)
Definition _is_mandatory (text field_name : string) : option bool :=
  let context_pattern := field_name ++ "[^.]*?(required|mandatory|optional)" in
  match re_search_dynamic context_pattern text with
  | DynError => None
  | DynMatch (Some g) => Some (Py.mem (Py.lower g) ["required"; "mandatory"])
  | DynMatch None => None
  | DynNoMatch => Some true
  end.

(** The innermost loop of [_extract_fields], over the names of one match. *)
Fixpoint fields_of_names (text : string) (field_names : list string)
  : option (list Field) :=
  match field_names with
  | [] => Some []
  | raw :: rest =>
      let field_name := Py.strip raw in
      if Py.truthy field_name && (2 <? String.length field_name) then
        mandatory <- _is_mandatory text field_name ;;
        fs <- fields_of_names text rest ;;
        Some ({| f_name := Py.capitalize field_name;
                 f_type := _guess_field_type field_name;
                 f_mandatory := mandatory |} :: fs)
      else fields_of_names text rest
  end.

(** A loop over a list whose body may raise and otherwise extends the
    result. *)
Fixpoint concat_map_opt {X Y : Type} (f : X -> option (list Y)) (xs : list X)
  : option (list Y) :=
  match xs with
  | [] => Some []
  | x :: rest =>
      ys <- f x ;;
      zs <- concat_map_opt f rest ;;
      Some (ys ++ zs)%list
  end.

Definition _extract_fields (text : string) : option (list Field) :=
  fields <-
    concat_map_opt
      (fun pattern =>
         concat_map_opt
           (fun m => fields_of_names text (Re.split false list_separator (group 1 m)))
           (finditer true pattern text))
      field_patterns ;;
  match fields with
  | [] => Some [{| f_name := "<Field 1>"; f_type := "Text field"; f_mandatory := true |}]
  | _ => Some fields
  end.

Definition _extract_action_items (text : string) : list ActionItem :=
  flat_map (fun pattern =>
              map (fun m => {| item := Py.strip (m_text m);
                               owner := "TBD"; due_date := "TBD" |})
                  (finditer true pattern text))
           action_patterns.

(** The tickets of one tab, in [_generate_tickets_from_text]. *)
Definition tab_tickets (text tab : string) : list TicketSpec :=
  {| ticket_type := "view_table_data";
     summary := "User should be able to access and view data in the table of '"
                ++ tab ++ "' tab";
     priority := "High";
     details := Some {| d_rbac := None; d_tab_name := Some tab;
                        d_columns := Some (_extract_columns text (Some tab));
                        d_entity_name := None; d_fields := None |} |}
  :: (if Py.any_in ["search"; "filter"; "find"] (Py.lower text)
      then [{| ticket_type := "search_filter";
               summary := "User should be able to search and filter data in '"
                          ++ tab ++ "' tab";
               priority := "High";
               details := Some {| d_rbac := None; d_tab_name := Some tab;
                                  d_columns := None; d_entity_name := None;
                                  d_fields := None |} |}]
      else []).

Definition _generate_tickets_from_text (text epic_name : string) (epic_data : Epic)
  : option (list TicketSpec) :=
  let tickets :=
    [{| ticket_type := "backend_architecture";
        summary := "BE: Implement backend architecture of " ++ quoted epic_name;
        priority := "High";
        details := None |}] in
  let tickets :=
    if _has_rbac_requirements text
    then (tickets ++
          [{| ticket_type := "rbac_permissions";
              summary := "Adding RBAC permissions related to " ++ quoted epic_name;
              priority := "High";
              details := Some {| d_rbac := Some (_extract_rbac text);
                                 d_tab_name := None; d_columns := None;
                                 d_entity_name := None; d_fields := None |} |}])%list
    else tickets in
  let tickets :=
    if Py.any_in ["menu"; "navigation"; "nav bar"; "sidebar"] (Py.lower text)
    then (tickets ++
          [{| ticket_type := "nav_menu";
              summary := "FE: User should be able to view a new menu "
                         ++ quoted epic_name ++ " under " ++ quoted "Clinical"
                         ++ " in nav panel";
              priority := "High";
              details := None |}])%list
    else tickets in
  let tickets := (tickets ++ flat_map (tab_tickets text) (tabs epic_data))%list in
  if Py.any_in ["add"; "create"; "new"; "form"] (Py.lower text) then
    let entity_name := _extract_entity_name text epic_name in
    fields <- _extract_fields text ;;
    Some (tickets ++
          [{| ticket_type := "add_entity";
              summary := "User should be able to add a " ++ entity_name;
              priority := "High";
              details := Some {| d_rbac := None; d_tab_name := None; d_columns := None;
                                 d_entity_name := Some entity_name;
                                 d_fields := Some fields |} |}])%list
  else Some tickets.

Definition _process_epic (text epic_name : string) : option Epic :=
  let epic_data :=
    {| epic_name := epic_name;
       epic_description := _extract_epic_description text epic_name;
       e_priority := _extract_priority text;
       scope := "facility-specific";
       tabs := _extract_tabs text;
       tickets := [] |} in
  tickets <- _generate_tickets_from_text text epic_name epic_data ;;
  Some {| epic_name := epic_name;
          epic_description := epic_description epic_data;
          e_priority := e_priority epic_data;
          scope := scope epic_data;
          tabs := tabs epic_data;
          tickets := tickets |}.

(** [ticket.get("details", {}).get("fields", [])] *)
Definition fields_of (ticket : TicketSpec) : list Field :=
  match details ticket with
  | Some d => match d_fields d with Some fs => fs | None => [] end
  | None => []
  end.

(** [ticket.get("details", {}).get("columns", [])] *)
Definition columns_of (ticket : TicketSpec) : list string :=
  match details ticket with
  | Some d => match d_columns d with Some cs => cs | None => [] end
  | None => []
  end.

(** What one ticket adds to the clarifications. *)
Definition ticket_clarifications (ticket : TicketSpec) : list ClarificationItem :=
  ((if String.eqb (ticket_type ticket) "add_entity"
       && existsb (fun f => Py.has_char "<" (f_name f)) (fields_of ticket)
    then [{| question := "Field specifications incomplete for " ++ summary ticket;
             context := "Field names or types contain placeholders" |}]
    else []) ++
   (if String.eqb (ticket_type ticket) "view_table_data"
       && existsb (fun col => Py.has_char "<" col) (columns_of ticket)
    then [{| question := "Column specifications incomplete for " ++ summary ticket;
             context := "Column names contain placeholders" |}]
    else []))%list.

(** [_identify_clarifications] reads only the epics of the structure. *)
Definition _identify_clarifications (structure_epics : list Epic)
  : list ClarificationItem :=
  flat_map (fun epic => flat_map ticket_clarifications (tickets epic)) structure_epics.

(** The loop of [process_transcript] over the epic names. *)
Fixpoint process_epics (text : string) (names : list string) : option (list Epic) :=
  match names with
  | [] => Some []
  | epic_name :: rest =>
      epic_data <- _process_epic text epic_name ;;
      others <- process_epics text rest ;;
      Some (epic_data :: others)
  end.

(** [metadata] is the optional argument: [None], or a dictionary that is
    not empty. *)
Definition process_transcript (transcript_text : string)
           (metadata : option MeetingMetadata) : option RequirementDocument :=
  let md :=
    match metadata with
    | Some given => given
    | None => _extract_metadata transcript_text
    end in
  let epics := _extract_epics transcript_text in
  es <- process_epics transcript_text epics ;;
  Some {| meeting_metadata := md;
          epics := es;
          action_items := _extract_action_items transcript_text;
          clarifications_needed := _identify_clarifications es |}.

End Processor.

(** [x or d] for an optional string argument. *)
Definition or_else (x : option string) (d : string) : string :=
  match x with
  | Some s => if Py.truthy s then s else d
  | None => d
  end.

(** [TicketGenerator.generate_summary]; an argument left out is [None]. *)
Definition generate_summary (ticket_type feature_name : string)
           (tab_name entity_name scope : option string) : string :=
  let templates : list (string * string) :=
    [("view_table_data",
      "User should be able to access and view data in the table of '"
      ++ or_else tab_name feature_name ++ "' tab");
     ("add_entity",
      "User should be able to add a " ++ or_else entity_name "record"
      ++ " by clicking on " ++ quoted ("+ " ++ or_else entity_name "Add") ++ " CTA");
     ("perform_actions",
      "User should be able to perform actions on " ++ or_else entity_name "records"
      ++ " in '" ++ or_else tab_name feature_name ++ "' tab");
     ("search_filter",
      "User should be able to Search and Filter data in '"
      ++ or_else tab_name feature_name ++ "' tab");
     ("download",
      "User should be able to download all the records in " ++ quoted feature_name
      ++ " feature");
     ("upload_csv",
      "User should be able to upload data in bulk in " ++ quoted feature_name
      ++ " feature");
     ("backend_architecture",
      "BE: Implement backend architecture of " ++ quoted feature_name);
     ("rbac_permissions",
      "Adding RBAC permissions related to " ++ quoted feature_name
      ++ " in Permission tab of Administration menu");
     ("nav_menu",
      "FE: User should be able to view a new menu " ++ quoted feature_name
      ++ " under " ++ quoted "Clinical" ++ " in nav panel");
     ("edge_cases", "Handling deleted data edge cases in " ++ feature_name)] in
  let summary :=
    match find (fun e => String.eqb (fst e) ticket_type) templates with
    | Some e => snd e
    | None => "User should be able to " ++ feature_name
    end in
  match scope with
  | Some sc =>
      let up := Py.upper sc in
      if Py.truthy sc && Py.mem up ["FE"; "BE"] then
        if negb (Py.startswith (up ++ ":") summary) then up ++ ": " ++ summary
        else summary
      else summary
  | None => summary
  end.

(** An answer for the run-time patterns, to run the definitions with:
    no pattern made of a field name finds anything. *)
Definition never_matches (pattern text : string) : dyn_result := DynNoMatch.

(* ================================================================= *)
(** ** The vocabulary of the statements *)

(** [w] occurs in [s]: the text of the specification's "contains". *)
Definition occurs_in (w s : string) : Prop := exists a b, s = a ++ w ++ b.

(** The tickets of an epic, in the order of the five rules. *)
Definition backend_ticket (epic_name : string) : TicketSpec :=
  {| ticket_type := "backend_architecture";
     summary := "BE: Implement backend architecture of " ++ quoted epic_name;
     priority := "High";
     details := None |}.

Definition add_ticket (entity_name : string) (fields : list Field) : TicketSpec :=
  {| ticket_type := "add_entity";
     summary := "User should be able to add a " ++ entity_name;
     priority := "High";
     details := Some {| d_rbac := None; d_tab_name := None; d_columns := None;
                        d_entity_name := Some entity_name;
                        d_fields := Some fields |} |}.

Definition rbac_ticket (self : TranscriptProcessor) (text epic_name : string) : TicketSpec :=
  {| ticket_type := "rbac_permissions";
     summary := "Adding RBAC permissions related to " ++ quoted epic_name;
     priority := "High";
     details := Some {| d_rbac := Some (_extract_rbac self text);
                        d_tab_name := None; d_columns := None;
                        d_entity_name := None; d_fields := None |} |}.

Definition nav_ticket (epic_name : string) : TicketSpec :=
  {| ticket_type := "nav_menu";
     summary := "FE: User should be able to view a new menu "
                ++ quoted epic_name ++ " under " ++ quoted "Clinical"
                ++ " in nav panel";
     priority := "High";
     details := None |}.

(** The tickets that rules 2 and 3 give. *)
Definition conditional_tickets (self : TranscriptProcessor) (text epic_name : string)
  : list TicketSpec :=
  ((if _has_rbac_requirements text then [rbac_ticket self text epic_name] else []) ++
   (if Py.any_in ["menu"; "navigation"; "nav bar"; "sidebar"] (Py.lower text)
    then [nav_ticket epic_name] else []))%list.

(** A transcript to run the definitions on, and its document. *)
Definition sample_text : string :=
  "We need to build a Medication Tracker feature. tabs: Active, Discontinued and History. Only nurses can edit medication records. Please add a prescription form, this is critical and not low priority.".

Definition empty_document : RequirementDocument :=
  {| meeting_metadata := {| date := EmptyString; attendees := []; duration := EmptyString; topics := [] |};
     epics := []; action_items := []; clarifications_needed := [] |}.

Definition sample_document : RequirementDocument :=
  Eval vm_compute in
    match process_transcript never_matches "2026-01-01" init sample_text None with
    | Some doc => doc
    | None => empty_document
    end.

Definition sample_epic : Epic :=
  Eval vm_compute in hd (Build_Epic EmptyString EmptyString EmptyString EmptyString [] []) (epics sample_document).

(** A text that holds a marker between angle brackets. *)
Definition has_placeholder (s : string) : Prop :=
  exists a m b, s = a ++ "<" ++ m ++ ">" ++ b.

Definition field_item (t : TicketSpec) : ClarificationItem :=
  {| question := "Field specifications incomplete for " ++ summary t;
     context := "Field names or types contain placeholders" |}.

Definition column_item (t : TicketSpec) : ClarificationItem :=
  {| question := "Column specifications incomplete for " ++ summary t;
     context := "Column names contain placeholders" |}.

Definition is_column_item (c : ClarificationItem) : bool :=
  String.eqb (context c) "Column names contain placeholders".

(** The test of [_identify_clarifications] on a "view_table_data" ticket. *)
Definition columns_incomplete (t : TicketSpec) : bool :=
  String.eqb (ticket_type t) "view_table_data"
  && existsb (fun col => Py.has_char "<" col) (columns_of t).

Definition sample_add_ticket : TicketSpec :=
  Eval vm_compute in last (tickets sample_epic) (Build_TicketSpec EmptyString EmptyString EmptyString None).

Definition sample_field : Field :=
  Eval vm_compute in hd (Build_Field EmptyString EmptyString false) (fields_of sample_add_ticket).

Definition creation_keywords : list string := ["add"; "create"; "new"; "form"].

(** The "add_entity" template of [TicketGenerator.generate_summary]. *)
Definition add_entity_template (entity_name : string) : string :=
  "User should be able to add a " ++ entity_name ++ " by clicking on "
  ++ quoted ("+ " ++ entity_name) ++ " CTA".

Definition add_entity_summaries (doc : RequirementDocument) : list (list string) :=
  map (fun e => map summary
                    (filter (fun t => String.eqb (ticket_type t) "add_entity") (tickets e)))
      (epics doc).

Definition tabs_phrase : string := "tabs: Active, Discontinued and History".

(** Every character of [w] satisfies [p]. *)
Fixpoint all_chars (p : ascii -> bool) (w : string) : bool :=
  match w with
  | EmptyString => true
  | String a w' => p a && all_chars p w'
  end.

(** The characters that a literal, and a pattern, can read. *)
Fixpoint lit_has (ic : bool) (l : string) (c : ascii) : bool :=
  match l with
  | EmptyString => false
  | String a l' => char_eq ic a c || lit_has ic l' c
  end.

Fixpoint may_read (ic : bool) (r : regex) (c : ascii) : bool :=
  match r with
  | Lit l => lit_has ic l c
  | Cls cs | Rep _ _ _ cs => cset_ok ic cs c
  | Seq r1 r2 | Alt r1 r2 => may_read ic r1 c || may_read ic r2 c
  | Opt r1 | Grp _ r1 => may_read ic r1 c
  end.

(** The actions recorded for an actor, none when the actor is not a key. *)
Definition rbac_actions (role : string) (rbac : RbacMap) : list string :=
  match rbac_get role rbac with
  | Some e => actions e
  | None => []
  end.

(** What one match of [pattern] adds to the actions of [role]. *)
Definition contribution (pattern : regex) (role : string) (m : rmatch) : list string :=
  if String.eqb (Py.capitalize (group 1 m)) role
  then [Py.strip (if 1 <? ngroups pattern then group 2 m else group 1 m)]
  else [].

Definition with_action (action : string) (e : RbacEntry) : RbacEntry :=
  {| permissions := permissions e; actions := (actions e ++ [action])%list |}.

Definition rbac_phrase : string := "only nurses can edit medication records".

(** The second RBAC rule without its last group. *)
Definition rbac_rule_2_head : list regex :=
  [Lit "only"; plus sp;
   Grp 1 (alt [plural "nurse" "s"; plural "doctor" "s"; plural "admin" "s"]);
   plus sp; alt [Lit "can"; Lit "should"; Lit "may"]; plus sp].

(* ================================================================= *)
(** ** More of [TicketGenerator] *)

(** [TicketGenerator.detect_ticket_type] *)
Definition detect_ticket_type (description : string) : string :=
  let description_lower := Py.lower description in
  if Py.contains "user should be able to access and view data in the table"
                 description_lower
  then "view_table_data"
  else if Py.contains "user should be able to add" description_lower
  then "add_entity"
  else if Py.contains "user should be able to perform actions" description_lower
  then "perform_actions"
  else if Py.contains "user should be able to search and filter" description_lower
          || Py.contains "user should be able to filter" description_lower
  then "search_filter"
  else if Py.contains "user should be able to download" description_lower
  then "download"
  else if Py.contains "user should be able to upload" description_lower
  then "upload_csv"
  else if Py.contains "implement backend architecture" description_lower
  then "backend_architecture"
  else if Py.contains "adding rbac" description_lower
          || Py.contains "permissions related to" description_lower
  then "rbac_permissions"
  else if Py.contains "user should be able to view a new menu" description_lower
  then "nav_menu"
  else if Py.contains "handling deleted data" description_lower
          || Py.contains "edge case" description_lower
  then "edge_cases"
  else "generic_story".

(** [TicketGenerator.suggest_priority]; [context] defaults to the empty
    string. *)
Definition suggest_priority (ticket_type context : string) : string :=
  let context_lower := Py.lower context in
  if Py.any_in ["demo"; "blocker"; "critical"; "bug"; "urgent"] context_lower
  then "Highest"
  else if Py.mem ticket_type
                 ["view_table_data"; "add_entity"; "perform_actions";
                  "backend_architecture"; "nav_menu"; "rbac_permissions"]
  then "High"
  else "Medium".

(* ================================================================= *)
(** ** The vocabulary of the further statements *)

(** The phrases that [detect_ticket_type] looks for, in its order. *)
Definition triggers : list string :=
  ["user should be able to access and view data in the table";
   "user should be able to add";
   "user should be able to perform actions";
   "user should be able to search and filter";
   "user should be able to filter";
   "user should be able to download";
   "user should be able to upload";
   "implement backend architecture";
   "adding rbac";
   "permissions related to";
   "user should be able to view a new menu";
   "handling deleted data";
   "edge case"].

(** A name that holds none of these phrases, whatever the case. *)
Definition trigger_free (name : string) : Prop :=
  forall w, In w triggers -> Py.contains w (Py.lower name) = false.

Definition trigger_free_opt (name : option string) : Prop :=
  match name with
  | Some s => trigger_free s
  | None => True
  end.

(** The ten keys of the table of [generate_summary]. *)
Definition template_types : list string :=
  ["view_table_data"; "add_entity"; "perform_actions"; "search_filter";
   "download"; "upload_csv"; "backend_architecture"; "rbac_permissions";
   "nav_menu"; "edge_cases"].

(** An occurrence of [w] in [a ++ b] that begins in [a] and ends in [b]:
    a suffix of [a] is a proper prefix of [w], and [b] goes on with the rest
    of [w]. *)
Fixpoint straddles (w a b : string) : bool :=
  match a with
  | EmptyString => false
  | String _ a' =>
      (Py.startswith a w && negb (Py.startswith w a)
       && Py.startswith (Py.drop (String.length a) w) b)
      || straddles w a' b
  end.

(** [b] begins with what is left of [w] after one character or more. *)
Fixpoint suffix_hits (w b : string) : bool :=
  match w with
  | EmptyString => false
  | String _ w' => (Py.truthy w' && Py.startswith w' b) || suffix_hits w' b
  end.

(** A text without white space at either end, and not empty. *)
Definition trimmed (s : string) : Prop := Py.strip s = s /\ s <> EmptyString.


Definition b2n (b : bool) : nat := if b then 1 else 0.

(** The tests that [_generate_tickets_from_text] makes on the transcript. *)
Definition has_nav (text : string) : bool :=
  Py.any_in ["menu"; "navigation"; "nav bar"; "sidebar"] (Py.lower text).

Definition has_search (text : string) : bool :=
  Py.any_in ["search"; "filter"; "find"] (Py.lower text).

Definition has_creation (text : string) : bool :=
  Py.any_in creation_keywords (Py.lower text).

(** A placeholder among the columns, among the names of the fields. *)
Definition columns_have_placeholder (columns : list string) : bool :=
  existsb (fun col => Py.has_char "<" col) columns.

Definition fields_have_placeholder (fields : list Field) : bool :=
  existsb (fun f => Py.has_char "<" (f_name f)) fields.



(** What [_extract_rbac] keeps true of every entry of the map: the actor
    is written as [capitalize] leaves it, has no permission and has an
    action. *)
Definition rbac_entry_ok (kv : string * RbacEntry) : Prop :=
  Py.capitalize (fst kv) = fst kv /\
  permissions (snd kv) = [] /\
  actions (snd kv) <> [].

(** The types of the tickets of an epic, as the transcript alone decides
    them. *)
Definition ticket_types_of (self : TranscriptProcessor) (text : string) : list string :=
  ("backend_architecture"
   :: (if _has_rbac_requirements text then ["rbac_permissions"] else [])
   ++ (if has_nav text then ["nav_menu"] else [])
   ++ flat_map (fun _ : string =>
                  "view_table_data" :: if has_search text then ["search_filter"] else [])
               (_extract_tabs self text)
   ++ (if has_creation text then ["add_entity"] else []))%list.

(** A transcript that names two epics, and its document. *)
Definition two_epic_text : string :=
  "We will build the Billing Portal module and implement a Claims Review feature. tabs: Open, Closed. Only admins can approve claims. Admins can search claims in the menu. Please add a claim form.".

Definition two_epic_document : RequirementDocument :=
  Eval vm_compute in
    match process_transcript never_matches "2026-01-01" init two_epic_text None with
    | Some doc => doc
    | None => empty_document
    end.

Definition billing_epic : Epic :=
  Eval vm_compute in nth 0 (epics two_epic_document) sample_epic.

Definition claims_epic : Epic :=
  Eval vm_compute in nth 1 (epics two_epic_document) sample_epic.

(* ================================================================= *)
(** ** The descriptions of [TicketGenerator] *)

Definition nl : string := String (ascii_of_nat 10) EmptyString.

(** [str(n)] for a natural number: its decimal digits. *)
Fixpoint str_digits (fuel n : nat) (acc : string) : string :=
  match fuel with
  | O => acc
  | S fuel' =>
      let acc' := String (ascii_of_nat (48 + n mod 10)) acc in
      if n <? 10 then acc' else str_digits fuel' (n / 10) acc'
  end.

Definition str_of_nat (n : nat) : string := str_digits (S n) n EmptyString.

(** [sep.join(xs)] *)
Fixpoint join (sep : string) (xs : list string) : string :=
  match xs with
  | [] => EmptyString
  | x :: xs' =>
      match xs' with
      | [] => x
      | _ :: _ => x ++ sep ++ join sep xs'
      end
  end.

(** [a or b] for two strings. *)
Definition py_or (a b : string) : string := if Py.truthy a then a else b.

(** The value of a keyword argument, or the default of its parameter. *)
Definition given {X : Type} (x : option X) (d : X) : X :=
  match x with
  | Some v => v
  | None => d
  end.

(** A field as [_template_add_entity] reads it: ["name"] is looked up
    with brackets and the other keys with [get]; a ["mandatory"] left out
    counts as [False]. *)
Record FieldDict : Type := {
  fd_name : option string;
  fd_mandatory : bool;
  fd_type : option string;
  fd_default : option string
}.

(** A filter as [_template_search_filter] reads it. *)
Record FilterDict : Type := {
  fl_name : option string;
  fl_type : option string;
  fl_default : option string
}.

(** The keyword arguments of [generate_description]: the parameters that
    the templates name, and ["rbac"], which [_generate_ticket_from_spec]
    passes on and which falls into the [**kwargs] of every template.
    [None] stands for a keyword that is not given. *)
Record Kwargs : Type := {
  k_feature_name : option string;
  k_tab_name : option string;
  k_columns : option (list string);
  k_facility_scope : option string;
  k_entity_name : option string;
  k_fields : option (list FieldDict);
  k_permissions : option (list string);
  k_search_fields : option (list string);
  k_filters : option (list FilterDict);
  k_rbac : option RbacMap
}.

Definition no_kwargs : Kwargs :=
  {| k_feature_name := None; k_tab_name := None; k_columns := None;
     k_facility_scope := None; k_entity_name := None; k_fields := None;
     k_permissions := None; k_search_fields := None; k_filters := None;
     k_rbac := None |}.

Definition _template_backend_architecture (kw : Kwargs) : string :=
  "**Acceptance criteria:**

Create following:

* Model for database
* Service
* Entity
* Controller
* Routes
".

(** [f"{i+1}. {col}" for i, col in enumerate(columns)], from [i]. *)
Fixpoint numbered (i : nat) (columns : list string) : list string :=
  match columns with
  | [] => []
  | col :: rest => (str_of_nat (i + 1) ++ ". " ++ col) :: numbered (S i) rest
  end.

Definition _template_view_table_data (kw : Kwargs) : string :=
  let feature_name := given (k_feature_name kw) EmptyString in
  let tab_name := given (k_tab_name kw) EmptyString in
  let facility_scope := given (k_facility_scope kw) "facility-specific" in
  let columns_text :=
    match k_columns kw with
    | Some (c :: cs) => join nl (numbered 0 (c :: cs))
    | _ => "1. <Column 1> (<Format>)" ++ nl ++ "2. <Column 2> (<Format>)" ++ nl
           ++ "3. <Column 3>"
    end in
  "User should be able to access and view data in the table of '"
  ++ py_or tab_name feature_name
  ++ "' tab.

**Acceptance criteria:**

The table should have the following columns:

"
  ++ columns_text
  ++ "

---

### Important Notes

* Table should be sorted in descending order. Latest records should appear on top.
* Pagination to be implemented.
* Will be "
  ++ facility_scope
  ++ " feature
* Actions will be freezed for mobiles and smaller screens where horizontal scroll comes.
* Use new design tokens as provided in Figma designs.
".

(** The text that one field adds to [fields_text]; a field without a
    name raises [KeyError]. *)
Definition field_line (field : FieldDict) : option string :=
  name <- fd_name field ;;
  let mandatory := if fd_mandatory field then "*" else EmptyString in
  Some ("* " ++ name ++ " " ++ mandatory ++ " (Type: "
        ++ given (fd_type field) "Text field" ++ ". "
        ++ match fd_default field with
           | Some d => if Py.truthy d then "Default: " ++ d ++ ". " else EmptyString
           | None => EmptyString
           end
        ++ ")" ++ nl).

Fixpoint field_lines (fields : list FieldDict) : option string :=
  match fields with
  | [] => Some EmptyString
  | field :: rest =>
      line <- field_line field ;;
      others <- field_lines rest ;;
      Some (line ++ others)
  end.

Definition _template_add_entity (kw : Kwargs) : option string :=
  let entity_name := given (k_entity_name kw) "record" in
  let facility_scope := given (k_facility_scope kw) "facility-specific" in
  fields_text <-
    match k_fields kw with
    | Some (f :: fs) => field_lines (f :: fs)
    | _ => Some (
      "* <Field 1> * (Type: <Type>. Default: <Default>)
* <Field 2> * (Type: <Type>)
* <Field 3> (Type: <Type>. Mandatory only when <Condition>)
* <Comments/Notes> (Type: Large expandable text. <Mandatory/Optional>)")
    end ;;
  Some ("User should be able to add a "
  ++ entity_name
  ++ " by clicking on "
  ++ dq
  ++ "+ "
  ++ Py.capitalize entity_name
  ++ dq
  ++ " CTA that will open a modal with fields:

"
  ++ fields_text
  ++ "
* Save CTA

**Submit workflow:**

* Add a record in table
* Auto-populate <auto fields>
* Send notification to <RBAC> users. Details:
  Type: <Type>;
  Title: <Title>;
  Body: <Body text>;
  View CTA takes user to <destination>

---

### Important Notes

* Will be "
  ++ facility_scope
  ++ " feature
* <Mobile behavior>
").

Definition _template_rbac_permissions (kw : Kwargs) : string :=
  let feature_name := given (k_feature_name kw) EmptyString in
  let perms_list :=
    match k_permissions kw with
    | Some (p :: ps) => join nl (map (fun perm => "* " ++ perm) (p :: ps))
    | _ => "* <Permission 1>" ++ nl ++ "* <Permission 2>"
    end in
  let perms_details :=
    match k_permissions kw with
    | Some (p :: ps) =>
        join (nl ++ nl)
             (map (fun perm =>
                     "**" ++ perm ++ "**: EDIT of this should allow the user to <actions>. VIEW access should only allow <read actions>.")
                  (p :: ps))
    | _ =>
      "**<Permission 1>**: EDIT of this should allow the user to <actions>. VIEW access should only allow <read actions>.

**<Permission 2>**: EDIT of this should allow <actions>. VIEW access should allow <read actions>."
    end in
  "Add RBAC permissions related to "
  ++ dq
  ++ feature_name
  ++ dq
  ++ " in Permission tab of Administration menu under the <Sub-tab> sub-tab.

**Acceptance criteria:**

Under <Sub-tab>, there should be a heading of "
  ++ feature_name
  ++ " with the following permissions:

"
  ++ perms_list
  ++ "

"
  ++ perms_details
  ++ "

---

### Important Notes

* HIDE of <Permission 1> should hide <UI element>.
* HIDE of <Permission 2> should hide <UI element>.
* If both are HIDE for a role, then the feature should not appear in the nav bar.
".

(** The text that the filter numbered [i] adds to [filters_text]; a
    filter without a name raises [KeyError]. *)
Definition filter_line (i : nat) (f : FilterDict) : option string :=
  name <- fl_name f ;;
  Some (str_of_nat i ++ ". " ++ name ++ " (" ++ given (fl_type f) "Dropdown"
        ++ ", by default " ++ given (fl_default f) "All" ++ ")" ++ nl).

Fixpoint filter_lines (i : nat) (filters : list FilterDict) : option string :=
  match filters with
  | [] => Some EmptyString
  | f :: rest =>
      line <- filter_line i f ;;
      others <- filter_lines (S i) rest ;;
      Some (line ++ others)
  end.

Definition _template_search_filter (kw : Kwargs) : option string :=
  let feature_name := given (k_feature_name kw) EmptyString in
  let tab_name := given (k_tab_name kw) EmptyString in
  let search_text :=
    match k_search_fields kw with
    | Some (s :: ss) =>
        "User should be able to perform Search on " ++ join ", " (s :: ss)
        ++ ". Implement Fuzzy Logic"
    | _ => "User should be able to perform Search on Patient Name. Implement Fuzzy Logic"
    end in
  filters_text <-
    match k_filters kw with
    | Some (f :: fs) => filter_lines 1 (f :: fs)
    | _ => Some (
      "1. <Filter 1> (by default <Default>)
2. <Filter 2> (by default <Default>)
3. <Filter 3> (by default <Default>)")
    end ;;
  Some ("User should be able to filter the records in table of "
  ++ py_or tab_name feature_name
  ++ ". 

**Acceptance criteria:** 

User should be able to view and click on "
  ++ dq
  ++ "Filter CTA"
  ++ dq
  ++ " that will open a drawer. Including:  

**Search**

"
  ++ search_text
  ++ "

Text Placeholder: "
  ++ dq
  ++ "_**Search Patient Name**_"
  ++ dq
  ++ "

---

**Filters**

User should be able to click on the Filters CTA and access filters drawer and apply the following filters:

"
  ++ filters_text
  ++ "

---

### Important Notes

* Table should be filtered based on selected filter options
").

Definition _template_generic (kw : Kwargs) : string :=
  "**Acceptance criteria:**

<Description of what the user should be able to do>

---

### Important Notes

* <Note 1>
* <Note 2>
".

(** [TicketGenerator.generate_description]; [None] when a template
    raises. *)
Definition generate_description (ticket_type : string) (kw : Kwargs) : option string :=
  if String.eqb ticket_type "backend_architecture" then
    Some (_template_backend_architecture kw)
  else if String.eqb ticket_type "view_table_data" then
    Some (_template_view_table_data kw)
  else if String.eqb ticket_type "add_entity" then
    _template_add_entity kw
  else if String.eqb ticket_type "rbac_permissions" then
    Some (_template_rbac_permissions kw)
  else if String.eqb ticket_type "search_filter" then
    _template_search_filter kw
  else
    Some (_template_generic kw).

(** A ticket as [generate_epic_tickets] and the workflow build it. *)
Record JiraTicket : Type := {
  j_type : string;
  j_summary : string;
  j_description : string;
  j_priority : string
}.

Definition story (summary description : string) : JiraTicket :=
  {| j_type := "Story"; j_summary := summary; j_description := description;
     j_priority := "High" |}.

Definition feature_kwargs (feature_name : string) : Kwargs :=
  {| k_feature_name := Some feature_name; k_tab_name := None; k_columns := None;
     k_facility_scope := None; k_entity_name := None; k_fields := None;
     k_permissions := None; k_search_fields := None; k_filters := None;
     k_rbac := None |}.

Definition tab_kwargs (tab_name : string) : Kwargs :=
  {| k_feature_name := None; k_tab_name := Some tab_name; k_columns := None;
     k_facility_scope := None; k_entity_name := None; k_fields := None;
     k_permissions := None; k_search_fields := None; k_filters := None;
     k_rbac := None |}.

(** The two tickets of one tab, in [generate_epic_tickets]. *)
Definition tab_stories (epic_name tab : string) : option (list JiraTicket) :=
  view <- generate_description "view_table_data" (tab_kwargs tab) ;;
  search <- generate_description "search_filter" (tab_kwargs tab) ;;
  Some [story (generate_summary "view_table_data" epic_name (Some tab) None None) view;
        story (generate_summary "search_filter" epic_name (Some tab) None None) search].

(** [TicketGenerator.generate_epic_tickets]; [tabs] left out is [None]. *)
Definition generate_epic_tickets (epic_name : string)
           (include_backend include_rbac include_nav : bool)
           (tabs : option (list string)) : option (list JiraTicket) :=
  backend <-
    (if include_backend then
       description <- generate_description "backend_architecture" (feature_kwargs epic_name) ;;
       Some [story (generate_summary "backend_architecture" epic_name None None None)
                   description]
     else Some []) ;;
  rbac <-
    (if include_rbac then
       description <- generate_description "rbac_permissions" (feature_kwargs epic_name) ;;
       Some [story (generate_summary "rbac_permissions" epic_name None None None)
                   description]
     else Some []) ;;
  nav <-
    Some (if include_nav then
            [story (generate_summary "nav_menu" epic_name None None None)
                   (_template_generic no_kwargs)]
          else []) ;;
  per_tab <-
    match tabs with
    | Some ts => concat_map_opt (tab_stories epic_name) ts
    | None => Some []
    end ;;
  Some (backend ++ rbac ++ nav ++ per_tab)%list.

(* ================================================================= *)
(** ** [WorkflowOrchestrator]: from the document to the tickets *)

(** The dictionary of a field of the document, as a template reads it. *)
Definition field_dict (f : Field) : FieldDict :=
  {| fd_name := Some (f_name f); fd_mandatory := f_mandatory f;
     fd_type := Some (f_type f); fd_default := None |}.

(** [feature_name=epic['epic_name'], **details] *)
Definition spec_kwargs (feature_name : string) (details : option Details) : Kwargs :=
  let d := given details no_details in
  {| k_feature_name := Some feature_name;
     k_tab_name := d_tab_name d;
     k_columns := d_columns d;
     k_facility_scope := None;
     k_entity_name := d_entity_name d;
     k_fields := option_map (map field_dict) (d_fields d);
     k_permissions := None;
     k_search_fields := None;
     k_filters := None;
     k_rbac := d_rbac d |}.

(** [WorkflowOrchestrator._generate_ticket_from_spec] *)
Definition _generate_ticket_from_spec (ticket_spec : TicketSpec) (epic : Epic)
  : option JiraTicket :=
  let ticket_type := ticket_type ticket_spec in
  let details := details ticket_spec in
  description <- generate_description ticket_type (spec_kwargs (epic_name epic) details) ;;
  Some {| j_type := "Story";
          j_summary := summary ticket_spec;
          j_description := description;
          j_priority := priority ticket_spec |}.

Fixpoint map_opt {X Y : Type} (f : X -> option Y) (xs : list X) : option (list Y) :=
  match xs with
  | [] => Some []
  | x :: rest =>
      y <- f x ;;
      ys <- map_opt f rest ;;
      Some (y :: ys)
  end.

(** Step 3 of [run_complete_workflow]: the tickets of every epic of the
    document, in their order. *)
Definition all_tickets (structured_data : RequirementDocument) : option (list JiraTicket) :=
  concat_map_opt
    (fun epic => map_opt (fun ticket_spec => _generate_ticket_from_spec ticket_spec epic)
                         (tickets epic))
    (epics structured_data).

(** The types of ticket for which [generate_description] has a template
    of their own. *)
Definition templated_types : list string :=
  ["backend_architecture"; "view_table_data"; "add_entity"; "rbac_permissions";
   "search_filter"].

(** The summaries, and the types, of the tickets of an epic in the order of
    [generate_epic_tickets]. *)
Definition epic_ticket_summaries (epic_name : string) (b r n : bool) (tabs : list string)
  : list string :=
  ((if b then [generate_summary "backend_architecture" epic_name None None None] else [])
   ++ (if r then [generate_summary "rbac_permissions" epic_name None None None] else [])
   ++ (if n then [generate_summary "nav_menu" epic_name None None None] else [])
   ++ flat_map (fun tab => [generate_summary "view_table_data" epic_name (Some tab) None None;
                            generate_summary "search_filter" epic_name (Some tab) None None])
               tabs)%list.

Definition epic_ticket_kinds (b r n : bool) (tabs : list string) : list string :=
  ((if b then ["backend_architecture"] else [])
   ++ (if r then ["rbac_permissions"] else [])
   ++ (if n then ["nav_menu"] else [])
   ++ flat_map (fun _ : string => ["view_table_data"; "search_filter"]) tabs)%list.

(** A story of high priority. *)
Definition story_high (t : JiraTicket) : Prop :=
  j_type t = "Story" /\ j_priority t = "High".

(** The line of a field of the document in the description of its
    ticket. *)
Definition field_text (f : Field) : string :=
  "* " ++ f_name f ++ " " ++ (if f_mandatory f then "*" else EmptyString)
  ++ " (Type: " ++ f_type f ++ ". )" ++ nl.

(* ================================================================= *)
(** ** The review report *)

(** [s * n] *)
Fixpoint str_mul (s : string) (n : nat) : string :=
  match n with
  | O => EmptyString
  | S n' => s ++ str_mul s n'
  end.

(** The four lines of each epic, [i] being the number of the first. *)
Fixpoint epic_lines (i : nat) (epics : list Epic) : list string :=
  match epics with
  | [] => []
  | epic :: rest =>
      (nl ++ str_of_nat i ++ ". " ++ epic_name epic)
      :: ("   Priority: " ++ e_priority epic)
      :: ("   Tickets: " ++ str_of_nat (List.length (tickets epic)))
      :: ("   Tabs: " ++ join ", " (tabs epic))
      :: epic_lines (S i) rest
  end.

(** [TranscriptProcessor.generate_review_report], for a document that has
    every key, as those of [process_transcript] have. *)
Definition generate_review_report (structure : RequirementDocument) : string :=
  let metadata := meeting_metadata structure in
  let action_items := action_items structure in
  let clarifications := clarifications_needed structure in
  let head_lines :=
    [str_mul "=" 70;
     "EXTRACTED REQUIREMENTS - REVIEW REPORT";
     str_mul "=" 70;
     nl ++ "Meeting Date: " ++ date metadata;
     "Attendees: " ++ join ", " (attendees metadata);
     nl ++ "Epics Found: " ++ str_of_nat (List.length (epics structure))] in
  let action_lines :=
    match action_items with
    | [] => []
    | _ :: _ =>
        (nl ++ "Action Items: " ++ str_of_nat (List.length action_items))
        :: map (fun item0 => "   - " ++ item item0) (firstn 3 action_items)
    end in
  let clarification_lines :=
    match clarifications with
    | [] => []
    | _ :: _ =>
        (nl ++ "Clarifications Needed: " ++ str_of_nat (List.length clarifications))
        :: map (fun clarif => "   - " ++ question clarif) clarifications
    end in
  let report :=
    (head_lines ++ epic_lines 1 (epics structure) ++ action_lines
     ++ clarification_lines ++ [nl ++ str_mul "=" 70]%string)%list in
  join nl report.

(* ================================================================= *)
(** ** The vocabulary of the statements on columns and fields *)

(** The column names that the rules find in a transcript. *)
Definition columns_found (self : TranscriptProcessor) (text : string) : list string :=
  flat_map (fun pattern => flat_map split_names (finditer true pattern text))
           (p_table_columns (extraction_patterns self)).












(** A transcript with three fields, and its document. *)
Definition fields_text : string :=
  "Please add a patient form with fields for first name, dosage and notes - all required.".

(* ================================================================= *)
(** ** The vocabulary of the statement on tabs *)

(** A character of a name of one word: no white space, comma, semicolon
    or period. *)
Definition name_char (c : ascii) : bool :=
  negb (Py.is_space c) && negb (existsb (Ascii.eqb c) [","; ";"; "."]%char).

(** A name of one word, other than the word "and". *)
Definition one_word (w : string) : Prop :=
  w <> EmptyString /\ w <> "and" /\ all_chars name_char w = true.

Definition white (ws : string) : bool := all_chars Py.is_space ws.

(** What stands between two names: a comma or a semicolon and white
    space, or the word "and" between white space. *)
Inductive separator : Type :=
| SepChar (c : ascii) (trail : string)
| SepAnd (lead trail : string).

Definition sep_text (s : separator) : string :=
  match s with
  | SepChar c trail => String c trail
  | SepAnd lead trail => lead ++ "and" ++ trail
  end.

Definition sep_ok (s : separator) : Prop :=
  match s with
  | SepChar c trail => (c = "," \/ c = ";")%char /\ white trail = true
  | SepAnd lead trail =>
      lead <> EmptyString /\ trail <> EmptyString /\
      white lead = true /\ white trail = true
  end.

(** A list of names as a text: the first name, then each separator and
    the name after it. *)
Fixpoint tail_text (rest : list (separator * string)) : string :=
  match rest with
  | [] => EmptyString
  | (s, name) :: more => sep_text s ++ name ++ tail_text more
  end.

Definition names_text (first : string) (rest : list (separator * string)) : string :=
  first ++ tail_text rest.

(** A text at which a name of one word ends: the end, or a character
    that no such name has. *)
Definition ends_name (t : string) : Prop :=
  match t with
  | EmptyString => True
  | String d _ => name_char d = false
  end.

Definition names_ok (first : string) (rest : list (separator * string)) : Prop :=
  one_word first /\ Forall (fun p => sep_ok (fst p) /\ one_word (snd p)) rest.

(** The white space that a separator leaves before the next name: what
    follows the comma or semicolon; the match of "and" takes its own. *)
Definition left_over (s : separator) : string :=
  match s with
  | SepChar _ trail => trail
  | SepAnd _ _ => EmptyString
  end.

(** The pieces between the separators of such a text, [p] being what
    came before the first name. *)
Fixpoint raw_pieces (p first : string) (rest : list (separator * string)) : list string :=
  match rest with
  | [] => [p ++ first]
  | (s, name) :: more => (p ++ first) :: raw_pieces (left_over s) name more
  end.

(** The first tab rule up to its group. *)
Definition tabs_rule_1_head : list regex :=
  [alt [plural "tab" "s"; plural "section" "s"]; star sp; Lit ":"].

(* ================================================================= *)
(** ** Facts about the string functions *)

Lemma startswith_app (w b : string) : Py.startswith w (w ++ b) = true.
Proof.
  induction w as [|c w IH]; simpl; [reflexivity|].
  now rewrite Ascii.eqb_refl.
Qed.

Lemma contains_unfold (w s : string) :
  Py.contains w s =
  Py.startswith w s || match s with EmptyString => false | String _ s' => Py.contains w s' end.
Proof. destruct s; reflexivity. Qed.

Lemma contains_app (w a b : string) : Py.contains w (a ++ w ++ b) = true.
Proof.
  induction a as [|c a IH]; simpl.
  - now rewrite contains_unfold, startswith_app.
  - rewrite IH. apply orb_true_r.
Qed.

Lemma occurs_in_contains (w s : string) : occurs_in w s -> Py.contains w s = true.
Proof. intros (a & b & ->). apply contains_app. Qed.

Lemma lower_app (a b : string) : Py.lower (a ++ b) = Py.lower a ++ Py.lower b.
Proof. induction a as [|c a IH]; simpl; [reflexivity|now rewrite IH]. Qed.

Lemma occurs_in_lower (w s : string) :
  Py.lower w = w -> occurs_in w s -> Py.contains w (Py.lower s) = true.
Proof.
  intros Hw (a & b & ->). rewrite !lower_app, Hw. apply contains_app.
Qed.

Lemma has_char_app (c : ascii) (a b : string) : Py.has_char c (a ++ String c b) = true.
Proof.
  induction a as [|d a IH]; simpl.
  - now rewrite Ascii.eqb_refl.
  - rewrite IH. apply orb_true_r.
Qed.

(* ================================================================= *)
(** ** Facts about the matcher *)

Section MatcherFacts.
Context {A : Type}.
Variable ic : bool.

(** A result of the matcher is a result of its continuation. *)
Lemma rep_greedy_k cs s : forall lo hi n (k : nat -> string -> option A) x,
  rep_greedy ic cs lo hi n s k = Some x -> exists n' s', k n' s' = Some x.
Proof.
  induction s as [|a s IH]; intros lo hi n k x H; simpl in H.
  - destruct (lo =? 0); [eauto|discriminate].
  - destruct (hi_pos hi && cset_ok ic cs a).
    + destruct (rep_greedy ic cs (pred lo) (hi_pred hi) (S n) s k) eqn:E.
      * injection H as ->. eapply IH. exact E.
      * destruct (lo =? 0); [eauto|discriminate].
    + destruct (lo =? 0); [eauto|discriminate].
Qed.

Lemma rep_lazy_k cs s : forall lo hi n (k : nat -> string -> option A) x,
  rep_lazy ic cs lo hi n s k = Some x -> exists n' s', k n' s' = Some x.
Proof.
  induction s as [|a s IH]; intros lo hi n k x H; simpl in H.
  - destruct (lo =? 0); [|discriminate].
    destruct (k n EmptyString) eqn:E; [|discriminate]. injection H as ->. eauto.
  - assert (Hmore : (if hi_pos hi && cset_ok ic cs a
                     then rep_lazy ic cs (pred lo) (hi_pred hi) (S n) s k
                     else None) = Some x -> exists n' s', k n' s' = Some x).
    { destruct (hi_pos hi && cset_ok ic cs a); [|discriminate]. apply IH. }
    destruct (lo =? 0); [|auto].
    destruct (k n (String a s)) eqn:E; [|auto]. injection H as ->. eauto.
Qed.

Lemma run_k r : forall n s c (k : @cont A) x,
  run ic r n s c k = Some x -> exists n' s' c', k n' s' c' = Some x.
Proof.
  induction r as [l|cs|g lo hi cs|r1 IH1 r2 IH2|r1 IH1 r2 IH2|r1 IH1|g r1 IH1];
    intros n s c k x H; cbn [run] in H.
  - destruct (lit ic l n s) as [[n' s']|]; [eauto|discriminate].
  - destruct s as [|a s]; [discriminate|].
    destruct (cset_ok ic cs a); [eauto|discriminate].
  - destruct g.
    + apply rep_greedy_k in H. destruct H as (n' & s' & H). eauto.
    + apply rep_lazy_k in H. destruct H as (n' & s' & H). eauto.
  - apply IH1 in H. destruct H as (n' & s' & c' & H). eapply IH2. exact H.
  - destruct (run ic r1 n s c k) eqn:E.
    + injection H as ->. eapply IH1. exact E.
    + eapply IH2. exact H.
  - destruct (run ic r1 n s c k) eqn:E.
    + injection H as ->. eapply IH1. exact E.
    + eauto.
  - apply IH1 in H. destruct H as (n' & s' & c' & H). eauto.
Qed.

(** A greedy repetition without upper bound goes as far as the set
    allows when the rest of the pattern accepts there. *)
Lemma rep_greedy_max cs s : forall lo n (k : nat -> string -> option A) x,
  lo <= span ic cs s ->
  k (n + span ic cs s) (Py.drop (span ic cs s) s) = Some x ->
  rep_greedy ic cs lo None n s k = Some x.
Proof.
  induction s as [|a s IH]; intros lo n k x Hlo Hk; simpl in *.
  - rewrite Nat.add_0_r in Hk. replace lo with 0 by lia. exact Hk.
  - destruct (cset_ok ic cs a); simpl in *.
    + rewrite (IH (pred lo) (S n) k x); [reflexivity|lia|].
      rewrite <- Nat.add_succ_comm in Hk. exact Hk.
    + rewrite Nat.add_0_r in Hk. replace lo with 0 by lia. exact Hk.
Qed.
End MatcherFacts.

Lemma match_at_start ic r pos s m : match_at ic r pos s = Some m -> m_start m = pos.
Proof.
  unfold match_at. intros H. apply run_k in H. destruct H as (n' & s' & c' & H).
  injection H as <-. reflexivity.
Qed.

Lemma drop_app_length (a b : string) : Py.drop (String.length a) (a ++ b) = b.
Proof. induction a as [|c a IH]; [destruct b; reflexivity|exact IH]. Qed.

(** A match that [finditer] reports is the match of the pattern at the
    offset where it starts. *)
Lemma finditer_from_sound ic r s : forall pos skip m,
  In m (finditer_from ic r pos skip s) ->
  exists j, match_at ic r (pos + j) (Py.drop j s) = Some m.
Proof.
  induction s as [|a s IH]; intros pos skip m H.
  - destruct skip; simpl in H; [|destruct H].
    destruct (match_at ic r pos EmptyString) as [m0|] eqn:E; [|destruct H].
    destruct H as [<-|[]]. exists 0. now rewrite Nat.add_0_r.
  - assert (Hrec : forall sk, In m (finditer_from ic r (S pos) sk s) ->
                     exists j, match_at ic r (pos + j) (Py.drop j (String a s)) = Some m).
    { intros sk Hin. destruct (IH _ _ _ Hin) as (j & Hj). exists (S j).
      rewrite <- Nat.add_succ_comm. exact Hj. }
    destruct skip; cbn [finditer_from] in H; [|eauto].
    destruct (match_at ic r pos (String a s)) as [m0|] eqn:E; [|eauto].
    destruct H as [<-|H]; [|eauto]. exists 0. now rewrite Nat.add_0_r.
Qed.

Lemma finditer_sound ic r s m :
  In m (finditer ic r s) ->
  match_at ic r (m_start m) (Py.drop (m_start m) s) = Some m.
Proof.
  intros H. apply finditer_from_sound in H. destruct H as (j & H).
  pose proof (match_at_start _ _ _ _ _ H) as Hs. cbn [Nat.add] in Hs, H.
  now rewrite Hs.
Qed.

Lemma all_chars_impl (p q : ascii -> bool) w :
  (forall c, p c = true -> q c = true) -> all_chars p w = true -> all_chars q w = true.
Proof.
  intros H. induction w as [|a w IH]; cbn [all_chars]; [auto|].
  intros Hw. apply andb_true_iff in Hw. destruct Hw as [Ha Hw].
  now rewrite (H a Ha), IH.
Qed.

Lemma all_chars_app p w1 w2 :
  all_chars p (w1 ++ w2) = all_chars p w1 && all_chars p w2.
Proof.
  induction w1 as [|a w IH]; cbn [all_chars append]; [reflexivity|].
  now rewrite IH, andb_assoc.
Qed.

Lemma length_app (a b : string) : String.length (a ++ b) = String.length a + String.length b.
Proof. induction a as [|c a IH]; cbn [String.length append Nat.add]; [reflexivity|now rewrite IH]. Qed.

Lemma app_assoc_str (a b c : string) : (a ++ b) ++ c = a ++ b ++ c.
Proof. induction a as [|x a IH]; cbn [append]; [reflexivity|now rewrite IH]. Qed.

Section Reads.
Context {A : Type}.
Variable ic : bool.

Lemma lit_reads l : forall n s n' s',
  lit ic l n s = Some (n', s') ->
  exists w, s = w ++ s' /\ n' = n + String.length w /\ all_chars (lit_has ic l) w = true.
Proof.
  induction l as [|a l IH]; intros n s n' s' H; cbn [lit] in H.
  - injection H as <- <-. exists EmptyString. repeat split. now rewrite Nat.add_0_r.
  - destruct s as [|b s]; [discriminate|].
    destruct (char_eq ic a b) eqn:E; [|discriminate].
    apply IH in H. destruct H as (w & -> & -> & Hw).
    exists (String b w). cbn [append String.length all_chars lit_has].
    rewrite E. cbn [orb andb]. repeat split; [lia|].
    eapply all_chars_impl; [|exact Hw]. intros c Hc. rewrite Hc. apply orb_true_r.
Qed.

Lemma rep_greedy_reads cs s : forall lo hi n (k : nat -> string -> option A) x,
  rep_greedy ic cs lo hi n s k = Some x ->
  exists w s', s = w ++ s' /\ all_chars (cset_ok ic cs) w = true /\
               k (n + String.length w) s' = Some x.
Proof.
  induction s as [|a s IH]; intros lo hi n k x H; simpl in H.
  - destruct (lo =? 0); [|discriminate].
    exists EmptyString, EmptyString. rewrite Nat.add_0_r. auto.
  - assert (Hstop : (if lo =? 0 then k n (String a s) else None) = Some x ->
                    exists w s', String a s = w ++ s' /\ all_chars (cset_ok ic cs) w = true /\
                                 k (n + String.length w) s' = Some x).
    { destruct (lo =? 0); [|discriminate]. intros Hk.
      exists EmptyString, (String a s). rewrite Nat.add_0_r. auto. }
    destruct (hi_pos hi && cset_ok ic cs a) eqn:E; [|auto].
    destruct (rep_greedy ic cs (pred lo) (hi_pred hi) (S n) s k) eqn:Er; [|auto].
    injection H as ->. apply IH in Er. destruct Er as (w & s' & -> & Hw & Hk).
    apply andb_true_iff in E. destruct E as [_ Ea].
    exists (String a w), s'. cbn [append all_chars String.length].
    rewrite Ea, Hw. rewrite <- Nat.add_succ_comm. auto.
Qed.

Lemma rep_lazy_reads cs s : forall lo hi n (k : nat -> string -> option A) x,
  rep_lazy ic cs lo hi n s k = Some x ->
  exists w s', s = w ++ s' /\ all_chars (cset_ok ic cs) w = true /\
               k (n + String.length w) s' = Some x.
Proof.
  induction s as [|a s IH]; intros lo hi n k x H; simpl in H.
  - destruct (lo =? 0); [|discriminate].
    destruct (k n EmptyString) eqn:E; [|discriminate]. injection H as ->.
    exists EmptyString, EmptyString. rewrite Nat.add_0_r. auto.
  - assert (Hmore : (if hi_pos hi && cset_ok ic cs a
                     then rep_lazy ic cs (pred lo) (hi_pred hi) (S n) s k
                     else None) = Some x ->
                    exists w s', String a s = w ++ s' /\ all_chars (cset_ok ic cs) w = true /\
                                 k (n + String.length w) s' = Some x).
    { destruct (hi_pos hi && cset_ok ic cs a) eqn:E; [|discriminate]. intros Hr.
      apply IH in Hr. destruct Hr as (w & s' & -> & Hw & Hk).
      apply andb_true_iff in E. destruct E as [_ Ea].
      exists (String a w), s'. cbn [append all_chars String.length].
      rewrite Ea, Hw. rewrite <- Nat.add_succ_comm. auto. }
    destruct (lo =? 0); [|auto].
    destruct (k n (String a s)) eqn:E; [|auto]. injection H as ->.
    exists EmptyString, (String a s). rewrite Nat.add_0_r. auto.
Qed.

Lemma run_reads r : forall n s c (k : @cont A) x,
  run ic r n s c k = Some x ->
  exists w s' c', s = w ++ s' /\ all_chars (may_read ic r) w = true /\
                  k (n + String.length w) s' c' = Some x.
Proof.
  induction r as [l|cs|g lo hi cs|r1 IH1 r2 IH2|r1 IH1 r2 IH2|r1 IH1|g r1 IH1];
    intros n s c k x H; cbn [run] in H; cbn [may_read].
  - destruct (lit ic l n s) as [[n' s']|] eqn:E; [|discriminate].
    apply lit_reads in E. destruct E as (w & -> & -> & Hw). eauto 6.
  - destruct s as [|a s]; [discriminate|].
    destruct (cset_ok ic cs a) eqn:E; [|discriminate].
    exists (String a EmptyString), s, c. cbn [append all_chars String.length].
    rewrite E. rewrite Nat.add_1_r. auto.
  - destruct g.
    + apply rep_greedy_reads in H. destruct H as (w & s' & -> & Hw & H). eauto 6.
    + apply rep_lazy_reads in H. destruct H as (w & s' & -> & Hw & H). eauto 6.
  - apply IH1 in H. destruct H as (w1 & s1 & c1 & -> & Hw1 & H).
    apply IH2 in H. destruct H as (w2 & s2 & c2 & -> & Hw2 & H).
    exists (w1 ++ w2), s2, c2. rewrite app_assoc_str, all_chars_app, length_app, Nat.add_assoc.
    split; [reflexivity|]. split; [|exact H].
    apply andb_true_iff. split; (eapply all_chars_impl; [|eassumption]);
      intros a Ha; rewrite Ha; auto using orb_true_r.
  - destruct (run ic r1 n s c k) eqn:E.
    + injection H as ->. apply IH1 in E. destruct E as (w & s' & c' & -> & Hw & Hk).
      exists w, s', c'. split; [reflexivity|]. split; [|exact Hk].
      eapply all_chars_impl; [|exact Hw]. intros a Ha. now rewrite Ha.
    + apply IH2 in H. destruct H as (w & s' & c' & -> & Hw & Hk).
      exists w, s', c'. split; [reflexivity|]. split; [|exact Hk].
      eapply all_chars_impl; [|exact Hw]. intros a Ha. rewrite Ha. apply orb_true_r.
  - destruct (run ic r1 n s c k) eqn:E.
    + injection H as ->. apply IH1 in E. exact E.
    + exists EmptyString, s, c. rewrite Nat.add_0_r. auto.
  - apply IH1 in H. destruct H as (w & s' & c' & -> & Hw & H). eauto 6.
Qed.
End Reads.

(** What a match has read. *)
Lemma match_at_reads ic r pos s m :
  match_at ic r pos s = Some m ->
  exists w s', s = w ++ s' /\ all_chars (may_read ic r) w = true /\
               m_start m = pos /\ m_end m = pos + String.length w.
Proof.
  unfold match_at. intros H. apply run_reads in H.
  destruct H as (w & s' & c' & -> & Hw & H). injection H as <-.
  exists w, s'. cbn [m_start m_end]. auto.
Qed.

Lemma prefix_before_char (p : ascii -> bool) (d : ascii) : p d = false ->
  forall w s' x y, w ++ s' = x ++ String d y -> all_chars p w = true ->
  String.length w <= String.length x.
Proof.
  intros Hd. induction w as [|a w IH]; intros s' x y H Hw; cbn [String.length]; [lia|].
  cbn [all_chars] in Hw. apply andb_true_iff in Hw. destruct Hw as [Ha Hw].
  destruct x as [|b x]; cbn [append] in H; injection H as -> H.
  - congruence.
  - cbn [String.length]. apply le_n_S. eapply IH; eauto.
Qed.

(** A scan that starts before the end of a sentence reaches the text
    after the period: no match of a pattern that cannot read a period
    runs over it. *)
Lemma finditer_from_past_period ic r (rest : string) m :
  may_read ic r "." = false ->
  forall q pos skip,
    skip <= String.length q ->
    In m (finditer_from ic r (pos + String.length q + 1) 0 rest) ->
    In m (finditer_from ic r pos skip (q ++ String "." rest)).
Proof.
  intros Hdot. induction q as [|a q IH]; intros pos skip Hskip Hin.
  - cbn [String.length] in *. replace skip with 0 by lia.
    rewrite Nat.add_0_r, Nat.add_1_r in Hin. cbn [append finditer_from].
    destruct (match_at ic r pos (String "." rest)) as [m0|] eqn:E; [|exact Hin].
    right. apply match_at_reads in E. destruct E as (w & s' & Hs & Hw & -> & ->).
    pose proof (prefix_before_char _ _ Hdot w s' EmptyString rest (eq_sym Hs) Hw) as Hl.
    cbn [String.length] in Hl. replace (String.length w) with 0 by lia.
    rewrite Nat.add_0_r, Nat.sub_diag. exact Hin.
  - cbn [String.length] in *.
    replace (pos + S (String.length q) + 1) with (S pos + String.length q + 1) in Hin by lia.
    cbn [append]. destruct skip as [|skip]; cbn [finditer_from].
    + destruct (match_at ic r pos (String a (q ++ String "." rest))) as [m0|] eqn:E.
      * right. apply IH; [|exact Hin].
        apply match_at_reads in E. destruct E as (w & s' & Hs & Hw & -> & ->).
        pose proof (prefix_before_char _ _ Hdot w s' (String a q) rest (eq_sym Hs) Hw) as Hl.
        cbn [String.length] in Hl. lia.
      * apply IH; [lia|exact Hin].
    + apply IH; [lia|exact Hin].
Qed.

(* ================================================================= *)
(** ** How a document is put together *)

Section Shape.
Variable rsd : string -> string -> dyn_result.
Variable today : string.
Variable self : TranscriptProcessor.

Lemma process_epics_In text names es e :
  process_epics rsd self text names = Some es -> In e es ->
  exists name, In name names /\ _process_epic rsd self text name = Some e.
Proof.
  revert es. induction names as [|n names IH]; simpl; intros es H Hin.
  - injection H as <-. destruct Hin.
  - destruct (_process_epic rsd self text n) as [e0|] eqn:E0; [|discriminate].
    destruct (process_epics rsd self text names) as [others|] eqn:E1; [|discriminate].
    injection H as <-. destruct Hin as [<-|Hin].
    + exists n. auto.
    + destruct (IH others eq_refl Hin) as (name & Hn & Hp). exists name. auto.
Qed.

Lemma process_epic_name text name e :
  _process_epic rsd self text name = Some e -> epic_name e = name.
Proof.
  unfold _process_epic. destruct (_generate_tickets_from_text _ _ _ _ _); [|discriminate].
  now intros [= <-].
Qed.

Lemma process_epics_names text names es :
  process_epics rsd self text names = Some es -> map epic_name es = names.
Proof.
  revert es. induction names as [|n names IH]; simpl; intros es H.
  - now injection H as <-.
  - destruct (_process_epic rsd self text n) as [e0|] eqn:E0; [|discriminate].
    destruct (process_epics rsd self text names) as [others|] eqn:E1; [|discriminate].
    injection H as <-. simpl. now rewrite (process_epic_name _ _ _ E0), (IH others eq_refl).
Qed.

(** The fields of an epic that do not depend on its tickets. *)
Lemma process_epic_fields text name e :
  _process_epic rsd self text name = Some e ->
  e_priority e = _extract_priority text /\ tabs e = _extract_tabs self text /\
  exists epic_data,
    tabs epic_data = _extract_tabs self text /\
    _generate_tickets_from_text rsd self text name epic_data = Some (tickets e).
Proof.
  unfold _process_epic.
  destruct (_generate_tickets_from_text _ _ _ _ _) as [ts|] eqn:E; [|discriminate].
  intros [= <-]. simpl. split; [reflexivity|]. split; [reflexivity|].
  eexists. split; [|exact E]. reflexivity.
Qed.

Lemma generate_tickets_shape text name epic_data ts :
  _generate_tickets_from_text rsd self text name epic_data = Some ts ->
  exists last,
    ts = (backend_ticket name :: conditional_tickets self text name
          ++ flat_map (tab_tickets self text) (tabs epic_data) ++ last)%list /\
    (if Py.any_in ["add"; "create"; "new"; "form"] (Py.lower text)
     then exists fields,
         _extract_fields rsd text = Some fields /\
         last = [add_ticket (_extract_entity_name text name) fields]
     else last = []).
Proof.
  unfold _generate_tickets_from_text, conditional_tickets.
  destruct (_has_rbac_requirements text);
    destruct (Py.any_in ["menu"; "navigation"; "nav bar"; "sidebar"] (Py.lower text));
    destruct (Py.any_in ["add"; "create"; "new"; "form"] (Py.lower text));
    try (destruct (_extract_fields rsd text) as [fs|]; [|discriminate]);
    intros [= <-];
    first [ exists [add_ticket (_extract_entity_name text name) fs];
            split; [reflexivity | exists fs; split; reflexivity]
          | exists []; split; [rewrite !app_nil_r; reflexivity | reflexivity] ].
Qed.

Lemma conditional_tickets_types text name t :
  In t (conditional_tickets self text name) ->
  ticket_type t = "rbac_permissions" \/ ticket_type t = "nav_menu".
Proof.
  unfold conditional_tickets. intros H. apply in_app_or in H.
  destruct H as [H|H];
    [destruct (_has_rbac_requirements text)
    |destruct (Py.any_in ["menu"; "navigation"; "nav bar"; "sidebar"] (Py.lower text))];
    cbn [In] in H; first [destruct H as [<-|[]] | destruct H]; auto.
Qed.

Lemma tab_tickets_types text tab t :
  In t (tab_tickets self text tab) ->
  (ticket_type t = "view_table_data" /\
   details t = Some {| d_rbac := None; d_tab_name := Some tab;
                       d_columns := Some (_extract_columns self text (Some tab));
                       d_entity_name := None; d_fields := None |})
  \/ ticket_type t = "search_filter".
Proof.
  unfold tab_tickets. intros [<-|H]; [left; split; reflexivity|].
  destruct (Py.any_in ["search"; "filter"; "find"] (Py.lower text));
    cbn [In] in H; first [destruct H as [<-|[]] | destruct H]. now right.
Qed.

(** Where a ticket of a generated list comes from. *)
Lemma generate_tickets_In text name epic_data ts t :
  _generate_tickets_from_text rsd self text name epic_data = Some ts ->
  In t ts ->
  t = backend_ticket name
  \/ In t (conditional_tickets self text name)
  \/ (exists tab, In tab (tabs epic_data) /\ In t (tab_tickets self text tab))
  \/ (exists fields, t = add_ticket (_extract_entity_name text name) fields).
Proof.
  intros H Hin. destruct (generate_tickets_shape _ _ _ _ H) as (last & -> & Hl).
  destruct Hin as [<-|Hin]; [now left|].
  apply in_app_or in Hin. destruct Hin as [Hin|Hin]; [now right; left|].
  apply in_app_or in Hin. destruct Hin as [Hin|Hin].
  - right; right; left. apply in_flat_map in Hin. exact Hin.
  - right; right; right.
    destruct (Py.any_in ["add"; "create"; "new"; "form"] (Py.lower text)).
    + destruct Hl as (fs & _ & ->). destruct Hin as [<-|[]]. now exists fs.
    + subst last. destruct Hin.
Qed.

(** An epic of a document and the list its tickets were generated as. *)
Lemma document_epic text metadata doc e :
  process_transcript rsd today self text metadata = Some doc ->
  In e (epics doc) ->
  In (epic_name e) (_extract_epics self text) /\
  e_priority e = _extract_priority text /\
  tabs e = _extract_tabs self text /\
  exists epic_data,
    tabs epic_data = _extract_tabs self text /\
    _generate_tickets_from_text rsd self text (epic_name e) epic_data = Some (tickets e).
Proof.
  unfold process_transcript.
  destruct (process_epics rsd self text (_extract_epics self text)) as [es|] eqn:E;
    [|discriminate].
  intros [= <-]. cbn [epics]. intros Hin.
  destruct (process_epics_In _ _ _ _ E Hin) as (name & Hn & Hp).
  pose proof (process_epic_name _ _ _ Hp) as <-.
  split; [exact Hn|]. exact (process_epic_fields _ _ _ Hp).
Qed.
End Shape.

Lemma document_epic_names rsd today self text metadata doc :
  process_transcript rsd today self text metadata = Some doc ->
  map epic_name (epics doc) = _extract_epics self text.
Proof.
  unfold process_transcript.
  destruct (process_epics rsd self text (_extract_epics self text)) as [es|] eqn:E;
    [|discriminate].
  intros [= <-]. cbn [epics]. exact (process_epics_names _ _ _ _ _ E).
Qed.

Lemma sample_document_ok :
  process_transcript never_matches "2026-01-01" init sample_text None = Some sample_document.
Proof. vm_compute. reflexivity. Qed.

Lemma sample_epic_In : In sample_epic (epics sample_document).
Proof. left. reflexivity. Qed.

(* ================================================================= *)
(** ** Priority *)

(** C2. A transcript that contains both "critical" and "low priority"
    gets the priority "Highest", in [_extract_priority] and in every epic
    of its document; the tiers are tried in the order Highest (one of
    "highest", "critical", "urgent" in the lower-cased text), High ("high
    priority" or "important"), Low ("low priority"), and Medium is what is
    left, so that the first tier that matches decides. *)
Theorem C2_priority_first_tier_wins :
  forall text,
    occurs_in "critical" text -> occurs_in "low priority" text ->
    _extract_priority text = "Highest" /\
    (forall rsd today self metadata doc e,
        process_transcript rsd today self text metadata = Some doc ->
        In e (epics doc) -> e_priority e = "Highest") /\
    (forall t,
        let l := Py.lower t in
        let tier1 := Py.contains "highest" l || Py.contains "critical" l
                     || Py.contains "urgent" l in
        let tier2 := Py.contains "high priority" l || Py.contains "important" l in
        let tier3 := Py.contains "low priority" l in
        (tier1 = true -> _extract_priority t = "Highest") /\
        (tier1 = false -> tier2 = true -> _extract_priority t = "High") /\
        (tier1 = false -> tier2 = false -> tier3 = true -> _extract_priority t = "Low") /\
        (tier1 = false -> tier2 = false -> tier3 = false ->
         _extract_priority t = "Medium")).
Proof.
  intros text Hc Hl.
  assert (Hp : _extract_priority text = "Highest").
  { unfold _extract_priority, Py.any_in. cbn [existsb].
    rewrite (occurs_in_lower "critical" text eq_refl Hc).
    now rewrite orb_true_r. }
  split; [exact Hp|]. split.
  - intros rsd today self metadata doc e Hdoc Hin.
    destruct (document_epic _ _ _ _ _ _ _ Hdoc Hin) as (_ & -> & _). exact Hp.
  - intros t l tier1 tier2 tier3. subst tier1 tier2 tier3 l.
    unfold _extract_priority, Py.any_in. cbn [existsb]. rewrite orb_false_r.
    rewrite <- orb_assoc.
    repeat split; intros; repeat match goal with H : _ = _ |- _ => rewrite H; clear H end;
      reflexivity.
Qed.

Lemma C2_priority_witness :
  _extract_priority "This is critical, do not treat it as low priority" = "Highest".
Proof.
  refine (proj1 (C2_priority_first_tier_wins
                   "This is critical, do not treat it as low priority" _ _)).
  - exists "This is ", ", do not treat it as low priority". reflexivity.
  - exists "This is critical, do not treat it as ", EmptyString. reflexivity.
Defined.

(* ================================================================= *)
(** ** Epics *)

Lemma fold_no_match (self : TranscriptProcessor) (text : string)
      (patterns : list regex) (acc : list string) :
  (forall pattern, In pattern patterns -> finditer true pattern text = []) ->
  fold_left (fun epics pattern => fold_left add_epic (finditer true pattern text) epics)
            patterns acc = acc.
Proof.
  revert acc. induction patterns as [|p ps IH]; intros acc H; cbn [fold_left].
  - reflexivity.
  - rewrite (H p (or_introl eq_refl)). cbn [fold_left].
    apply IH. intros q Hq. apply H. now right.
Qed.

Lemma extract_epics_nonempty (self : TranscriptProcessor) (text : string) :
  _extract_epics self text <> [].
Proof.
  unfold _extract_epics.
  destruct (fold_left _ (p_epic_name (extraction_patterns self)) []); discriminate.
Qed.

(** C3. When no epic_name rule has a match in the transcript, the epic
    segmenter returns the single name "Unnamed Feature", and the document
    has that one epic; and for every transcript the list of names, and the
    list of epics of the document, is not empty. *)
Theorem C3_fallback_epic :
  forall self text,
    (forall pattern, In pattern (p_epic_name (extraction_patterns self)) ->
                     finditer true pattern text = []) ->
    _extract_epics self text = ["Unnamed Feature"] /\
    (forall rsd today metadata doc,
        process_transcript rsd today self text metadata = Some doc ->
        map epic_name (epics doc) = ["Unnamed Feature"]) /\
    (forall any_text,
        _extract_epics self any_text <> [] /\
        forall rsd today metadata doc,
          process_transcript rsd today self any_text metadata = Some doc ->
          epics doc <> []).
Proof.
  intros self text H.
  assert (He : _extract_epics self text = ["Unnamed Feature"]).
  { unfold _extract_epics. now rewrite (fold_no_match self text _ [] H). }
  split; [exact He|]. split.
  - intros rsd today metadata doc Hdoc.
    now rewrite (document_epic_names _ _ _ _ _ _ Hdoc).
  - intros any_text. split; [apply extract_epics_nonempty|].
    intros rsd today metadata doc Hdoc Hnil.
    apply (extract_epics_nonempty self any_text).
    rewrite <- (document_epic_names _ _ _ _ _ _ Hdoc), Hnil. reflexivity.
Qed.

Lemma C3_fallback_witness :
  _extract_epics init "Let us talk about the weather." = ["Unnamed Feature"].
Proof.
  refine (proj1 (C3_fallback_epic init "Let us talk about the weather." _)).
  intros pattern [<-|[<-|[]]]; vm_compute; reflexivity.
Defined.

(* ================================================================= *)
(** ** Tickets *)

(** C4. In the document of any transcript, the ticket list of every epic
    is not empty, and its first ticket has the type "backend_architecture"
    and the priority "High". *)
Theorem C4_backend_ticket_first :
  forall rsd today self text metadata doc e,
    process_transcript rsd today self text metadata = Some doc ->
    In e (epics doc) ->
    exists first others,
      tickets e = first :: others /\
      ticket_type first = "backend_architecture" /\
      priority first = "High".
Proof.
  intros rsd today self text metadata doc e Hdoc Hin.
  destruct (document_epic _ _ _ _ _ _ _ Hdoc Hin) as (_ & _ & _ & ed & _ & Hgen).
  destruct (generate_tickets_shape _ _ _ _ _ _ Hgen) as (last & -> & _).
  eexists. eexists. split; [reflexivity|]. split; reflexivity.
Qed.

Lemma C4_backend_witness :
  exists first others,
    tickets sample_epic = first :: others /\
    ticket_type first = "backend_architecture" /\
    priority first = "High".
Proof.
  exact (C4_backend_ticket_first never_matches "2026-01-01" init sample_text None
           sample_document sample_epic sample_document_ok sample_epic_In).
Defined.

(** C5. In the document of any transcript, the type of every ticket of
    every epic is one of the eleven kinds of the enumeration. *)
Theorem C5_ticket_type_enumerated :
  forall rsd today self text metadata doc e t,
    process_transcript rsd today self text metadata = Some doc ->
    In e (epics doc) -> In t (tickets e) ->
    In (ticket_type t) ticket_types.
Proof.
  intros rsd today self text metadata doc e t Hdoc Hin Ht.
  destruct (document_epic _ _ _ _ _ _ _ Hdoc Hin) as (_ & _ & _ & ed & _ & Hgen).
  destruct (generate_tickets_In _ _ _ _ _ _ _ Hgen Ht)
    as [->|[Hc|[(tab & _ & Htab)|(fs & ->)]]].
  - cbn [ticket_type backend_ticket]. unfold ticket_types. cbn [In]. tauto.
  - destruct (conditional_tickets_types _ _ _ _ Hc) as [-> | ->];
      unfold ticket_types; cbn [In]; tauto.
  - destruct (tab_tickets_types _ _ _ _ Htab) as [[-> _] | ->];
      unfold ticket_types; cbn [In]; tauto.
  - cbn [ticket_type add_ticket]. unfold ticket_types. cbn [In]. tauto.
Qed.

Lemma C5_ticket_type_witness :
  Forall (fun t => In (ticket_type t) ticket_types) (tickets sample_epic).
Proof.
  apply Forall_forall. intros t Ht.
  exact (C5_ticket_type_enumerated never_matches "2026-01-01" init sample_text None
           sample_document sample_epic t sample_document_ok sample_epic_In Ht).
Defined.

(** C10. In the document of any transcript, every "view_table_data"
    ticket, of whatever epic and tab, carries the same list of columns,
    the one [_extract_columns] reads off the whole transcript; the tab name
    passed to [_extract_columns] does not change its result. *)
Theorem C10_columns_not_tab_scoped :
  forall rsd today self text metadata doc e t,
    process_transcript rsd today self text metadata = Some doc ->
    In e (epics doc) -> In t (tickets e) ->
    ticket_type t = "view_table_data" ->
    (exists d, details t = Some d /\
               d_columns d = Some (_extract_columns self text None)) /\
    (forall tab_name,
        _extract_columns self text tab_name = _extract_columns self text None).
Proof.
  intros rsd today self text metadata doc e t Hdoc Hin Ht Hty.
  split; [|reflexivity].
  destruct (document_epic _ _ _ _ _ _ _ Hdoc Hin) as (_ & _ & _ & ed & _ & Hgen).
  destruct (generate_tickets_In _ _ _ _ _ _ _ Hgen Ht)
    as [->|[Hc|[(tab & _ & Htab)|(fs & ->)]]].
  - discriminate Hty.
  - destruct (conditional_tickets_types _ _ _ _ Hc) as [H|H];
      rewrite H in Hty; discriminate Hty.
  - destruct (tab_tickets_types _ _ _ _ Htab) as [[_ Hd] | H].
    + eexists. split; [exact Hd|]. reflexivity.
    + rewrite H in Hty. discriminate Hty.
  - discriminate Hty.
Qed.

Lemma C10_columns_witness :
  Forall (fun t => ticket_type t = "view_table_data" ->
                   exists d, details t = Some d /\
                             d_columns d = Some (_extract_columns init sample_text None))
         (tickets sample_epic).
Proof.
  apply Forall_forall. intros t Ht Hty.
  exact (proj1 (C10_columns_not_tab_scoped never_matches "2026-01-01" init sample_text
                  None sample_document sample_epic t sample_document_ok sample_epic_In
                  Ht Hty)).
Defined.

(* ================================================================= *)
(** ** Clarifications *)

Lemma placeholder_detected (s : string) :
  has_placeholder s -> Py.has_char "<" s = true.
Proof. intros (a & m & b & ->). apply has_char_app. Qed.

Lemma ticket_clarifications_columns (t : TicketSpec) :
  filter is_column_item (ticket_clarifications t) =
  if columns_incomplete t then [column_item t] else [].
Proof.
  unfold ticket_clarifications, columns_incomplete.
  destruct (String.eqb (ticket_type t) "add_entity"
            && existsb (fun f => Py.has_char "<" (f_name f)) (fields_of t));
    destruct (String.eqb (ticket_type t) "view_table_data"
              && existsb (fun col => Py.has_char "<" col) (columns_of t));
    reflexivity.
Qed.

Lemma filter_flat_map_list {X Y : Type} (p : Y -> bool) (f : X -> list Y) (l : list X) :
  filter p (flat_map f l) = flat_map (fun x => filter p (f x)) l.
Proof.
  induction l as [|x l IH]; cbn [flat_map]; [reflexivity|].
  now rewrite filter_app, IH.
Qed.

Lemma map_filter_flat_map {X Y : Type} (g : X -> Y) (q : X -> bool) (l : list X) :
  map g (filter q l) = flat_map (fun x => if q x then [g x] else []) l.
Proof.
  induction l as [|x l IH]; cbn [filter flat_map map]; [reflexivity|].
  destruct (q x); cbn [map app]; now rewrite IH.
Qed.

Lemma flat_map_ext_list {X Y : Type} (f g : X -> list Y) (l : list X) :
  (forall x, f x = g x) -> flat_map f l = flat_map g l.
Proof.
  intros H. induction l as [|x l IH]; cbn [flat_map]; [reflexivity|].
  now rewrite H, IH.
Qed.

Lemma flat_map_flat_map {X Y Z : Type} (f : X -> list Y) (g : Y -> list Z) (l : list X) :
  flat_map g (flat_map f l) = flat_map (fun x => flat_map g (f x)) l.
Proof.
  induction l as [|x l IH]; cbn [flat_map]; [reflexivity|].
  now rewrite flat_map_app, IH.
Qed.

(** C7. In any list of epics, an "add_entity" ticket with a field whose
    name holds a placeholder marker gives a clarification whose question
    names the summary of that ticket; the clarifications about columns are,
    in the order of the tickets, one for each "view_table_data" ticket one
    of whose columns holds the opening bracket of a marker, which is the
    case of every column that holds a marker; and the clarifications of a
    document are those of its epics. *)
Theorem C7_placeholders_raise_clarifications :
  forall es e t f,
    In e es -> In t (tickets e) ->
    ticket_type t = "add_entity" ->
    In f (fields_of t) -> has_placeholder (f_name f) ->
    In (field_item t) (_identify_clarifications es) /\
    (forall any_epics,
        filter is_column_item (_identify_clarifications any_epics) =
        map column_item (filter columns_incomplete (flat_map tickets any_epics))) /\
    (forall column, has_placeholder column -> Py.has_char "<" column = true) /\
    (forall rsd today self text metadata doc,
        process_transcript rsd today self text metadata = Some doc ->
        clarifications_needed doc = _identify_clarifications (epics doc)).
Proof.
  intros es e t f He Ht Hty Hf Hp. split; [|split; [|split]].
  - unfold _identify_clarifications. apply in_flat_map. exists e. split; [exact He|].
    apply in_flat_map. exists t. split; [exact Ht|].
    unfold ticket_clarifications. rewrite Hty. cbn [String.eqb Ascii.eqb Bool.eqb andb].
    replace (existsb (fun f0 => Py.has_char "<" (f_name f0)) (fields_of t)) with true.
    + left. reflexivity.
    + symmetry. apply existsb_exists. exists f. split; [exact Hf|].
      now apply placeholder_detected.
  - intros any_epics. unfold _identify_clarifications.
    rewrite filter_flat_map_list, map_filter_flat_map, flat_map_flat_map.
    apply flat_map_ext_list. intros ep.
    rewrite filter_flat_map_list. apply flat_map_ext_list. intros tk.
    apply ticket_clarifications_columns.
  - exact placeholder_detected.
  - intros rsd today self text metadata doc. unfold process_transcript.
    destruct (process_epics rsd self text (_extract_epics self text)); [|discriminate].
    now intros [= <-].
Qed.

Lemma C7_placeholders_witness :
  In (field_item sample_add_ticket) (_identify_clarifications (epics sample_document)).
Proof.
  refine (proj1 (C7_placeholders_raise_clarifications (epics sample_document)
                   sample_epic sample_add_ticket sample_field
                   sample_epic_In _ eq_refl _ _)).
  - vm_compute. do 5 right. left. reflexivity.
  - left. reflexivity.
  - exists EmptyString, "Field 1", EmptyString. reflexivity.
Defined.

(* ================================================================= *)
(** ** The summary of an "add_entity" ticket *)

(** C1 at the transcript "We want to add patients.": the entity is
    "patients", and the summary that [_generate_tickets_from_text] writes
    for the only "add_entity" ticket stops after the entity name, "User
    should be able to add a patients"; the claim, and [generate_summary]
    for the same type and entity, go on with the "+ patients" CTA. *)
Lemma C1_summary_counterexample :
  Py.any_in creation_keywords (Py.lower "We want to add patients.") = true /\
  option_map add_entity_summaries
    (process_transcript never_matches "2026-01-01" init "We want to add patients." None)
  = Some [["User should be able to add a patients"]] /\
  _extract_entity_name "We want to add patients." "Unnamed Feature" = "patients" /\
  String.eqb "User should be able to add a patients" (add_entity_template "patients")
  = false.
Proof. vm_compute. repeat split; reflexivity. Qed.

(** The same on every transcript. When the lower-cased transcript
    contains a creation keyword, the last ticket of every epic is its only
    "add_entity" ticket; its summary is "User should be able to add a E"
    and its details name the entity E, the name [_extract_entity_name]
    infers for that epic.  The longer text with the "+ E" CTA is what
    [generate_summary] gives for the type "add_entity" and a non-empty
    entity name E when no scope is passed. *)
Lemma add_entity_summary_written :
  forall rsd today self text metadata doc e,
    Py.any_in creation_keywords (Py.lower text) = true ->
    process_transcript rsd today self text metadata = Some doc ->
    In e (epics doc) ->
    let entity := _extract_entity_name text (epic_name e) in
    (exists before t d,
        tickets e = (before ++ [t])%list /\
        ticket_type t = "add_entity" /\
        summary t = "User should be able to add a " ++ entity /\
        details t = Some d /\ d_entity_name d = Some entity /\
        Forall (fun b => ticket_type b <> "add_entity") before) /\
    (forall feature_name tab_name any_entity,
        Py.truthy any_entity = true ->
        generate_summary "add_entity" feature_name tab_name (Some any_entity) None
        = add_entity_template any_entity).
Proof.
  intros rsd today self text metadata doc e Hkw Hdoc Hin entity. split.
  - destruct (document_epic _ _ _ _ _ _ _ Hdoc Hin) as (_ & _ & _ & ed & _ & Hgen).
    destruct (generate_tickets_shape _ _ _ _ _ _ Hgen) as (last & Hts & Hlast).
    unfold creation_keywords in Hkw. rewrite Hkw in Hlast.
    destruct Hlast as (fs & _ & ->).
    exists (backend_ticket (epic_name e) :: conditional_tickets self text (epic_name e)
            ++ flat_map (tab_tickets self text) (tabs ed))%list.
    eexists. eexists. split.
    { rewrite Hts. cbn [app]. now rewrite <- app_assoc. }
    split; [reflexivity|]. split; [reflexivity|]. split; [reflexivity|].
    split; [reflexivity|].
    constructor; [discriminate|]. apply Forall_app. split; apply Forall_forall; intros b Hb.
    + destruct (conditional_tickets_types _ _ _ _ Hb) as [-> | ->]; discriminate.
    + apply in_flat_map in Hb. destruct Hb as (tab & _ & Hb).
      destruct (tab_tickets_types _ _ _ _ Hb) as [[-> _] | ->]; discriminate.
  - intros feature_name tab_name any_entity Hne.
    unfold generate_summary, add_entity_template. cbn [find fst snd].
    change (String.eqb "view_table_data" "add_entity") with false.
    change (String.eqb "add_entity" "add_entity") with true.
    cbn iota. unfold or_else. rewrite Hne. reflexivity.
Qed.

Lemma add_entity_summary_sample :
  exists before t d,
    tickets sample_epic = (before ++ [t])%list /\
    ticket_type t = "add_entity" /\
    summary t = "User should be able to add a "
                ++ _extract_entity_name sample_text (epic_name sample_epic) /\
    details t = Some d /\
    d_entity_name d = Some (_extract_entity_name sample_text (epic_name sample_epic)) /\
    Forall (fun b => ticket_type b <> "add_entity") before.
Proof.
  refine (proj1 (add_entity_summary_written never_matches "2026-01-01" init sample_text None
                   sample_document sample_epic _ sample_document_ok sample_epic_In)).
  vm_compute. reflexivity.
Defined.

(* ================================================================= *)
(** ** The RBAC map *)

Lemma rbac_has_get role rbac :
  rbac_has role rbac = match rbac_get role rbac with Some _ => true | None => false end.
Proof.
  induction rbac as [|[k e] rest IH]; cbn [rbac_has rbac_get]; [reflexivity|].
  destruct (String.eqb k role); [reflexivity|exact IH].
Qed.

Lemma rbac_get_snoc role rbac k e :
  rbac_get role (rbac ++ [(k, e)])%list =
  match rbac_get role rbac with
  | Some x => Some x
  | None => if String.eqb k role then Some e else None
  end.
Proof.
  induction rbac as [|[k0 e0] rest IH]; cbn [rbac_get app]; [reflexivity|].
  destruct (String.eqb k0 role); [reflexivity|exact IH].
Qed.

Lemma rbac_get_append role r action rbac :
  rbac_get role (rbac_append r action rbac) =
  if String.eqb r role then option_map (with_action action) (rbac_get role rbac)
  else rbac_get role rbac.
Proof.
  induction rbac as [|[k e] rest IH]; cbn [rbac_get rbac_append option_map].
  - now destruct (String.eqb r role).
  - destruct (String.eqb k r) eqn:Ekr; cbn [rbac_get].
    + apply String.eqb_eq in Ekr. subst k.
      destruct (String.eqb r role); reflexivity.
    + rewrite IH. destruct (String.eqb k role) eqn:Ek; [|reflexivity].
      destruct (String.eqb r role) eqn:Er; [|reflexivity].
      apply String.eqb_eq in Ek, Er. subst. rewrite String.eqb_refl in Ekr. discriminate.
  Qed.

Lemma add_rbac_actions pattern role rbac m :
  rbac_actions role (add_rbac pattern rbac m) =
  (rbac_actions role rbac ++ contribution pattern role m)%list.
Proof.
  unfold add_rbac, rbac_actions, contribution.
  set (r := Py.capitalize (group 1 m)).
  set (a := Py.strip (if 1 <? ngroups pattern then group 2 m else group 1 m)).
  rewrite rbac_get_append. rewrite (rbac_has_get r rbac).
  destruct (String.eqb r role) eqn:Er.
  - apply String.eqb_eq in Er. subst role.
    destruct (rbac_get r rbac) as [e|] eqn:Eg; cbn [negb].
    + rewrite Eg. reflexivity.
    + rewrite rbac_get_snoc, Eg, String.eqb_refl. reflexivity.
  - destruct (rbac_get r rbac) as [e|] eqn:Eg; cbn [negb].
    + now rewrite app_nil_r.
    + rewrite rbac_get_snoc, Er. destruct (rbac_get role rbac); now rewrite ?app_nil_r.
Qed.

Lemma fold_add_rbac_actions pattern role ms : forall rbac,
  rbac_actions role (fold_left (add_rbac pattern) ms rbac) =
  (rbac_actions role rbac ++ flat_map (contribution pattern role) ms)%list.
Proof.
  induction ms as [|m ms IH]; intros rbac; cbn [fold_left flat_map].
  - now rewrite app_nil_r.
  - now rewrite IH, add_rbac_actions, app_assoc.
Qed.

(** The actions of an actor are, in the order of the rules and of the
    matches, the actions of the matches that name the actor. *)
Lemma extract_rbac_actions self text role :
  rbac_actions role (_extract_rbac self text) =
  flat_map (fun pattern => flat_map (contribution pattern role) (finditer true pattern text))
           (p_rbac (extraction_patterns self)).
Proof.
  unfold _extract_rbac.
  change (flat_map (fun pattern => flat_map (contribution pattern role)
                                            (finditer true pattern text))
                   (p_rbac (extraction_patterns self)))
    with ([] ++ flat_map (fun pattern => flat_map (contribution pattern role)
                                                  (finditer true pattern text))
                         (p_rbac (extraction_patterns self)))%list.
  change (@nil string) with (rbac_actions role []) at 1.
  generalize (@nil (string * RbacEntry)) as rbac.
  induction (p_rbac (extraction_patterns self)) as [|p ps IH]; intros rbac;
    cbn [fold_left flat_map].
  - now rewrite app_nil_r.
  - now rewrite IH, fold_add_rbac_actions, app_assoc.
Qed.

Lemma rstrip_keep (c : ascii) (s : string) :
  Py.is_space c = false -> Py.rstrip (String c s) = String c (Py.rstrip s).
Proof.
  intros H. cbn [Py.rstrip]. rewrite H. now destruct (Py.rstrip s).
Qed.

Lemma rstrip_app_keep (w : string) (c : ascii) (x : string) :
  Py.is_space c = false ->
  Py.rstrip (w ++ String c x) = w ++ String c (Py.rstrip x).
Proof.
  intros H. induction w as [|a w IH]; cbn [append].
  - now apply rstrip_keep.
  - cbn [Py.rstrip]. rewrite IH. now destruct w.
Qed.

Lemma strip_action (x : string) :
  Py.strip ("edit medication records" ++ x) = "edit medication records" ++ Py.rstrip x.
Proof.
  unfold Py.strip.
  change (Py.lstrip ("edit medication records" ++ x))
    with ("edit medication record" ++ String "s" x).
  now rewrite rstrip_app_keep.
Qed.

Lemma rbac_rule_2_split {A : Type} n s c (k : @cont A) :
  run true rbac_rule_2 n s c k =
  run_list true rbac_rule_2_head n s c
           (fun n' s' c' => run true (Grp 2 (plus no_dot)) n' s' c' k).
Proof. reflexivity. Qed.

(** On the phrase, the head of the rule reads "only nurses can " and hands
    over to the last group at offset 16, whatever comes after. *)
Lemma rbac_head_phrase {A : Type} (post : string) (k : @cont A) x :
  k 16 ("edit medication records" ++ post) [(1, (5, 11))] = Some x ->
  run_list true rbac_rule_2_head 0 (rbac_phrase ++ post) [] k = Some x.
Proof.
  intros H. vm_compute in H. vm_compute. rewrite H. reflexivity.
Qed.

(** The match of the second RBAC rule at the phrase: the action runs to
    the end of the sentence. *)
Lemma rbac_phrase_match (pos : nat) (post : string) :
  match_at true rbac_rule_2 pos (rbac_phrase ++ post) =
  Some {| m_start := pos;
          m_end := pos + (39 + span true no_dot post);
          m_text := rbac_phrase ++ substring 0 (span true no_dot post) post;
          m_groups :=
            [(2, "edit medication records" ++ substring 0 (span true no_dot post) post);
             (1, "nurses")] |}.
Proof.
  assert (Hspan : span true no_dot ("edit medication records" ++ post)
                  = 23 + span true no_dot post) by reflexivity.
  unfold match_at. rewrite rbac_rule_2_split. apply rbac_head_phrase.
  cbn [run plus]. apply rep_greedy_max; rewrite Hspan; [lia|reflexivity].
Qed.

Lemma space_not_o (a : ascii) : Py.is_space a = true -> char_eq true "o" a = false.
Proof. destruct a as [[] [] [] [] [] [] [] []]; vm_compute; congruence. Qed.


Lemma lit_mismatch {A} ic c l r2 n a s caps (k : @cont A) :
  char_eq ic c a = false ->
  run ic (Seq (Lit (String c l)) r2) n (String a s) caps k = None.
Proof. intros H. cbn [run lit]. now rewrite H. Qed.

Lemma rbac_rule_2_not_at_space pos a s :
  Py.is_space a = true -> match_at true rbac_rule_2 pos (String a s) = None.
Proof.
  intros H. unfold match_at. apply lit_mismatch. now apply space_not_o.
Qed.
Lemma finditer_from_past_spaces (rest : string) m :
  forall ws pos,
    all_chars Py.is_space ws = true ->
    In m (finditer_from true rbac_rule_2 (pos + String.length ws) 0 rest) ->
    In m (finditer_from true rbac_rule_2 pos 0 (ws ++ rest)).
Proof.
  induction ws as [|a ws IH]; intros pos Hws Hin; cbn [String.length append] in *.
  - now rewrite Nat.add_0_r in Hin.
  - apply andb_true_iff in Hws. destruct Hws as [Ha Hws].
    cbn [finditer_from]. rewrite (rbac_rule_2_not_at_space pos a _ Ha).
    apply IH; [exact Hws|]. now rewrite <- Nat.add_succ_comm in Hin.
Qed.

Lemma finditer_from_hit ic r pos s m :
  match_at ic r pos s = Some m -> In m (finditer_from ic r pos 0 s).
Proof.
  intros H. destruct s; cbn [finditer_from]; rewrite H; left; reflexivity.
Qed.

(** Where the phrase opens a sentence, the second RBAC rule has a match
    that starts at it. *)
Lemma rbac_phrase_found (q ws post : string) :
  q = EmptyString \/ (exists q', q = q' ++ ".") ->
  all_chars Py.is_space ws = true ->
  exists m, In m (finditer true rbac_rule_2 ((q ++ ws) ++ rbac_phrase ++ post)) /\
            m_start m = String.length (q ++ ws).
Proof.
  intros Hq Hws.
  pose proof (rbac_phrase_match (String.length (q ++ ws)) post) as Hm.
  apply finditer_from_hit in Hm.
  match type of Hm with In ?x _ => exists x end. split; [|reflexivity].
  set (m := MkMatch _ _ _ _) in *. clearbody m.
  rewrite length_app in Hm. rewrite app_assoc_str. unfold finditer.
  destruct Hq as [-> | (q' & ->)].
  - exact (finditer_from_past_spaces (rbac_phrase ++ post) m ws 0 Hws Hm).
  - rewrite app_assoc_str.
    apply (finditer_from_past_period true rbac_rule_2 (ws ++ rbac_phrase ++ post) _
             eq_refl q' 0 0 (Nat.le_0_l _)).
    apply (finditer_from_past_spaces (rbac_phrase ++ post) m ws); [exact Hws|].
    rewrite length_app in Hm. exact Hm.
Qed.

(** The claim C8 read on the code: the transcript below contains the
    phrase, but each RBAC rule has one match only, which starts at
    "doctors" or before it and runs over the phrase; the map has the single
    actor "Doctors". *)
Lemma C8_rbac_counterexample :
  Py.contains rbac_phrase ("only doctors can say that " ++ rbac_phrase) = true /\
  map fst (_extract_rbac init ("only doctors can say that " ++ rbac_phrase)) = ["Doctors"] /\
  rbac_get "Nurses" (_extract_rbac init ("only doctors can say that " ++ rbac_phrase)) = None.
Proof. vm_compute. repeat split; reflexivity. Qed.

(** C8 as the code has it. When the rule "only (nurses|doctors|admins)
    (can|should|may) ..." has a match that starts at an occurrence of the
    phrase, that is, when no earlier match of that rule in the same
    sentence has run over it, the RBAC map has the actor "Nurses" with an
    action that starts with "edit medication records" (the action runs to
    the end of the sentence).  For every transcript the actions of an actor
    are those of all the matches of all the rules that name the actor, in
    order: a later match adds to the list of an actor already there.  The
    rule has a match that starts at the phrase whenever the phrase opens a
    sentence: it comes first in the transcript or after a period, white
    space aside. *)
Theorem C8_rbac_nurses :
  forall pre post m,
    In m (finditer true rbac_rule_2 (pre ++ rbac_phrase ++ post)) ->
    m_start m = String.length pre ->
    (exists entry action,
        rbac_get "Nurses" (_extract_rbac init (pre ++ rbac_phrase ++ post)) = Some entry /\
        In action (actions entry) /\
        Py.startswith "edit medication records" action = true) /\
    (forall self text role,
        rbac_actions role (_extract_rbac self text) =
        flat_map (fun pattern =>
                    flat_map (contribution pattern role) (finditer true pattern text))
                 (p_rbac (extraction_patterns self))) /\
    (forall sentences spaces rest,
        sentences = EmptyString \/ (exists before, sentences = before ++ ".") ->
        all_chars Py.is_space spaces = true ->
        exists found,
          In found (finditer true rbac_rule_2
                             ((sentences ++ spaces) ++ rbac_phrase ++ rest)) /\
          m_start found = String.length (sentences ++ spaces)).
Proof.
  intros pre post m Hin Hstart.
  split; [|split; [exact extract_rbac_actions|exact rbac_phrase_found]].
  pose proof (finditer_sound _ _ _ _ Hin) as Hm.
  rewrite Hstart, drop_app_length, rbac_phrase_match in Hm. injection Hm as Hm.
  set (tail := substring 0 (span true no_dot post) post) in Hm.
  assert (Hc : contribution rbac_rule_2 "Nurses" m
               = [Py.strip ("edit medication records" ++ tail)])
    by (subst m; reflexivity).
  assert (Ha : In (Py.strip ("edit medication records" ++ tail))
                  (rbac_actions "Nurses" (_extract_rbac init (pre ++ rbac_phrase ++ post)))).
  { rewrite extract_rbac_actions.
    change (p_rbac (extraction_patterns init)) with [rbac_rule_1; rbac_rule_2].
    cbn [flat_map]. apply in_or_app. right. apply in_or_app. left.
    apply in_flat_map. exists m. split; [exact Hin|]. rewrite Hc. now left. }
  unfold rbac_actions in Ha.
  destruct (rbac_get "Nurses" (_extract_rbac init (pre ++ rbac_phrase ++ post)))
    as [entry|]; [|destruct Ha].
  exists entry, (Py.strip ("edit medication records" ++ tail)).
  split; [reflexivity|]. split; [exact Ha|].
  rewrite strip_action. apply startswith_app.
Qed.

Lemma C8_rbac_witness :
  exists entry action,
    rbac_get "Nurses"
             (_extract_rbac init ("Doctors can view. " ++ rbac_phrase ++ " at night. Bye"))
    = Some entry /\
    In action (actions entry) /\
    Py.startswith "edit medication records" action = true.
Proof.
  refine (proj1 (C8_rbac_nurses "Doctors can view. " " at night. Bye"
                   (MkMatch 18 66 (rbac_phrase ++ " at night")
                            [(2, "edit medication records at night"); (1, "nurses")])
                   _ _)).
  - vm_compute. left. reflexivity.
  - reflexivity.
Defined.

(* ================================================================= *)
(** ** Occurrences in a concatenation *)

Lemma startswith_inv (w s : string) :
  Py.startswith w s = true -> exists b, s = w ++ b.
Proof.
  revert s. induction w as [|a w IH]; intros s H.
  - exists s. reflexivity.
  - destruct s as [|c s]; [discriminate|]. cbn [Py.startswith] in H.
    apply andb_true_iff in H. destruct H as [Hc H].
    apply Ascii.eqb_eq in Hc. subst c.
    destruct (IH s H) as (b & ->). exists b. reflexivity.
Qed.

Lemma contains_occurs (w s : string) : Py.contains w s = true -> occurs_in w s.
Proof.
  induction s as [|c s IH]; rewrite contains_unfold; intros H.
  - rewrite orb_false_r in H. apply startswith_inv in H. destruct H as (b & ->).
    exists EmptyString, b. reflexivity.
  - apply orb_true_iff in H. destruct H as [H|H].
    + apply startswith_inv in H. destruct H as (b & ->).
      exists EmptyString, b. reflexivity.
    + destruct (IH H) as (a & b & ->). exists (String c a), b. reflexivity.
Qed.

(** If [u] occurs in [w] and [w] in [x], then [u] occurs in [x]. *)
Lemma contains_trans (u w x : string) :
  Py.contains u w = true -> Py.contains w x = true -> Py.contains u x = true.
Proof.
  intros Hu Hw. apply contains_occurs in Hu, Hw.
  destruct Hu as (a & b & ->). destruct Hw as (c & d & ->).
  replace (c ++ (a ++ u ++ b) ++ d) with ((c ++ a) ++ u ++ (b ++ d)).
  - apply contains_app.
  - now rewrite !app_assoc_str.
Qed.

Lemma startswith_app_split (w : string) : forall a b,
  Py.startswith w (a ++ b) =
  Py.startswith w a
  || (Py.startswith a w && negb (Py.startswith w a)
      && Py.startswith (Py.drop (String.length a) w) b).
Proof.
  induction w as [|x w IH]; intros a b.
  - destruct a; reflexivity.
  - destruct a as [|c a].
    + cbn [append Py.startswith String.length Py.drop negb andb orb]. reflexivity.
    + cbn [append Py.startswith String.length Py.drop]. rewrite IH.
      rewrite (Ascii.eqb_sym c x).
      destruct (Ascii.eqb x c); cbn [andb orb negb]; reflexivity.
Qed.

(** An occurrence of [w] in [a ++ b] lies in [a], or in [b], or across. *)
Lemma contains_app_eq (w a b : string) :
  Py.contains w (a ++ b) = Py.contains w a || straddles w a b || Py.contains w b.
Proof.
  induction a as [|c a IH].
  - cbn [append straddles]. rewrite orb_false_r.
    rewrite (contains_unfold w EmptyString), orb_false_r.
    destruct w as [|x w]; [destruct b; reflexivity|reflexivity].
  - change (String c a ++ b) with (String c (a ++ b)).
    rewrite (contains_unfold w (String c (a ++ b))), IH.
    change (String c (a ++ b)) with (String c a ++ b).
    rewrite startswith_app_split, (contains_unfold w (String c a)).
    cbn [straddles].
    destruct (Py.startswith w (String c a));
      destruct (Py.startswith (String c a) w
                && negb false && Py.startswith (Py.drop (String.length (String c a)) w) b);
      destruct (Py.contains w a); destruct (straddles w a b);
      destruct (Py.contains w b); try reflexivity.
Qed.

Lemma suffix_hits_drop (w b : string) : forall k,
  1 <= k -> k < String.length w ->
  Py.startswith (Py.drop k w) b = true -> suffix_hits w b = true.
Proof.
  induction w as [|x w IH]; intros k Hk Hlt H; cbn [String.length] in Hlt; [lia|].
  cbn [suffix_hits]. destruct k as [|k]; [lia|]. cbn [Py.drop] in H.
  destruct k as [|k].
  - cbn [Py.drop] in H. replace (Py.drop 0 w) with w in H by (destruct w; reflexivity).
    destruct w as [|y w]; [cbn [String.length] in Hlt; lia|].
    cbn [Py.truthy andb]. rewrite H. reflexivity.
  - rewrite (IH (S k)); [apply orb_true_r|lia|lia|exact H].
Qed.

Lemma startswith_length (a w : string) :
  Py.startswith a w = true -> String.length a <= String.length w.
Proof.
  intros H. apply startswith_inv in H. destruct H as (b & ->).
  rewrite length_app. lia.
Qed.

Lemma startswith_same_length (a w : string) :
  Py.startswith a w = true -> String.length a = String.length w ->
  Py.startswith w a = true.
Proof.
  intros H Hl. apply startswith_inv in H. destruct H as (b & ->).
  rewrite length_app in Hl. destruct b; [|cbn [String.length] in Hl; lia].
  replace (a ++ EmptyString) with a.
  - replace a with (a ++ EmptyString) at 2; [apply startswith_app|].
    clear. induction a as [|c a IH]; cbn [append]; [reflexivity|now rewrite IH].
  - clear. induction a as [|c a IH]; cbn [append]; [reflexivity|now rewrite <- IH].
Qed.

(** No occurrence runs from [a] into [b] when [b] does not begin with a
    proper suffix of [w]. *)
Lemma straddles_none (w a b : string) :
  suffix_hits w b = false -> straddles w a b = false.
Proof.
  intros H. induction a as [|c a IH]; [reflexivity|].
  cbn [straddles]. rewrite IH, orb_false_r.
  destruct (Py.startswith (String c a) w) eqn:E1; [|reflexivity].
  destruct (Py.startswith w (String c a)) eqn:E2; [reflexivity|].
  cbn [negb andb].
  destruct (Py.startswith (Py.drop (String.length (String c a)) w) b) eqn:E3;
    [|reflexivity].
  rewrite <- H. symmetry.
  apply (suffix_hits_drop w b (String.length (String c a))); [cbn; lia| |exact E3].
  pose proof (startswith_length _ _ E1) as Hle.
  destruct (Nat.eq_dec (String.length (String c a)) (String.length w)) as [He|Hne];
    [|lia].
  rewrite (startswith_same_length _ _ E1 He) in E2. discriminate.
Qed.

Lemma orb3_false (x y z : bool) : x = false -> y = false -> z = false -> x || y || z = false.
Proof. now intros -> -> ->. Qed.

Lemma contains_app_left (w a b : string) :
  Py.contains w a = true -> Py.contains w (a ++ b) = true.
Proof. intros H. now rewrite contains_app_eq, H. Qed.

Lemma contains_app_right (w a b : string) :
  Py.contains w b = true -> Py.contains w (a ++ b) = true.
Proof. intros H. rewrite contains_app_eq, H. apply orb_true_r. Qed.

(* ================================================================= *)
(** ** [detect_ticket_type] and [generate_summary] *)

Ltac in_list := cbn [In triggers]; repeat (first [left; reflexivity | right]).

(** [contains w x = false] for [x] made of literals and of names known to
    be free of [w]. *)
Ltac no_occ :=
  lazymatch goal with
  | |- Py.contains ?w (?a ++ ?b) = false =>
      rewrite (contains_app_eq w a b); apply orb3_false;
      [ no_occ
      | first [ apply straddles_none; reflexivity | reflexivity ]
      | no_occ ]
  | |- Py.contains ?w ?a = false =>
      first [ reflexivity
            | match goal with
              | H : forall u, In u triggers -> Py.contains u a = false |- _ =>
                  apply H; unfold triggers; in_list
              end ]
  end.

Ltac has_occ :=
  lazymatch goal with
  | |- Py.contains ?w (?a ++ ?b) = true =>
      first [ apply contains_app_left; reflexivity
            | apply contains_app_right; has_occ ]
  | |- _ => reflexivity
  end.

(** The tests of [detect_ticket_type] on [x], in their order, up to the
    first that holds. *)
Ltac walk ws x :=
  lazymatch ws with
  | ?w :: ?rest =>
      first [ let Hn := fresh "Hn" in
              assert (Hn : Py.contains w x = false) by no_occ;
              rewrite Hn; clear Hn; walk rest x
            | let Hp := fresh "Hp" in
              assert (Hp : Py.contains w x = true) by has_occ;
              rewrite Hp; clear Hp ]
  | _ => idtac
  end.

Ltac lower_literals :=
  repeat match goal with
  | |- context [Py.lower (String ?c ?r)] =>
      let v := eval vm_compute in (Py.lower (String c r)) in
      change (Py.lower (String c r)) with v
  end.

Ltac literal_free :=
  let w := fresh "w" in let H := fresh "H" in
  intros w H; unfold triggers in H; cbn [In] in H;
  repeat (destruct H as [<-|H]; [reflexivity|]); destruct H.

Lemma or_else_free (x : option string) (d : string) :
  trigger_free_opt x -> trigger_free d -> trigger_free (or_else x d).
Proof.
  intros Hx Hd. destruct x as [s|]; [|exact Hd].
  cbn [or_else]. destruct (Py.truthy s); [exact Hx|exact Hd].
Qed.

(** A scope prefix does not change what [detect_ticket_type] finds. *)
Lemma detect_scope_prefix (s : string) :
  detect_ticket_type ("FE: " ++ s) = detect_ticket_type s /\
  detect_ticket_type ("BE: " ++ s) = detect_ticket_type s.
Proof.
  unfold detect_ticket_type. cbv zeta. rewrite !lower_app. lower_literals.
  generalize (Py.lower s) as x. intros x.
  rewrite !contains_app_eq. split; reflexivity.
Qed.

(** What the scope does to a summary. *)
Lemma generate_summary_scope t F tab e scope :
  exists p, (p = EmptyString \/ p = "FE: " \/ p = "BE: ") /\
            generate_summary t F tab e scope = p ++ generate_summary t F tab e None.
Proof.
  unfold generate_summary.
  match goal with |- context [match find ?f ?l with _ => _ end] =>
    generalize (match find f l with Some e0 => snd e0
                                  | None => "User should be able to " ++ F end) end.
  intros summary. destruct scope as [sc|]; [|exists EmptyString; auto].
  destruct (Py.truthy sc && Py.mem (Py.upper sc) ["FE"; "BE"]) eqn:E;
    [|exists EmptyString; auto].
  destruct (negb (Py.startswith (Py.upper sc ++ ":") summary));
    [|exists EmptyString; auto].
  apply andb_true_iff in E. destruct E as [_ E]. unfold Py.mem in E. cbn [existsb] in E.
  rewrite orb_false_r in E. apply orb_true_iff in E.
  destruct E as [E|E]; apply String.eqb_eq in E; rewrite E.
  - exists "FE: ". auto.
  - exists "BE: ". auto.
Qed.

Ltac expand_summary :=
  match goal with
  | |- context [generate_summary ?t ?F ?tab ?e None] =>
      let s := eval cbv [generate_summary find fst snd String.eqb Ascii.eqb Bool.eqb]
                 in (generate_summary t F tab e None) in
      change (generate_summary t F tab e None) with s
  end.

Lemma round_trip_no_scope t F tab e :
  In t template_types ->
  trigger_free F -> trigger_free_opt tab -> trigger_free_opt e ->
  detect_ticket_type (generate_summary t F tab e None) = t.
Proof.
  intros Ht HF Htab He.
  assert (HT : trigger_free (or_else tab F)) by now apply or_else_free.
  assert (H1 : trigger_free (or_else e "record"))
    by (apply or_else_free; [exact He|literal_free]).
  assert (H2 : trigger_free (or_else e "Add"))
    by (apply or_else_free; [exact He|literal_free]).
  assert (H3 : trigger_free (or_else e "records"))
    by (apply or_else_free; [exact He|literal_free]).
  clear Htab He. unfold trigger_free in *.
  unfold template_types in Ht. cbn [In] in Ht.
  repeat (destruct Ht as [<-|Ht];
    [ expand_summary; unfold detect_ticket_type, quoted, dq; cbv zeta;
      rewrite !lower_app; lower_literals;
      set (hF := Py.lower F) in *; set (hT := Py.lower (or_else tab F)) in *;
      set (h1 := Py.lower (or_else e "record")) in *;
      set (h2 := Py.lower (or_else e "Add")) in *;
      set (h3 := Py.lower (or_else e "records")) in *;
      clearbody hF hT h1 h2 h3;
      match goal with |- context [Py.contains _ ?x] =>
        let ws := eval unfold triggers in triggers in walk ws x end;
      reflexivity | ]).
  destruct Ht.
Qed.

(* ================================================================= *)
(** ** Trimmed names *)

Lemma lstrip_shape (s : string) :
  Py.lstrip s = EmptyString \/
  exists c r, Py.lstrip s = String c r /\ Py.is_space c = false.
Proof.
  induction s as [|a s IH]; [now left|].
  cbn [Py.lstrip]. destruct (Py.is_space a) eqn:E; [exact IH|].
  right. exists a, s. auto.
Qed.

Lemma rstrip_idem (s : string) : Py.rstrip (Py.rstrip s) = Py.rstrip s.
Proof.
  induction s as [|c s IH]; [reflexivity|].
  cbn [Py.rstrip]. destruct (Py.rstrip s) as [|d t] eqn:E.
  - destruct (Py.is_space c) eqn:Hc; cbn [Py.rstrip]; [reflexivity|now rewrite Hc].
  - change (Py.rstrip (String c (String d t)))
      with (match Py.rstrip (String d t) with
            | EmptyString => if Py.is_space c then EmptyString else String c EmptyString
            | String d0 t0 => String c (String d0 t0)
            end).
    now rewrite IH.
Qed.

Lemma strip_idem (s : string) : Py.strip (Py.strip s) = Py.strip s.
Proof.
  unfold Py.strip. destruct (lstrip_shape s) as [-> | (c & r & -> & Hc)]; [reflexivity|].
  rewrite (rstrip_keep c r Hc). cbn [Py.lstrip]. rewrite Hc.
  now rewrite (rstrip_keep c _ Hc), rstrip_idem.
Qed.

Lemma stripped_nonempty_trimmed (names : list string) :
  Forall trimmed (stripped_nonempty names).
Proof.
  unfold stripped_nonempty. apply Forall_forall. intros x Hx.
  apply filter_In in Hx. destruct Hx as [Hx Ht]. apply in_map_iff in Hx.
  destruct Hx as (y & <- & _). split; [apply strip_idem|].
  intros E. rewrite E in Ht. discriminate.
Qed.

Lemma mem_In (x : string) (xs : list string) : Py.mem x xs = true <-> In x xs.
Proof.
  unfold Py.mem. rewrite existsb_exists. split.
  - intros (y & Hy & E). apply String.eqb_eq in E. now subst.
  - intros H. exists x. split; [exact H|apply String.eqb_refl].
Qed.

(* ================================================================= *)
(** ** Names of epics, tabs, columns and attendees *)

Lemma add_epic_keeps (epics : list string) (m : rmatch) :
  NoDup epics /\ Forall trimmed epics ->
  NoDup (add_epic epics m) /\ Forall trimmed (add_epic epics m).
Proof.
  intros [Hn Ht]. unfold add_epic.
  destruct (Py.truthy (Py.strip (group 1 m))) eqn:E1; [|now split].
  destruct (Py.mem (Py.strip (group 1 m)) epics) eqn:E2; cbn [negb andb]; [now split|].
  split.
  - apply NoDup_app; [exact Hn|repeat constructor; intros []| ].
    intros x Hx [<-|[]]. apply mem_In in Hx. congruence.
  - apply Forall_app. split; [exact Ht|]. constructor; [|constructor].
    split; [apply strip_idem|]. intros E. rewrite E in E1. discriminate.
Qed.

Lemma fold_add_epic_keeps (ms : list rmatch) : forall epics,
  NoDup epics /\ Forall trimmed epics ->
  NoDup (fold_left add_epic ms epics) /\ Forall trimmed (fold_left add_epic ms epics).
Proof.
  induction ms as [|m ms IH]; intros epics H; cbn [fold_left]; [exact H|].
  apply IH. now apply add_epic_keeps.
Qed.

Lemma extract_epics_keeps self text :
  NoDup (_extract_epics self text) /\ Forall trimmed (_extract_epics self text).
Proof.
  unfold _extract_epics.
  assert (Hf : forall ps acc,
             NoDup acc /\ Forall trimmed acc ->
             NoDup (fold_left (fun epics pattern =>
                                 fold_left add_epic (finditer true pattern text) epics)
                              ps acc) /\
             Forall trimmed (fold_left (fun epics pattern =>
                                 fold_left add_epic (finditer true pattern text) epics)
                              ps acc)).
  { induction ps as [|p ps IH]; intros acc Hacc; cbn [fold_left]; [exact Hacc|].
    apply IH. now apply fold_add_epic_keeps. }
  specialize (Hf (p_epic_name (extraction_patterns self)) []
                 (conj (NoDup_nil _) (Forall_nil _))).
  destruct (fold_left _ (p_epic_name (extraction_patterns self)) []) as [|x l].
  - split; [repeat constructor; intros []|].
    constructor; [|constructor]. split; [reflexivity|discriminate].
  - exact Hf.
Qed.

(** X1. The names that [_extract_epics] returns are pairwise different,
    not empty and without white space at either end; so are the names of
    the epics of a document. *)
Theorem extract_epics_distinct_trimmed :
  forall self text,
    NoDup (_extract_epics self text) /\
    Forall trimmed (_extract_epics self text) /\
    (forall rsd today metadata doc,
        process_transcript rsd today self text metadata = Some doc ->
        NoDup (map epic_name (epics doc)) /\
        Forall trimmed (map epic_name (epics doc))).
Proof.
  intros self text.
  destruct (extract_epics_keeps self text) as [Hn Ht].
  split; [exact Hn|]. split; [exact Ht|].
  intros rsd today metadata doc Hdoc.
  rewrite (document_epic_names _ _ _ _ _ _ Hdoc). now split.
Qed.

Lemma extract_tabs_keeps self text : Forall trimmed (_extract_tabs self text).
Proof.
  unfold _extract_tabs. apply Forall_forall. intros x Hx.
  apply in_flat_map in Hx. destruct Hx as (p & _ & Hx).
  apply in_flat_map in Hx. destruct Hx as (m & _ & Hx).
  unfold split_names in Hx.
  exact (proj1 (Forall_forall _ _) (stripped_nonempty_trimmed _) x Hx).
Qed.

(** X2. Every tab name that [_extract_tabs] returns is not empty and has
    no white space at either end. *)
Theorem extract_tabs_trimmed :
  forall self text, Forall trimmed (_extract_tabs self text).
Proof. exact extract_tabs_keeps. Qed.

Lemma columns_found_trimmed self text : Forall trimmed (columns_found self text).
Proof.
  unfold columns_found. apply Forall_forall. intros x Hx.
  apply in_flat_map in Hx. destruct Hx as (p & _ & Hx).
  apply in_flat_map in Hx. destruct Hx as (m & _ & Hx).
  exact (proj1 (Forall_forall _ _) (stripped_nonempty_trimmed _) x Hx).
Qed.

(** X3. [_extract_columns] returns the names that its rules find, in
    their order, or the three placeholders "<Column 1>", "<Column 2>",
    "<Column 3>" when they find none; so it never returns an empty list,
    and each name is not empty and has no white space at either end. *)
Theorem extract_columns_never_empty :
  forall self text tab_name,
    (columns_found self text = [] ->
     _extract_columns self text tab_name = ["<Column 1>"; "<Column 2>"; "<Column 3>"]) /\
    (columns_found self text <> [] ->
     _extract_columns self text tab_name = columns_found self text) /\
    _extract_columns self text tab_name <> [] /\
    Forall trimmed (_extract_columns self text tab_name).
Proof.
  intros self text tab_name.
  pose proof (columns_found_trimmed self text) as H.
  unfold _extract_columns. fold (columns_found self text).
  destruct (columns_found self text) as [|c cs].
  - split; [reflexivity|]. split; [intros E; now destruct E|].
    split; [discriminate|]. repeat constructor; discriminate.
  - split; [discriminate|]. split; [reflexivity|]. split; [discriminate|exact H].
Qed.

(** X4. In the metadata that [_extract_metadata] builds, the duration is
    always "Unknown" and the topics are always empty; every attendee is a
    name that is not empty and trimmed; and without a date label in the
    transcript the date is the date default. *)
Theorem extract_metadata_shape :
  forall today text,
    duration (_extract_metadata today text) = "Unknown" /\
    topics (_extract_metadata today text) = [] /\
    Forall trimmed (attendees (_extract_metadata today text)) /\
    (Re.search true attendees_pattern text = None ->
     attendees (_extract_metadata today text) = []) /\
    (Re.search true date_pattern text = None ->
     date (_extract_metadata today text) = today).
Proof.
  intros today text. unfold _extract_metadata. cbn [duration topics attendees date].
  split; [reflexivity|]. split; [reflexivity|]. split; [|split].
  - destruct (Re.search true attendees_pattern text);
      [apply stripped_nonempty_trimmed|constructor].
  - now intros ->.
  - now intros ->.
Qed.

(* ================================================================= *)
(** ** Fields *)






Lemma concat_map_opt_total {X Y : Type} (f : X -> option (list Y)) xs :
  (forall x, exists ys, f x = Some ys) -> exists zs, concat_map_opt f xs = Some zs.
Proof.
  intros Hf. induction xs as [|x xs IH]; cbn [concat_map_opt]; [eauto|].
  destruct (Hf x) as (ys & ->). destruct IH as (zs & ->). eauto.
Qed.







(* ================================================================= *)
(** ** When [process_transcript] raises *)

Lemma generate_tickets_none rsd self text name epic_data :
  _generate_tickets_from_text rsd self text name epic_data = None <->
  has_creation text = true /\ _extract_fields rsd text = None.
Proof.
  unfold _generate_tickets_from_text, has_creation, creation_keywords.
  destruct (Py.any_in ["add"; "create"; "new"; "form"] (Py.lower text)).
  - destruct (_extract_fields rsd text); split; try discriminate; auto.
    intros [_ H]. discriminate.
  - split; [discriminate|]. intros [H _]. discriminate.
Qed.

Lemma process_epic_none rsd self text name :
  _process_epic rsd self text name = None <->
  has_creation text = true /\ _extract_fields rsd text = None.
Proof.
  unfold _process_epic. rewrite <- (generate_tickets_none rsd self text name
    {| epic_name := name;
       epic_description := _extract_epic_description text name;
       e_priority := _extract_priority text;
       scope := "facility-specific";
       tabs := _extract_tabs self text;
       tickets := [] |}).
  destruct (_generate_tickets_from_text _ _ _ _ _); split; try discriminate; auto.
Qed.

Lemma process_epics_none rsd self text names :
  process_epics rsd self text names = None <->
  names <> [] /\ has_creation text = true /\ _extract_fields rsd text = None.
Proof.
  induction names as [|n names IH]; cbn [process_epics].
  - split; [discriminate|]. intros [H _]. now elim H.
  - destruct (_process_epic rsd self text n) as [e|] eqn:E.
    + destruct (process_epics rsd self text names) as [es|] eqn:E2.
      * split; [discriminate|]. intros (_ & H).
        pose proof (proj2 (process_epic_none rsd self text n) H) as Hn.
        rewrite Hn in E. discriminate.
      * split; [|reflexivity]. intros _. split; [discriminate|].
        apply (proj1 IH). reflexivity.
    + split; [|reflexivity]. intros _. split; [discriminate|].
      now apply process_epic_none in E.
Qed.

Lemma process_transcript_none rsd today self text metadata :
  process_transcript rsd today self text metadata = None <->
  has_creation text = true /\ _extract_fields rsd text = None.
Proof.
  unfold process_transcript.
  destruct (process_epics rsd self text (_extract_epics self text)) as [es|] eqn:E.
  - split; [discriminate|]. intros H.
    assert (Hn : process_epics rsd self text (_extract_epics self text) = None).
    { apply process_epics_none. split; [apply extract_epics_nonempty|exact H]. }
    rewrite Hn in E. discriminate.
  - split; [|reflexivity]. intros _. apply process_epics_none in E. tauto.
Qed.

(** X6. [process_transcript] raises exactly when the transcript has a
    creation keyword and [_extract_fields] raises; so it returns a
    document for every transcript without a creation keyword. *)
Theorem process_transcript_raises_iff :
  forall rsd today self text metadata,
    (process_transcript rsd today self text metadata = None <->
     has_creation text = true /\ _extract_fields rsd text = None) /\
    (has_creation text = false ->
     exists doc, process_transcript rsd today self text metadata = Some doc).
Proof.
  intros rsd today self text metadata.
  split; [apply process_transcript_none|]. intros Hc.
  destruct (process_transcript rsd today self text metadata) as [doc|] eqn:E; [eauto|].
  apply process_transcript_none in E. destruct E as [Hk _].
  rewrite Hk in Hc. discriminate.
Qed.







(* ================================================================= *)
(** ** How many tickets and clarifications *)

Lemma length_flat_map_const {X Y : Type} (f : X -> list Y) (k : nat) (l : list X) :
  (forall x, In x l -> List.length (f x) = k) ->
  List.length (flat_map f l) = List.length l * k.
Proof.
  induction l as [|x l IH]; intros H; cbn [flat_map List.length]; [reflexivity|].
  rewrite List.length_app, (H x (or_introl eq_refl)), IH; [cbn [Nat.mul]; lia|].
  intros y Hy. apply H. now right.
Qed.

Lemma length_tab_tickets self text tab :
  List.length (tab_tickets self text tab) = 1 + b2n (has_search text).
Proof.
  unfold tab_tickets, has_search.
  now destruct (Py.any_in ["search"; "filter"; "find"] (Py.lower text)).
Qed.

Lemma length_conditional_tickets self text name :
  List.length (conditional_tickets self text name)
  = b2n (_has_rbac_requirements text) + b2n (has_nav text).
Proof.
  unfold conditional_tickets, has_nav.
  destruct (_has_rbac_requirements text);
    now destruct (Py.any_in ["menu"; "navigation"; "nav bar"; "sidebar"] (Py.lower text)).
Qed.

(** X8. Every epic of a document has one ticket for the backend, one more
    for each of RBAC, navigation and creation that the transcript
    mentions, and for each tab one ticket, or two when the transcript
    mentions searching. *)
Theorem epic_ticket_count :
  forall rsd today self text metadata doc e,
    process_transcript rsd today self text metadata = Some doc ->
    In e (epics doc) ->
    List.length (tickets e)
    = 1 + b2n (_has_rbac_requirements text) + b2n (has_nav text)
      + List.length (_extract_tabs self text) * (1 + b2n (has_search text))
      + b2n (has_creation text).
Proof.
  intros rsd today self text metadata doc e Hdoc Hin.
  destruct (document_epic _ _ _ _ _ _ _ Hdoc Hin) as (_ & _ & _ & ed & Htabs & Hgen).
  destruct (generate_tickets_shape _ _ _ _ _ _ Hgen) as (last & -> & Hlast).
  cbn [List.length]. rewrite !List.length_app, length_conditional_tickets.
  rewrite (length_flat_map_const _ (1 + b2n (has_search text))), Htabs
    by (intros; apply length_tab_tickets).
  unfold has_creation, creation_keywords.
  destruct (Py.any_in ["add"; "create"; "new"; "form"] (Py.lower text)).
  - destruct Hlast as (fs & _ & ->). cbn [List.length b2n]. lia.
  - subst last. cbn [List.length b2n]. lia.
Qed.

Lemma epic_ticket_count_witness :
  List.length (tickets sample_epic)
  = 1 + b2n (_has_rbac_requirements sample_text) + b2n (has_nav sample_text)
    + List.length (_extract_tabs init sample_text) * (1 + b2n (has_search sample_text))
    + b2n (has_creation sample_text).
Proof.
  exact (epic_ticket_count never_matches "2026-01-01" init sample_text None
           sample_document sample_epic sample_document_ok sample_epic_In).
Defined.

Lemma clarifications_of_conditional self text name :
  flat_map ticket_clarifications (conditional_tickets self text name) = [].
Proof.
  unfold conditional_tickets.
  destruct (_has_rbac_requirements text);
    now destruct (Py.any_in ["menu"; "navigation"; "nav bar"; "sidebar"] (Py.lower text)).
Qed.

Lemma clarifications_of_tab self text tab :
  List.length (flat_map ticket_clarifications (tab_tickets self text tab))
  = b2n (columns_have_placeholder (_extract_columns self text None)).
Proof.
  unfold tab_tickets. cbn [flat_map]. rewrite List.length_app.
  assert (Hs : flat_map ticket_clarifications
                 (if Py.any_in ["search"; "filter"; "find"] (Py.lower text)
                  then [{| ticket_type := "search_filter";
                           summary := "User should be able to search and filter data in '"
                                      ++ tab ++ "' tab";
                           priority := "High";
                           details := Some {| d_rbac := None; d_tab_name := Some tab;
                                              d_columns := None; d_entity_name := None;
                                              d_fields := None |} |}]
                  else []) = [])
    by now destruct (Py.any_in ["search"; "filter"; "find"] (Py.lower text)).
  rewrite Hs. cbn [List.length]. rewrite Nat.add_0_r.
  unfold ticket_clarifications, columns_have_placeholder, columns_of.
  cbn [ticket_type details d_columns summary].
  change (String.eqb "view_table_data" "add_entity") with false.
  change (String.eqb "view_table_data" "view_table_data") with true.
  cbn [andb app].
  change (_extract_columns self text (Some tab)) with (_extract_columns self text None).
  now destruct (existsb (fun col => Py.has_char "<" col) (_extract_columns self text None)).
Qed.

(** X9. The number of clarifications of a document: for each epic, one
    for each tab when the columns hold a placeholder bracket, and one more
    when the transcript has a creation keyword and a field name holds a
    placeholder bracket. *)
Theorem clarification_count :
  forall rsd today self text metadata doc,
    process_transcript rsd today self text metadata = Some doc ->
    List.length (clarifications_needed doc)
    = List.length (epics doc)
      * (List.length (_extract_tabs self text)
         * b2n (columns_have_placeholder (_extract_columns self text None))
         + match _extract_fields rsd text with
           | Some fields => b2n (has_creation text && fields_have_placeholder fields)
           | None => 0
           end).
Proof.
  intros rsd today self text metadata doc Hdoc.
  assert (Hc : clarifications_needed doc = _identify_clarifications (epics doc)).
  { revert Hdoc. unfold process_transcript.
    destruct (process_epics rsd self text (_extract_epics self text)); [|discriminate].
    now intros [= <-]. }
  rewrite Hc. unfold _identify_clarifications.
  apply length_flat_map_const. intros e Hin.
  destruct (document_epic _ _ _ _ _ _ _ Hdoc Hin) as (_ & _ & _ & ed & Htabs & Hgen).
  destruct (generate_tickets_shape _ _ _ _ _ _ Hgen) as (last & -> & Hlast).
  change (backend_ticket (epic_name e)
          :: conditional_tickets self text (epic_name e)
             ++ flat_map (tab_tickets self text) (tabs ed) ++ last)%list
    with ([backend_ticket (epic_name e)]
          ++ conditional_tickets self text (epic_name e)
             ++ flat_map (tab_tickets self text) (tabs ed) ++ last)%list.
  rewrite !flat_map_app, clarifications_of_conditional, !List.length_app.
  change (flat_map ticket_clarifications [backend_ticket (epic_name e)]) with (@nil ClarificationItem).
  cbn [List.length app Nat.add].
  rewrite flat_map_flat_map.
  rewrite (length_flat_map_const _
             (b2n (columns_have_placeholder (_extract_columns self text None))))
    by (intros; apply clarifications_of_tab).
  rewrite Htabs. f_equal.
  unfold has_creation, creation_keywords.
  destruct (Py.any_in ["add"; "create"; "new"; "form"] (Py.lower text)).
  - destruct Hlast as (fs & -> & ->). cbn [flat_map andb]. rewrite app_nil_r.
    unfold ticket_clarifications, fields_have_placeholder, fields_of, add_ticket.
    cbn [ticket_type details d_fields summary].
    change (String.eqb "add_entity" "add_entity") with true.
    change (String.eqb "add_entity" "view_table_data") with false.
    cbn [andb]. rewrite app_nil_r.
    now destruct (existsb (fun f => Py.has_char "<" (f_name f)) fs).
  - subst last. cbn [flat_map List.length andb].
    destruct (_extract_fields rsd text); reflexivity.
Qed.

Lemma clarification_count_witness :
  List.length (clarifications_needed sample_document)
  = List.length (epics sample_document)
    * (List.length (_extract_tabs init sample_text)
       * b2n (columns_have_placeholder (_extract_columns init sample_text None))
       + match _extract_fields never_matches sample_text with
         | Some fields => b2n (has_creation sample_text && fields_have_placeholder fields)
         | None => 0
         end).
Proof.
  exact (clarification_count never_matches "2026-01-01" init sample_text None
           sample_document sample_document_ok).
Defined.

(* ================================================================= *)
(** ** The entity name *)

Lemma lower_char_idem (c : ascii) : Py.lower_char (Py.lower_char c) = Py.lower_char c.
Proof. destruct c as [[] [] [] [] [] [] [] []]; vm_compute; reflexivity. Qed.

Lemma lower_idem (s : string) : Py.lower (Py.lower s) = Py.lower s.
Proof.
  induction s as [|c s IH]; cbn [Py.lower]; [reflexivity|].
  now rewrite lower_char_idem, IH.
Qed.

Lemma lower_char_underscore (c : ascii) :
  Py.lower_char (if Ascii.eqb (Py.lower_char c) " " then "_"%char else Py.lower_char c)
  = (if Ascii.eqb (Py.lower_char c) " " then "_"%char else Py.lower_char c).
Proof. destruct c as [[] [] [] [] [] [] [] []]; vm_compute; reflexivity. Qed.

Lemma lower_replace (s : string) :
  Py.lower (Py.replace_char " " "_" (Py.lower s)) = Py.replace_char " " "_" (Py.lower s).
Proof.
  induction s as [|c s IH]; cbn [Py.lower Py.replace_char]; [reflexivity|].
  now rewrite lower_char_underscore, IH.
Qed.

Lemma replace_no_space (s : string) :
  Py.has_char " " (Py.replace_char " " "_" s) = false.
Proof.
  induction s as [|c s IH]; cbn [Py.replace_char Py.has_char]; [reflexivity|].
  rewrite IH, orb_false_r. destruct (Ascii.eqb c " ") eqn:E; [reflexivity|exact E].
Qed.

(** X10. The entity name that [_extract_entity_name] infers is in lower
    case: it is the word that follows "add", and an article, in lower
    case, when the transcript has one; otherwise it is the epic name in
    lower case with every space turned into an underscore, and has no
    space. *)
Theorem entity_name_lower_case :
  forall text epic_name,
    Py.lower (_extract_entity_name text epic_name) = _extract_entity_name text epic_name /\
    (forall add_match,
        Re.search true add_pattern text = Some add_match ->
        _extract_entity_name text epic_name = Py.lower (group 1 add_match)) /\
    (Re.search true add_pattern text = None ->
     _extract_entity_name text epic_name = Py.replace_char " " "_" (Py.lower epic_name) /\
     Py.has_char " " (_extract_entity_name text epic_name) = false).
Proof.
  intros text epic_name. unfold _extract_entity_name.
  destruct (Re.search true add_pattern text) as [m|].
  - split; [apply lower_idem|]. split; [now intros add_match [= <-]|discriminate].
  - split; [apply lower_replace|]. split; [discriminate|].
    intros _. split; [reflexivity|apply replace_no_space].
Qed.

(* ================================================================= *)
(** ** Properties of [TicketGenerator] *)

Ltac split_on ws x :=
  lazymatch ws with
  | ?w :: ?rest =>
      destruct (Py.contains w x);
      [ cbn [orb]; try rewrite !orb_true_r
      | cbn [orb]; split_on rest x ]
  | _ => idtac
  end.

(** X11. [detect_ticket_type] answers with one of the eleven kinds of
    ticket, and with "generic_story" exactly when the description, in
    lower case, holds none of the thirteen phrases it looks for. *)
Theorem detect_ticket_type_closed :
  forall description,
    In (detect_ticket_type description) ticket_types /\
    (detect_ticket_type description = "generic_story" <->
     Py.any_in triggers (Py.lower description) = false).
Proof.
  intros description. unfold detect_ticket_type, Py.any_in, triggers, ticket_types.
  cbv zeta. cbn [existsb]. generalize (Py.lower description) as x. intros x.
  let ws := eval unfold triggers in triggers in split_on ws x;
  (split; [cbn [In]; tauto|split; [discriminate|discriminate]]) ||
  (split; [cbn [In]; tauto|split; reflexivity]).
Qed.

(** X12. [detect_ticket_type] recognises every summary that
    [generate_summary] writes from its table: for each of the ten types of
    the table, any scope, and feature, tab and entity names that hold none
    of the phrases of [detect_ticket_type], the type detected is the type
    the summary was generated for. *)
Theorem summary_round_trip :
  forall t feature_name tab_name entity_name scope,
    In t template_types ->
    trigger_free feature_name ->
    trigger_free_opt tab_name ->
    trigger_free_opt entity_name ->
    detect_ticket_type (generate_summary t feature_name tab_name entity_name scope) = t.
Proof.
  intros t F tab e scope Ht HF Htab He.
  destruct (generate_summary_scope t F tab e scope) as (p & Hp & ->).
  destruct Hp as [-> | [-> | ->]].
  - now apply round_trip_no_scope.
  - rewrite (proj1 (detect_scope_prefix _)). now apply round_trip_no_scope.
  - rewrite (proj2 (detect_scope_prefix _)). now apply round_trip_no_scope.
Qed.

Lemma summary_round_trip_witness :
  detect_ticket_type (generate_summary "add_entity" "Billing" None (Some "claim") (Some "fe"))
  = "add_entity".
Proof.
  refine (summary_round_trip "add_entity" "Billing" None (Some "claim") (Some "fe") _ _ _ _).
  - unfold template_types. cbn [In]. tauto.
  - intros w H; unfold triggers in H; cbn [In] in H;
      repeat (destruct H as [<-|H]; [reflexivity|]); destruct H.
  - exact I.
  - intros w H; unfold triggers in H; cbn [In] in H;
      repeat (destruct H as [<-|H]; [reflexivity|]); destruct H.
Defined.

Lemma startswith_app_assoc (a b c : string) : Py.startswith (a ++ b) (a ++ b ++ c) = true.
Proof. rewrite <- app_assoc_str. apply startswith_app. Qed.

(** X13. With a scope that is "FE" or "BE" in any case, the summary of
    [generate_summary] begins with that scope in upper case and a colon;
    the prefix is added once: a summary that has it already is left as it
    is; with any other scope, or none, the summary is the one of the
    table. *)
Theorem generate_summary_scope_prefix :
  forall t feature_name tab_name entity_name scope,
    Py.mem (Py.upper scope) ["FE"; "BE"] = true ->
    Py.startswith (Py.upper scope ++ ":")
                  (generate_summary t feature_name tab_name entity_name (Some scope)) = true /\
    (Py.startswith (Py.upper scope ++ ":")
                   (generate_summary t feature_name tab_name entity_name None) = true ->
     generate_summary t feature_name tab_name entity_name (Some scope)
     = generate_summary t feature_name tab_name entity_name None) /\
    (forall other,
        Py.mem (Py.upper other) ["FE"; "BE"] = false ->
        generate_summary t feature_name tab_name entity_name (Some other)
        = generate_summary t feature_name tab_name entity_name None).
Proof.
  intros t F tab e sc Hsc. unfold generate_summary.
  match goal with |- context [match find ?f ?l with _ => _ end] =>
    generalize (match find f l with Some e0 => snd e0
                                  | None => "User should be able to " ++ F end) end.
  intros summary.
  assert (Ht : Py.truthy sc = true).
  { destruct sc; [discriminate Hsc|reflexivity]. }
  rewrite Ht, Hsc. cbn [andb]. split; [|split].
  - destruct (Py.startswith (Py.upper sc ++ ":") summary) eqn:E; cbn [negb]; [exact E|].
    apply (startswith_app_assoc (Py.upper sc) ":" (String " " summary)).
  - now intros ->.
  - intros other Ho. rewrite Ho. now rewrite andb_false_r.
Qed.

Lemma generate_summary_scope_witness :
  Py.startswith "BE:" (generate_summary "nav_menu" "Billing" None None (Some "be")) = true.
Proof.
  exact (proj1 (generate_summary_scope_prefix "nav_menu" "Billing" None None "be" eq_refl)).
Defined.

(** X14. [suggest_priority] answers "Highest" exactly when the context, in
    lower case, holds one of "demo", "blocker", "critical", "bug",
    "urgent", whatever the type of ticket; otherwise "High" for the six
    core types and "Medium" for the others; it never answers "Low". *)
Theorem suggest_priority_levels :
  forall ticket_type context,
    (suggest_priority ticket_type context = "Highest" <->
     Py.any_in ["demo"; "blocker"; "critical"; "bug"; "urgent"] (Py.lower context) = true) /\
    In (suggest_priority ticket_type context) ["Highest"; "High"; "Medium"] /\
    (forall core,
        In core ["view_table_data"; "add_entity"; "perform_actions";
                 "backend_architecture"; "nav_menu"; "rbac_permissions"] ->
        suggest_priority core EmptyString = "High") /\
    suggest_priority "search_filter" EmptyString = "Medium".
Proof.
  intros ticket_type context. unfold suggest_priority. cbv zeta.
  split; [|split; [|split]].
  - destruct (Py.any_in _ (Py.lower context)); [tauto|].
    destruct (Py.mem ticket_type _); split; discriminate.
  - destruct (Py.any_in _ (Py.lower context)); [cbn; tauto|].
    destruct (Py.mem ticket_type _); cbn; tauto.
  - intros core Hc. cbn [In] in Hc.
    repeat (destruct Hc as [<-|Hc]; [reflexivity|]). destruct Hc.
  - reflexivity.
Qed.

(* ================================================================= *)
(** ** The tickets of a document under [detect_ticket_type] *)

Ltac detect_tac :=
  unfold detect_ticket_type, quoted, dq; cbv zeta; rewrite ?lower_app; lower_literals;
  repeat match goal with
         | H : trigger_free ?v |- _ =>
             unfold trigger_free in H;
             let h := fresh "h" in set (h := Py.lower v) in *; clearbody h
         end;
  match goal with |- context [Py.contains _ ?x] =>
    let ws := eval unfold triggers in triggers in walk ws x end;
  reflexivity.

Lemma detect_backend name :
  trigger_free name -> detect_ticket_type (summary (backend_ticket name)) = "backend_architecture".
Proof. intros H. cbn [summary backend_ticket]. detect_tac. Qed.

Lemma detect_rbac self text name :
  trigger_free name ->
  detect_ticket_type (summary (rbac_ticket self text name)) = "rbac_permissions".
Proof. intros H. cbn [summary rbac_ticket]. detect_tac. Qed.

Lemma detect_nav name :
  trigger_free name -> detect_ticket_type (summary (nav_ticket name)) = "nav_menu".
Proof. intros H. cbn [summary nav_ticket]. detect_tac. Qed.

Lemma detect_add entity fields :
  trigger_free entity -> detect_ticket_type (summary (add_ticket entity fields)) = "add_entity".
Proof. intros H. cbn [summary add_ticket]. detect_tac. Qed.

Lemma detect_tab self text tab t :
  trigger_free tab -> In t (tab_tickets self text tab) ->
  detect_ticket_type (summary t) = ticket_type t.
Proof.
  intros H. unfold tab_tickets. intros [<-|Hin].
  - cbn [summary ticket_type]. detect_tac.
  - destruct (Py.any_in ["search"; "filter"; "find"] (Py.lower text));
      cbn [In] in Hin; [|destruct Hin].
    destruct Hin as [<-|[]]. cbn [summary ticket_type]. detect_tac.
Qed.

(** X15. [detect_ticket_type] gives every ticket of a document its own
    type back from its summary, when the name of the epic, its tabs and
    the entity name hold none of the phrases that [detect_ticket_type]
    looks for. *)
Theorem document_tickets_detected :
  forall rsd today self text metadata doc e t,
    process_transcript rsd today self text metadata = Some doc ->
    In e (epics doc) -> In t (tickets e) ->
    trigger_free (epic_name e) ->
    (forall tab, In tab (tabs e) -> trigger_free tab) ->
    trigger_free (_extract_entity_name text (epic_name e)) ->
    detect_ticket_type (summary t) = ticket_type t.
Proof.
  intros rsd today self text metadata doc e t Hdoc Hin Ht Hname Htabs Hent.
  destruct (document_epic _ _ _ _ _ _ _ Hdoc Hin) as (_ & _ & He & ed & Hed & Hgen).
  destruct (generate_tickets_In _ _ _ _ _ _ _ Hgen Ht)
    as [->|[Hc|[(tab & Htab & Hin')|(fs & ->)]]].
  - now apply detect_backend.
  - unfold conditional_tickets in Hc. apply in_app_or in Hc. destruct Hc as [Hc|Hc].
    + destruct (_has_rbac_requirements text); cbn [In] in Hc; [|destruct Hc].
      destruct Hc as [<-|[]]. now apply detect_rbac.
    + destruct (Py.any_in ["menu"; "navigation"; "nav bar"; "sidebar"] (Py.lower text));
        cbn [In] in Hc; [|destruct Hc].
      destruct Hc as [<-|[]]. now apply detect_nav.
  - apply (detect_tab self text tab); [|exact Hin'].
    apply Htabs. rewrite He, <- Hed. exact Htab.
  - now apply detect_add.
Qed.

Ltac no_trigger :=
  let w := fresh "w" in let H := fresh "H" in
  intros w H; unfold triggers in H; cbn [In] in H;
  repeat (destruct H as [<-|H]; [vm_compute; reflexivity|]); destruct H.

Lemma document_tickets_detected_witness :
  Forall (fun t => detect_ticket_type (summary t) = ticket_type t) (tickets sample_epic).
Proof.
  apply Forall_forall. intros t Ht.
  refine (document_tickets_detected never_matches "2026-01-01" init sample_text None
            sample_document sample_epic t sample_document_ok sample_epic_In Ht _ _ _).
  - no_trigger.
  - intros tab Htab. cbn [tabs sample_epic In] in Htab.
    repeat (destruct Htab as [<-|Htab]; [no_trigger|]). destruct Htab.
  - no_trigger.
Defined.

(* ================================================================= *)
(** ** The RBAC map as a dictionary *)

Lemma upper_char_idem (c : ascii) : Py.upper_char (Py.upper_char c) = Py.upper_char c.
Proof. destruct c as [[] [] [] [] [] [] [] []]; vm_compute; reflexivity. Qed.

Lemma capitalize_idem (s : string) : Py.capitalize (Py.capitalize s) = Py.capitalize s.
Proof.
  destruct s as [|c s]; cbn [Py.capitalize]; [reflexivity|].
  now rewrite upper_char_idem, lower_idem.
Qed.

Lemma rbac_has_In role rbac : rbac_has role rbac = true <-> In role (map fst rbac).
Proof.
  induction rbac as [|[k e] rest IH]; cbn [rbac_has map fst In].
  - split; [discriminate|intros []].
  - rewrite orb_true_iff, IH, String.eqb_eq. tauto.
Qed.

Lemma rbac_append_keys role action rbac :
  map fst (rbac_append role action rbac) = map fst rbac.
Proof.
  induction rbac as [|[k e] rest IH]; cbn [rbac_append map]; [reflexivity|].
  destruct (String.eqb k role); cbn [map fst]; [reflexivity|now rewrite IH].
Qed.

Lemma rbac_append_ok role action rbac :
  Forall rbac_entry_ok rbac -> Forall rbac_entry_ok (rbac_append role action rbac).
Proof.
  induction rbac as [|[k e] rest IH]; intros H; cbn [rbac_append]; [constructor|].
  inversion H as [|x l Hx Hl]; subst.
  destruct (String.eqb k role).
  - constructor; [|exact Hl]. destruct Hx as (Hc & Hp & _).
    split; [exact Hc|]. split; [exact Hp|]. cbn [snd actions].
    intros E. apply app_eq_nil in E. destruct E as [_ E]. discriminate.
  - constructor; [exact Hx|auto].
Qed.

Lemma rbac_append_new role action rbac e :
  rbac_has role rbac = false ->
  rbac_append role action (rbac ++ [(role, e)])%list
  = (rbac ++ [(role, with_action action e)])%list.
Proof.
  induction rbac as [|[k e0] rest IH]; cbn [rbac_has rbac_append app]; intros H.
  - now rewrite String.eqb_refl.
  - apply orb_false_iff in H. destruct H as [Hk H]. rewrite Hk. now rewrite IH.
Qed.

Lemma add_rbac_keeps pattern rbac m :
  NoDup (map fst rbac) /\ Forall rbac_entry_ok rbac ->
  NoDup (map fst (add_rbac pattern rbac m)) /\ Forall rbac_entry_ok (add_rbac pattern rbac m).
Proof.
  intros [Hn Hf]. unfold add_rbac.
  destruct (rbac_has (Py.capitalize (group 1 m)) rbac) eqn:E; cbn [negb].
  - rewrite rbac_append_keys. split; [exact Hn|now apply rbac_append_ok].
  - rewrite rbac_append_new by exact E. split.
    + rewrite map_app. cbn [map fst]. apply NoDup_app; [exact Hn|repeat constructor; intros []|].
      intros x Hx [<-|[]]. apply rbac_has_In in Hx. congruence.
    + apply Forall_app. split; [exact Hf|]. constructor; [|constructor].
      split; [apply capitalize_idem|]. split; [reflexivity|discriminate].
Qed.

(** X16. The RBAC map of [_extract_rbac] is a dictionary: no actor occurs
    twice among its keys; every key is written with a capital first letter
    and lower case after it, as [capitalize] leaves it; every actor has at
    least one action, and its list of permissions is always empty. *)
Theorem rbac_map_well_formed :
  forall self text,
    NoDup (map fst (_extract_rbac self text)) /\
    Forall rbac_entry_ok (_extract_rbac self text).
Proof.
  intros self text. unfold _extract_rbac.
  assert (H : forall ps acc,
             NoDup (map fst acc) /\ Forall rbac_entry_ok acc ->
             NoDup (map fst (fold_left (fun rbac pattern =>
                       fold_left (add_rbac pattern) (finditer true pattern text) rbac)
                     ps acc)) /\
             Forall rbac_entry_ok (fold_left (fun rbac pattern =>
                       fold_left (add_rbac pattern) (finditer true pattern text) rbac)
                     ps acc)).
  { induction ps as [|p ps IH]; intros acc Hacc; cbn [fold_left]; [exact Hacc|].
    apply IH. generalize (finditer true p text) as ms. intros ms. revert acc Hacc.
    induction ms as [|m ms IHm]; intros acc Hacc; cbn [fold_left]; [exact Hacc|].
    apply IHm. now apply add_rbac_keeps. }
  apply H. split; constructor.
Qed.

(* ================================================================= *)
(** ** What the epics of a document share *)

Lemma map_type_tab_tickets self text (l : list string) :
  map ticket_type (flat_map (tab_tickets self text) l)
  = flat_map (fun _ : string =>
                "view_table_data" :: if has_search text then ["search_filter"] else []) l.
Proof.
  induction l as [|tab l IH]; cbn [flat_map map]; [reflexivity|].
  rewrite map_app, IH. f_equal. unfold tab_tickets, has_search.
  now destruct (Py.any_in ["search"; "filter"; "find"] (Py.lower text)).
Qed.

Lemma map_type_conditional_tickets self text name :
  map ticket_type (conditional_tickets self text name)
  = ((if _has_rbac_requirements text then ["rbac_permissions"] else [])
     ++ (if has_nav text then ["nav_menu"] else []))%list.
Proof.
  unfold conditional_tickets, has_nav. rewrite map_app.
  destruct (_has_rbac_requirements text);
    destruct (Py.any_in ["menu"; "navigation"; "nav bar"; "sidebar"] (Py.lower text));
    reflexivity.
Qed.

Lemma epic_ticket_types rsd today self text metadata doc e :
  process_transcript rsd today self text metadata = Some doc ->
  In e (epics doc) ->
  map ticket_type (tickets e) = ticket_types_of self text /\
  Forall (fun t => priority t = "High") (tickets e).
Proof.
  intros Hdoc Hin.
  destruct (document_epic _ _ _ _ _ _ _ Hdoc Hin) as (_ & _ & _ & ed & Htabs & Hgen).
  split.
  - destruct (generate_tickets_shape _ _ _ _ _ _ Hgen) as (last & -> & Hlast).
    unfold ticket_types_of. cbn [map].
    rewrite !map_app, map_type_tab_tickets, map_type_conditional_tickets, Htabs.
    rewrite <- app_assoc. do 4 f_equal.
    unfold has_creation, creation_keywords.
    destruct (Py.any_in ["add"; "create"; "new"; "form"] (Py.lower text)).
    + destruct Hlast as (fs & _ & ->). reflexivity.
    + subst last. reflexivity.
  - apply Forall_forall. intros t Ht.
    destruct (generate_tickets_In _ _ _ _ _ _ _ Hgen Ht)
      as [->|[Hc|[(tab & _ & Htab)|(fs & ->)]]]; [reflexivity| | |reflexivity].
    + unfold conditional_tickets in Hc. apply in_app_or in Hc. destruct Hc as [Hc|Hc].
      * destruct (_has_rbac_requirements text); cbn [In] in Hc; [|destruct Hc].
        now destruct Hc as [<-|[]].
      * destruct (Py.any_in ["menu"; "navigation"; "nav bar"; "sidebar"] (Py.lower text));
          cbn [In] in Hc; [|destruct Hc].
        now destruct Hc as [<-|[]].
    + unfold tab_tickets in Htab. destruct Htab as [<-|Htab]; [reflexivity|].
      destruct (Py.any_in ["search"; "filter"; "find"] (Py.lower text));
        cbn [In] in Htab; [|destruct Htab].
      now destruct Htab as [<-|[]].
Qed.

(** X17. The epics of one document differ in nothing that the transcript
    decides: any two of them have the same priority, the same tabs and the
    same sequence of ticket types; and every ticket has the priority
    "High", whatever the priority of its epic. *)
Theorem epics_share_transcript_facts :
  forall rsd today self text metadata doc e1 e2,
    process_transcript rsd today self text metadata = Some doc ->
    In e1 (epics doc) -> In e2 (epics doc) ->
    e_priority e1 = e_priority e2 /\
    tabs e1 = tabs e2 /\
    map ticket_type (tickets e1) = map ticket_type (tickets e2) /\
    Forall (fun t => priority t = "High") (tickets e1).
Proof.
  intros rsd today self text metadata doc e1 e2 Hdoc H1 H2.
  destruct (document_epic _ _ _ _ _ _ _ Hdoc H1) as (_ & Hp1 & Ht1 & _).
  destruct (document_epic _ _ _ _ _ _ _ Hdoc H2) as (_ & Hp2 & Ht2 & _).
  destruct (epic_ticket_types _ _ _ _ _ _ _ Hdoc H1) as (Hk1 & Hh1).
  destruct (epic_ticket_types _ _ _ _ _ _ _ Hdoc H2) as (Hk2 & _).
  rewrite Hp1, Hp2, Ht1, Ht2, Hk1, Hk2. auto.
Qed.

Lemma two_epic_document_ok :
  process_transcript never_matches "2026-01-01" init two_epic_text None
  = Some two_epic_document.
Proof. vm_compute. reflexivity. Qed.

Lemma billing_epic_In : In billing_epic (epics two_epic_document).
Proof. left. reflexivity. Qed.

Lemma claims_epic_In : In claims_epic (epics two_epic_document).
Proof. right. left. reflexivity. Qed.

Lemma epics_share_transcript_facts_witness :
  e_priority billing_epic = e_priority claims_epic /\
  tabs billing_epic = tabs claims_epic /\
  map ticket_type (tickets billing_epic) = map ticket_type (tickets claims_epic) /\
  Forall (fun t => priority t = "High") (tickets billing_epic).
Proof.
  exact (epics_share_transcript_facts never_matches "2026-01-01" init two_epic_text None
           two_epic_document billing_epic claims_epic
           two_epic_document_ok billing_epic_In claims_epic_In).
Defined.

(* ================================================================= *)
(** ** The description of an epic *)

Lemma is_space_lower (c : ascii) : Py.is_space (Py.lower_char c) = Py.is_space c.
Proof. destruct c as [[] [] [] [] [] [] [] []]; vm_compute; reflexivity. Qed.

Lemma lstrip_lower (s : string) : Py.lstrip (Py.lower s) = Py.lower (Py.lstrip s).
Proof.
  induction s as [|c s IH]; [reflexivity|].
  cbn [Py.lower Py.lstrip]. rewrite is_space_lower.
  destruct (Py.is_space c); [exact IH|reflexivity].
Qed.

Lemma rstrip_lower (s : string) : Py.rstrip (Py.lower s) = Py.lower (Py.rstrip s).
Proof.
  induction s as [|c s IH]; [reflexivity|].
  cbn [Py.lower Py.rstrip]. rewrite IH, is_space_lower.
  destruct (Py.rstrip s); cbn [Py.lower]; [destruct (Py.is_space c)|]; reflexivity.
Qed.

Lemma strip_lower (s : string) : Py.strip (Py.lower s) = Py.lower (Py.strip s).
Proof. unfold Py.strip. now rewrite lstrip_lower, rstrip_lower. Qed.

Lemma trimmed_lower (w : string) : trimmed w -> trimmed (Py.lower w).
Proof.
  intros [Hs Hn]. split; [now rewrite strip_lower, Hs|].
  destruct w; [contradiction|discriminate].
Qed.

(** A trimmed text begins with a character that is not white space, and
    [rstrip] leaves it as it is. *)
Lemma trimmed_ends (w : string) :
  trimmed w ->
  Py.rstrip w = w /\ exists c r, w = String c r /\ Py.is_space c = false.
Proof.
  intros [Hs Hn]. unfold Py.strip in Hs. split.
  - rewrite <- Hs at 1. rewrite rstrip_idem. exact Hs.
  - destruct (lstrip_shape w) as [E | (c & r & E & Hc)]; rewrite E in Hs.
    + cbn [Py.rstrip] in Hs. congruence.
    + rewrite (rstrip_keep c r Hc) in Hs. exists c, (Py.rstrip r). auto.
Qed.

Lemma lstrip_app_keep (a : string) (c : ascii) (r : string) :
  Py.is_space c = false -> Py.lstrip (a ++ String c r) = Py.lstrip a ++ String c r.
Proof.
  intros Hc. induction a as [|x a IH]; cbn [append Py.lstrip].
  - now rewrite Hc.
  - destruct (Py.is_space x); [exact IH|reflexivity].
Qed.

Lemma rstrip_app_trimmed (w b : string) :
  Py.rstrip w = w -> w <> EmptyString -> Py.rstrip (w ++ b) = w ++ Py.rstrip b.
Proof.
  induction w as [|c w IH]; intros Hw Hn; [contradiction|].
  cbn [append]. destruct w as [|d w].
  - cbn [Py.rstrip] in Hw. destruct (Py.is_space c) eqn:Hc; [discriminate|].
    cbn [append]. now apply rstrip_keep.
  - assert (Hw' : Py.rstrip (String d w) = String d w).
    { change (Py.rstrip (String c (String d w)))
        with (match Py.rstrip (String d w) with
              | EmptyString => if Py.is_space c then EmptyString else String c EmptyString
              | String d0 t0 => String c (String d0 t0)
              end) in Hw.
      destruct (Py.rstrip (String d w)) as [|d0 t0].
      - destruct (Py.is_space c); discriminate.
      - congruence. }
    change (Py.rstrip (String c (String d w ++ b)))
      with (match Py.rstrip (String d w ++ b) with
            | EmptyString => if Py.is_space c then EmptyString else String c EmptyString
            | String d0 t0 => String c (String d0 t0)
            end).
    rewrite (IH Hw') by discriminate. reflexivity.
Qed.

Lemma rstrip_app_right (x y : string) :
  Py.rstrip y <> EmptyString -> Py.rstrip (x ++ y) = x ++ Py.rstrip y.
Proof.
  intros Hy. induction x as [|c x IH]; [reflexivity|].
  cbn [append Py.rstrip]. rewrite IH.
  destruct (x ++ Py.rstrip y) eqn:E; [|reflexivity].
  destruct x; [|discriminate]. cbn [append] in E. contradiction.
Qed.

(** Stripping a text leaves what it holds of trimmed texts. *)
Lemma contains_strip (w s : string) :
  trimmed w -> Py.contains w s = true -> Py.contains w (Py.strip s) = true.
Proof.
  intros Hw H. destruct (trimmed_ends w Hw) as (Hr & c & r & Hc & Hsp).
  apply contains_occurs in H. destruct H as (a & b & ->).
  assert (Hl : Py.lstrip (a ++ w ++ b) = Py.lstrip a ++ w ++ b).
  { rewrite Hc. cbn [append]. now apply lstrip_app_keep. }
  unfold Py.strip. rewrite Hl.
  assert (Hwb : Py.rstrip (w ++ b) = w ++ Py.rstrip b).
  { apply rstrip_app_trimmed; [exact Hr|apply Hw]. }
  rewrite rstrip_app_right.
  - rewrite Hwb. apply contains_app.
  - rewrite Hwb, Hc. discriminate.
Qed.

Lemma contains_refl (w : string) : Py.contains w w = true.
Proof.
  destruct w; cbn [Py.contains]; [reflexivity|].
  cbn [Py.startswith]. rewrite Ascii.eqb_refl. cbn [andb].
  replace w with (w ++ EmptyString) at 2; [now rewrite startswith_app|].
  induction w as [|x w IH]; cbn [append]; [reflexivity|now rewrite IH].
Qed.

Lemma first_description_spec (name : string) (sentences : list string) (d : string) :
  trimmed name ->
  first_description name sentences = Some d ->
  Py.contains (Py.lower name) (Py.lower d) = true /\
  20 < String.length d /\ Py.strip d = d /\
  exists sentence, In sentence sentences /\ d = Py.strip sentence.
Proof.
  intros Hn. induction sentences as [|s rest IH]; cbn [first_description]; [discriminate|].
  destruct (Py.contains (Py.lower name) (Py.lower s)) eqn:Ec.
  - cbv zeta. destruct (20 <? String.length (Py.strip s)) eqn:El.
    + intros [= <-]. split; [|split; [|split]].
      * rewrite <- strip_lower. apply contains_strip; [now apply trimmed_lower|exact Ec].
      * now apply Nat.ltb_lt.
      * apply strip_idem.
      * exists s. split; [now left|reflexivity].
    + intros H. destruct (IH H) as (H1 & H2 & H3 & x & Hx & E).
      repeat split; try assumption. exists x. split; [now right|exact E].
  - intros H. destruct (IH H) as (H1 & H2 & H3 & x & Hx & E).
    repeat split; try assumption. exists x. split; [now right|exact E].
Qed.

Lemma document_epic_description rsd today self text metadata doc e :
  process_transcript rsd today self text metadata = Some doc ->
  In e (epics doc) ->
  epic_description e = _extract_epic_description text (epic_name e).
Proof.
  unfold process_transcript.
  destruct (process_epics rsd self text (_extract_epics self text)) as [es|] eqn:E;
    [|discriminate].
  intros [= <-]. cbn [epics]. intros Hin.
  destruct (process_epics_In _ _ _ _ _ _ E Hin) as (name & _ & Hp).
  unfold _process_epic in Hp.
  destruct (_generate_tickets_from_text _ _ _ _ _); [|discriminate].
  injection Hp as <-. reflexivity.
Qed.

(** X18. The description of every epic of a document mentions the name of
    the epic, whatever the case of the letters; it is the default
    "Feature for" and the name, or the text, trimmed and longer than twenty
    characters, of a piece of the transcript between sentence ends. *)
Theorem epic_description_mentions_name :
  forall rsd today self text metadata doc e,
    process_transcript rsd today self text metadata = Some doc ->
    In e (epics doc) ->
    Py.contains (Py.lower (epic_name e)) (Py.lower (epic_description e)) = true /\
    (epic_description e = "Feature for " ++ epic_name e \/
     20 < String.length (epic_description e) /\
     Py.strip (epic_description e) = epic_description e /\
     exists sentence,
       In sentence (Re.split false sentence_end text) /\
       epic_description e = Py.strip sentence).
Proof.
  intros rsd today self text metadata doc e Hdoc Hin.
  rewrite (document_epic_description _ _ _ _ _ _ _ Hdoc Hin).
  destruct (document_epic _ _ _ _ _ _ _ Hdoc Hin) as (Hname & _).
  assert (Ht : trimmed (epic_name e)).
  { exact (proj1 (Forall_forall _ _) (proj2 (extract_epics_keeps self text)) _ Hname). }
  unfold _extract_epic_description. cbv zeta.
  destruct (first_description (epic_name e) (split false sentence_end text)) as [d|] eqn:E.
  - destruct (first_description_spec _ _ _ Ht E) as (H1 & H2 & H3 & H4).
    split; [exact H1|]. right. auto.
  - split; [|now left]. rewrite lower_app. apply contains_app_right, contains_refl.
Qed.

Lemma epic_description_witness :
  Py.contains (Py.lower (epic_name sample_epic)) (Py.lower (epic_description sample_epic)) = true.
Proof.
  exact (proj1 (epic_description_mentions_name never_matches "2026-01-01" init sample_text None
                  sample_document sample_epic sample_document_ok sample_epic_In)).
Defined.

(* ================================================================= *)
(** ** The summaries of a document and those of [generate_summary] *)

Lemma trimmed_truthy (s : string) : trimmed s -> Py.truthy s = true.
Proof. intros [_ H]. destruct s; [contradiction|reflexivity]. Qed.

Lemma summary_backend name :
  summary (backend_ticket name) = generate_summary "backend_architecture" name None None None.
Proof. reflexivity. Qed.

Lemma summary_nav name :
  summary (nav_ticket name) = generate_summary "nav_menu" name None None None.
Proof. reflexivity. Qed.

Lemma summary_rbac self text name :
  generate_summary "rbac_permissions" name None None None
  = summary (rbac_ticket self text name) ++ " in Permission tab of Administration menu".
Proof.
  expand_summary. cbn [summary rbac_ticket]. now rewrite app_assoc_str.
Qed.

Lemma summary_tab self text name tab t :
  trimmed tab -> In t (tab_tickets self text tab) ->
  (ticket_type t = "view_table_data" /\
   summary t = generate_summary "view_table_data" name (Some tab) None None) \/
  (ticket_type t = "search_filter" /\
   String.eqb (summary t) (generate_summary "search_filter" name (Some tab) None None) = false /\
   Py.lower (summary t)
   = Py.lower (generate_summary "search_filter" name (Some tab) None None)).
Proof.
  intros Htab Hin. apply trimmed_truthy in Htab.
  unfold tab_tickets in Hin. destruct Hin as [<-|Hin].
  - left. split; [reflexivity|]. expand_summary. cbn [or_else]. rewrite Htab. reflexivity.
  - destruct (Py.any_in ["search"; "filter"; "find"] (Py.lower text));
      cbn [In] in Hin; [|destruct Hin].
    destruct Hin as [<-|[]]. right. split; [reflexivity|].
    expand_summary. cbn [or_else summary]. rewrite Htab. split.
    + reflexivity.
    + rewrite !lower_app. reflexivity.
Qed.

(** X19. The summaries of a document against the table of
    [generate_summary], for the name of the epic and the tab of the
    ticket: the backend, navigation and table tickets carry the summary of
    the table; the search ticket carries it with other capitals ("search
    and filter" for "Search and Filter"), so the two differ; the RBAC
    ticket carries it without its end, " in Permission tab of
    Administration menu". *)
Theorem document_summaries_and_templates :
  forall rsd today self text metadata doc e t,
    process_transcript rsd today self text metadata = Some doc ->
    In e (epics doc) -> In t (tickets e) ->
    (In (ticket_type t) ["backend_architecture"; "nav_menu"] ->
     summary t = generate_summary (ticket_type t) (epic_name e) None None None) /\
    (ticket_type t = "view_table_data" ->
     exists tab, In tab (tabs e) /\
       summary t = generate_summary "view_table_data" (epic_name e) (Some tab) None None) /\
    (ticket_type t = "search_filter" ->
     exists tab, In tab (tabs e) /\
       String.eqb (summary t)
                  (generate_summary "search_filter" (epic_name e) (Some tab) None None) = false /\
       Py.lower (summary t)
       = Py.lower (generate_summary "search_filter" (epic_name e) (Some tab) None None)) /\
    (ticket_type t = "rbac_permissions" ->
     generate_summary "rbac_permissions" (epic_name e) None None None
     = summary t ++ " in Permission tab of Administration menu").
Proof.
  intros rsd today self text metadata doc e t Hdoc Hin Ht.
  destruct (document_epic _ _ _ _ _ _ _ Hdoc Hin) as (_ & _ & He & ed & Hed & Hgen).
  destruct (generate_tickets_In _ _ _ _ _ _ _ Hgen Ht)
    as [->|[Hc|[(tab & Htab & Hin')|(fs & ->)]]].
  - split; [intros _; apply summary_backend|].
    repeat split; discriminate.
  - assert (H : t = rbac_ticket self text (epic_name e) \/ t = nav_ticket (epic_name e)).
    { unfold conditional_tickets in Hc. apply in_app_or in Hc. destruct Hc as [Hc|Hc].
      - destruct (_has_rbac_requirements text); cbn [In] in Hc; [|destruct Hc].
        destruct Hc as [<-|[]]. now left.
      - destruct (Py.any_in ["menu"; "navigation"; "nav bar"; "sidebar"] (Py.lower text));
          cbn [In] in Hc; [|destruct Hc].
        destruct Hc as [<-|[]]. now right. }
    destruct H as [-> | ->].
    + split; [cbn [ticket_type rbac_ticket In]; intros [H|[H|[]]]; discriminate H|].
      split; [discriminate|]. split; [discriminate|]. intros _. apply summary_rbac.
    + split; [intros _; apply summary_nav|]. repeat split; discriminate.
  - assert (Htr : trimmed tab).
    { apply (proj1 (Forall_forall _ _) (extract_tabs_keeps self text)).
      rewrite <- Hed. exact Htab. }
    assert (Hte : In tab (tabs e)) by (rewrite He, <- Hed; exact Htab).
    destruct (summary_tab self text (epic_name e) tab t Htr Hin') as [[Hk Hs]|[Hk Hs]];
      rewrite Hk.
    + split; [cbn [In]; intros [H|[H|[]]]; discriminate H|].
      split; [intros _; exists tab; auto|]. split; discriminate.
    + split; [cbn [In]; intros [H|[H|[]]]; discriminate H|].
      split; [discriminate|]. split; [intros _; exists tab; auto|discriminate].
  - cbn [ticket_type add_ticket In].
    split; [intros [H|[H|[]]]; discriminate H|]. repeat split; discriminate.
Qed.

Lemma document_summaries_witness :
  generate_summary "rbac_permissions" (epic_name billing_epic) None None None
  = summary (nth 1 (tickets billing_epic) sample_add_ticket)
    ++ " in Permission tab of Administration menu".
Proof.
  refine (proj2 (proj2 (proj2
            (document_summaries_and_templates never_matches "2026-01-01" init two_epic_text
               None two_epic_document billing_epic (nth 1 (tickets billing_epic) sample_add_ticket)
               two_epic_document_ok billing_epic_In _))) eq_refl).
  right. left. reflexivity.
Defined.

(* ================================================================= *)
(** ** Action items *)

Lemma substring_prefix (w s : string) : substring 0 (String.length w) (w ++ s) = w.
Proof.
  induction w as [|c w IH]; cbn [String.length append substring].
  - destruct s; reflexivity.
  - now rewrite IH.
Qed.

(** The text of a match is made of characters that its pattern can read. *)
Lemma match_at_text ic r pos s m :
  match_at ic r pos s = Some m -> all_chars (may_read ic r) (m_text m) = true.
Proof.
  unfold match_at. intros H. apply run_reads in H.
  destruct H as (w & s' & c' & -> & Hw & H). injection H as <-.
  cbn [m_text Nat.add]. now rewrite substring_prefix.
Qed.

Lemma all_chars_lstrip p (s : string) :
  all_chars p s = true -> all_chars p (Py.lstrip s) = true.
Proof.
  induction s as [|c s IH]; [auto|]. intros H. cbn [Py.lstrip].
  destruct (Py.is_space c); [|exact H].
  cbn [all_chars] in H. apply andb_true_iff in H. now apply IH.
Qed.

Lemma all_chars_rstrip p (s : string) :
  all_chars p s = true -> all_chars p (Py.rstrip s) = true.
Proof.
  induction s as [|c s IH]; [auto|]. intros H.
  cbn [all_chars] in H. apply andb_true_iff in H. destruct H as [Hc H].
  specialize (IH H). cbn [Py.rstrip]. destruct (Py.rstrip s) as [|d t].
  - destruct (Py.is_space c); cbn [all_chars]; [reflexivity|now rewrite Hc].
  - change (all_chars p (String c (String d t)))
      with (p c && all_chars p (String d t)). now rewrite Hc, IH.
Qed.

Lemma all_chars_without p (c : ascii) (s : string) :
  p c = false -> all_chars p s = true -> Py.has_char c s = false.
Proof.
  intros Hc. induction s as [|a s IH]; [reflexivity|]. cbn [all_chars Py.has_char].
  intros H. apply andb_true_iff in H. destruct H as [Ha H]. rewrite (IH H), orb_false_r.
  destruct (Ascii.eqb a c) eqn:E; [|reflexivity].
  apply Ascii.eqb_eq in E. congruence.
Qed.

(** X20. Every action item that [_extract_action_items] returns has the
    owner "TBD" and the due date "TBD", also when the second pattern has
    read an owner and a date; its text is trimmed and holds no period: an
    action item never runs over the end of a sentence. *)
Theorem action_items_shape :
  forall text a,
    In a (_extract_action_items text) ->
    owner a = "TBD" /\ due_date a = "TBD" /\
    Py.strip (item a) = item a /\
    Py.has_char "." (item a) = false.
Proof.
  intros text a Ha. unfold _extract_action_items in Ha.
  apply in_flat_map in Ha. destruct Ha as (p & Hp & Ha).
  apply in_map_iff in Ha. destruct Ha as (m & <- & Hm).
  cbn [owner due_date item]. split; [reflexivity|]. split; [reflexivity|].
  split; [apply strip_idem|].
  apply finditer_sound, match_at_text in Hm.
  apply (all_chars_without (may_read true p)).
  - unfold action_patterns in Hp. cbn [In] in Hp.
    destruct Hp as [<-|[<-|[]]]; vm_compute; reflexivity.
  - unfold Py.strip. now apply all_chars_rstrip, all_chars_lstrip.
Qed.

Lemma action_items_witness :
  Forall (fun a => owner a = "TBD" /\ due_date a = "TBD" /\
                   Py.strip (item a) = item a /\ Py.has_char "." (item a) = false)
         (_extract_action_items
            "Action item: send the notes. Maria will review the draft by 12/5.").
Proof.
  apply Forall_forall. intros a Ha.
  exact (action_items_shape
           "Action item: send the notes. Maria will review the draft by 12/5." a Ha).
Defined.

(* ================================================================= *)
(** ** [generate_description] and [generate_epic_tickets] *)

Lemma description_backend kw :
  generate_description "backend_architecture" kw = Some (_template_backend_architecture kw).
Proof. reflexivity. Qed.

Lemma description_view kw :
  generate_description "view_table_data" kw = Some (_template_view_table_data kw).
Proof. reflexivity. Qed.

Lemma description_add kw :
  generate_description "add_entity" kw = _template_add_entity kw.
Proof. reflexivity. Qed.

Lemma description_rbac kw :
  generate_description "rbac_permissions" kw = Some (_template_rbac_permissions kw).
Proof. reflexivity. Qed.

Lemma description_search kw :
  generate_description "search_filter" kw = _template_search_filter kw.
Proof. reflexivity. Qed.

Lemma description_nav kw :
  generate_description "nav_menu" kw = Some (_template_generic kw).
Proof. reflexivity. Qed.

Lemma search_filter_no_filters kw :
  k_filters kw = None -> exists d, _template_search_filter kw = Some d.
Proof. intros H. unfold _template_search_filter. rewrite H. eexists. reflexivity. Qed.

Lemma field_lines_total (fields : list FieldDict) :
  Forall (fun f => fd_name f <> None) fields -> exists s, field_lines fields = Some s.
Proof.
  induction 1 as [|f fs Hf _ IH]; cbn [field_lines]; [eauto|].
  unfold field_line. destruct (fd_name f) as [name|]; [|contradiction].
  destruct IH as (s & ->). eauto.
Qed.

Lemma add_entity_total kw :
  (forall fields, k_fields kw = Some fields -> Forall (fun f => fd_name f <> None) fields) ->
  exists d, _template_add_entity kw = Some d.
Proof.
  intros H. unfold _template_add_entity.
  destruct (k_fields kw) as [[|f fs]|]; try (eexists; reflexivity).
  destruct (field_lines_total (f :: fs) (H _ eq_refl)) as (s & ->).
  eexists. reflexivity.
Qed.

Lemma tab_stories_ok epic tab :
  exists ts, tab_stories epic tab = Some ts /\
    map j_summary ts
    = [generate_summary "view_table_data" epic (Some tab) None None;
       generate_summary "search_filter" epic (Some tab) None None] /\
    Forall story_high ts.
Proof.
  unfold tab_stories. rewrite description_view, description_search.
  destruct (search_filter_no_filters (tab_kwargs tab) eq_refl) as (d & ->).
  eexists. split; [reflexivity|]. split; [reflexivity|].
  repeat constructor.
Qed.

Lemma per_tab_ok epic tabs :
  exists ts, concat_map_opt (tab_stories epic) tabs = Some ts /\
    map j_summary ts
    = flat_map (fun tab => [generate_summary "view_table_data" epic (Some tab) None None;
                            generate_summary "search_filter" epic (Some tab) None None])
               tabs /\
    Forall story_high ts.
Proof.
  induction tabs as [|tab tabs IH]; cbn [concat_map_opt flat_map].
  - exists []. repeat split. constructor.
  - destruct (tab_stories_ok epic tab) as (ts1 & -> & Hs1 & Hf1).
    destruct IH as (ts2 & -> & Hs2 & Hf2).
    exists (ts1 ++ ts2)%list. split; [reflexivity|].
    split; [now rewrite map_app, Hs1, Hs2|]. apply Forall_app. now split.
Qed.

Lemma generate_epic_tickets_ok epic b r n tabs :
  exists ts, generate_epic_tickets epic b r n tabs = Some ts /\
    map j_summary ts = epic_ticket_summaries epic b r n (given tabs []) /\
    Forall story_high ts.
Proof.
  unfold generate_epic_tickets, epic_ticket_summaries.
  rewrite description_backend, description_rbac.
  assert (Ht : exists ts,
             match tabs with
             | Some ts0 => concat_map_opt (tab_stories epic) ts0
             | None => Some []
             end = Some ts /\
             map j_summary ts
             = flat_map (fun tab =>
                           [generate_summary "view_table_data" epic (Some tab) None None;
                            generate_summary "search_filter" epic (Some tab) None None])
                        (given tabs []) /\
             Forall story_high ts).
  { destruct tabs as [ts0|]; [apply per_tab_ok|].
    exists []. repeat split. constructor. }
  destruct Ht as (ts & -> & Hs & Hf).
  destruct b, r, n; eexists; (split; [reflexivity|]);
    (split; [cbn [map app]; now rewrite Hs|]);
    cbn [app]; repeat (constructor; [split; reflexivity|]); exact Hf.
Qed.

Lemma length_flat_map_pair {X Y : Type} (f g : X -> Y) (xs : list X) :
  List.length (flat_map (fun x => [f x; g x]) xs) = 2 * List.length xs.
Proof. induction xs as [|x xs IH]; cbn [flat_map List.length app]; [reflexivity|lia]. Qed.

(** X21. [generate_epic_tickets] always returns: with the keywords it
    gives them, no template raises.  It returns one ticket for each of the
    three flags that is set and two for each tab, from [tabs] left out or
    empty none; every ticket is a "Story" of priority "High". *)
Theorem generate_epic_tickets_count :
  forall epic_name include_backend include_rbac include_nav tabs,
  exists ts,
    generate_epic_tickets epic_name include_backend include_rbac include_nav tabs = Some ts /\
    List.length ts
    = b2n include_backend + b2n include_rbac + b2n include_nav
      + 2 * List.length (given tabs []) /\
    Forall story_high ts.
Proof.
  intros epic b r n tabs.
  destruct (generate_epic_tickets_ok epic b r n tabs) as (ts & H & Hs & Hf).
  exists ts. split; [exact H|]. split; [|exact Hf].
  rewrite <- (length_map j_summary ts), Hs. unfold epic_ticket_summaries.
  rewrite !List.length_app, length_flat_map_pair.
  destruct b, r, n; cbn [b2n List.length]; lia.
Qed.

(** X22. [detect_ticket_type] recognises the summary of every ticket of
    [generate_epic_tickets]: when the name of the epic and the tabs hold
    none of its phrases, the types it detects are, in order, those of the
    flags that are set and then "view_table_data" and "search_filter" for
    each tab. *)
Theorem generate_epic_tickets_detected :
  forall epic_name include_backend include_rbac include_nav tabs ts,
    trigger_free epic_name ->
    Forall trigger_free (given tabs []) ->
    generate_epic_tickets epic_name include_backend include_rbac include_nav tabs = Some ts ->
    map (fun t => detect_ticket_type (j_summary t)) ts
    = epic_ticket_kinds include_backend include_rbac include_nav (given tabs []).
Proof.
  intros epic b r n tabs ts He Ht H.
  destruct (generate_epic_tickets_ok epic b r n tabs) as (ts' & H' & Hs & _).
  rewrite H in H'. injection H' as <-.
  rewrite <- (map_map j_summary detect_ticket_type), Hs.
  unfold epic_ticket_summaries, epic_ticket_kinds. rewrite !map_app.
  clear H Hs. revert Ht. generalize (given tabs []) as l. intros l Ht.
  assert (Hr : forall t, In t template_types ->
                 detect_ticket_type (generate_summary t epic None None None) = t).
  { intros t Hin. now apply round_trip_no_scope. }
  f_equal; [|f_equal; [|f_equal]].
  - destruct b; [|reflexivity]. cbn [map]. rewrite Hr; [reflexivity|].
    unfold template_types. cbn [In]. tauto.
  - destruct r; [|reflexivity]. cbn [map]. rewrite Hr; [reflexivity|].
    unfold template_types. cbn [In]. tauto.
  - destruct n; [|reflexivity]. cbn [map]. rewrite Hr; [reflexivity|].
    unfold template_types. cbn [In]. tauto.
  - induction Ht as [|tab tabs' Htab _ IH]; [reflexivity|].
    cbn [flat_map map app]. rewrite IH.
    rewrite !round_trip_no_scope; try assumption; try exact I;
      try (unfold template_types; cbn [In]; tauto).
Qed.

Lemma generate_epic_tickets_witness :
  map (fun t => detect_ticket_type (j_summary t))
      (given (generate_epic_tickets "Billing" true true false (Some ["Open"])) [])
  = ["backend_architecture"; "rbac_permissions"; "view_table_data"; "search_filter"].
Proof.
  refine (generate_epic_tickets_detected "Billing" true true false (Some ["Open"]) _ _ _ _).
  - no_trigger.
  - constructor; [no_trigger|constructor].
  - vm_compute. reflexivity.
Defined.

(* ================================================================= *)
(** ** The tickets of the workflow *)

Lemma occurs_in_refl (w : string) : occurs_in w w.
Proof.
  exists EmptyString, EmptyString. cbn [append].
  induction w as [|c w IH]; cbn [append]; [reflexivity|now rewrite <- IH].
Qed.

Lemma occurs_in_app_l (w x y : string) : occurs_in w x -> occurs_in w (x ++ y).
Proof.
  intros (a & b & ->). exists a, (b ++ y). now rewrite !app_assoc_str.
Qed.

Lemma occurs_in_app_r (w x y : string) : occurs_in w y -> occurs_in w (x ++ y).
Proof.
  intros (a & b & ->). exists (x ++ a), b. now rewrite !app_assoc_str.
Qed.

(** Every template but two returns whatever the keywords; the two others
    return when every field and every filter has its name. *)
Lemma generate_description_total ticket_type kw :
  (forall fields, k_fields kw = Some fields -> Forall (fun f => fd_name f <> None) fields) ->
  k_filters kw = None ->
  exists d, generate_description ticket_type kw = Some d.
Proof.
  intros Hf Hs. unfold generate_description.
  destruct (String.eqb ticket_type "backend_architecture"); [eauto|].
  destruct (String.eqb ticket_type "view_table_data"); [eauto|].
  destruct (String.eqb ticket_type "add_entity"); [now apply add_entity_total|].
  destruct (String.eqb ticket_type "rbac_permissions"); [eauto|].
  destruct (String.eqb ticket_type "search_filter"); [now apply search_filter_no_filters|].
  eauto.
Qed.

Lemma spec_kwargs_fields name details fields :
  k_fields (spec_kwargs name details) = Some fields ->
  Forall (fun f => fd_name f <> None) fields.
Proof.
  unfold spec_kwargs. cbn [k_fields].
  destruct (d_fields (given details no_details)) as [fs|]; [|discriminate].
  cbn [option_map]. intros [= <-]. apply Forall_forall. intros f Hf.
  apply in_map_iff in Hf. destruct Hf as (x & <- & _). discriminate.
Qed.

Lemma generate_ticket_from_spec_ok spec epic :
  exists j, _generate_ticket_from_spec spec epic = Some j /\
            j_type j = "Story" /\ j_summary j = summary spec /\
            j_priority j = priority spec.
Proof.
  unfold _generate_ticket_from_spec. cbv zeta.
  destruct (generate_description_total (ticket_type spec)
              (spec_kwargs (epic_name epic) (details spec))
              (spec_kwargs_fields _ _) eq_refl) as (d & ->).
  eexists. split; [reflexivity|]. auto.
Qed.

Lemma map_opt_spec_ok epic specs :
  exists js, map_opt (fun spec => _generate_ticket_from_spec spec epic) specs = Some js /\
             map j_type js = map (fun _ => "Story") specs /\
             map j_summary js = map summary specs /\
             map j_priority js = map priority specs.
Proof.
  induction specs as [|spec specs IH]; cbn [map_opt map].
  - exists []. auto.
  - destruct (generate_ticket_from_spec_ok spec epic) as (j & -> & H1 & H2 & H3).
    destruct IH as (js & -> & I1 & I2 & I3).
    exists (j :: js). cbn [map]. rewrite H1, H2, H3, I1, I2, I3. auto.
Qed.

Lemma all_tickets_ok (es : list Epic) :
  exists ts,
    concat_map_opt
      (fun epic => map_opt (fun spec => _generate_ticket_from_spec spec epic) (tickets epic))
      es = Some ts /\
    map j_type ts = flat_map (fun e => map (fun _ => "Story") (tickets e)) es /\
    map j_summary ts = flat_map (fun e => map summary (tickets e)) es /\
    map j_priority ts = flat_map (fun e => map priority (tickets e)) es.
Proof.
  induction es as [|e es IH]; cbn [concat_map_opt flat_map].
  - exists []. auto.
  - destruct (map_opt_spec_ok e (tickets e)) as (js & -> & H1 & H2 & H3).
    destruct IH as (ts & -> & I1 & I2 & I3).
    exists (js ++ ts)%list. rewrite !map_app, H1, H2, H3, I1, I2, I3. auto.
Qed.

Lemma flat_map_Forall {X Y : Type} (P : Y -> Prop) (f : X -> list Y) (xs : list X) :
  (forall x, In x xs -> Forall P (f x)) -> Forall P (flat_map f xs).
Proof.
  intros H. apply Forall_forall. intros y Hy. apply in_flat_map in Hy.
  destruct Hy as (x & Hx & Hy). exact (proj1 (Forall_forall _ _) (H x Hx) y Hy).
Qed.

(** X23. For the document of any transcript, the workflow makes its
    tickets without raising: one ticket for each ticket of each epic, in
    the order of the document, with the summary of the document; each is a
    "Story" of priority "High". *)
Theorem workflow_tickets :
  forall rsd today self text metadata doc,
    process_transcript rsd today self text metadata = Some doc ->
    exists ts,
      all_tickets doc = Some ts /\
      map j_summary ts = flat_map (fun e => map summary (tickets e)) (epics doc) /\
      Forall story_high ts.
Proof.
  intros rsd today self text metadata doc Hdoc. unfold all_tickets.
  destruct (all_tickets_ok (epics doc)) as (ts & -> & H1 & H2 & H3).
  exists ts. split; [reflexivity|]. split; [exact H2|].
  assert (Ht : Forall (fun s => s = "Story") (map j_type ts)).
  { rewrite H1. apply flat_map_Forall. intros e _.
    apply Forall_forall. intros s Hs. apply in_map_iff in Hs. now destruct Hs as (_ & <- & _). }
  assert (Hp : Forall (fun s => s = "High") (map j_priority ts)).
  { rewrite H3. apply flat_map_Forall. intros e He.
    apply Forall_forall. intros s Hs. apply in_map_iff in Hs. destruct Hs as (t & <- & Hin).
    destruct (epic_ticket_types _ _ _ _ _ _ _ Hdoc He) as (_ & Hh).
    exact (proj1 (Forall_forall _ _) Hh t Hin). }
  apply Forall_forall. intros j Hj. split.
  - exact (proj1 (Forall_forall _ _) Ht _ (in_map j_type _ _ Hj)).
  - exact (proj1 (Forall_forall _ _) Hp _ (in_map j_priority _ _ Hj)).
Qed.

Lemma workflow_tickets_witness :
  exists ts,
    all_tickets sample_document = Some ts /\
    map j_summary ts = flat_map (fun e => map summary (tickets e)) (epics sample_document) /\
    Forall story_high ts.
Proof.
  exact (workflow_tickets never_matches "2026-01-01" init sample_text None
           sample_document sample_document_ok).
Defined.

(** X24. What [_extract_rbac] finds never reaches the tickets of the
    workflow: the RBAC ticket of a document carries the RBAC map in its
    details, and the ticket made from it has the description of the
    template for the name of the epic alone, with its placeholders for the
    permissions. *)
Theorem workflow_rbac_ticket :
  forall rsd today self text metadata doc e t,
    process_transcript rsd today self text metadata = Some doc ->
    In e (epics doc) -> In t (tickets e) ->
    ticket_type t = "rbac_permissions" ->
    (exists d, details t = Some d /\ d_rbac d = Some (_extract_rbac self text)) /\
    _generate_ticket_from_spec t e
    = Some (story (summary t) (_template_rbac_permissions (feature_kwargs (epic_name e)))).
Proof.
  intros rsd today self text metadata doc e t Hdoc Hin Ht Hk.
  destruct (document_epic _ _ _ _ _ _ _ Hdoc Hin) as (_ & _ & _ & ed & _ & Hgen).
  destruct (generate_tickets_In _ _ _ _ _ _ _ Hgen Ht)
    as [->|[Hc|[(tab & _ & Htab)|(fs & ->)]]]; try discriminate Hk.
  - assert (H : t = rbac_ticket self text (epic_name e) \/ t = nav_ticket (epic_name e)).
    { unfold conditional_tickets in Hc. apply in_app_or in Hc. destruct Hc as [Hc|Hc].
      - destruct (_has_rbac_requirements text); cbn [In] in Hc; [|destruct Hc].
        destruct Hc as [<-|[]]. now left.
      - destruct (Py.any_in ["menu"; "navigation"; "nav bar"; "sidebar"] (Py.lower text));
          cbn [In] in Hc; [|destruct Hc].
        destruct Hc as [<-|[]]. now right. }
    destruct H as [-> | ->]; [|discriminate Hk].
    split; [eexists; split; reflexivity|].
    unfold _generate_ticket_from_spec. cbn [ticket_type rbac_ticket details summary priority].
    cbv zeta. rewrite description_rbac. reflexivity.
  - destruct (tab_tickets_types _ _ _ _ Htab) as [[E _] | E]; rewrite E in Hk; discriminate Hk.
Qed.

Lemma workflow_rbac_witness :
  _generate_ticket_from_spec (nth 1 (tickets sample_epic) sample_add_ticket) sample_epic
  = Some (story (summary (nth 1 (tickets sample_epic) sample_add_ticket))
                (_template_rbac_permissions (feature_kwargs (epic_name sample_epic)))).
Proof.
  refine (proj2 (workflow_rbac_ticket never_matches "2026-01-01" init sample_text None
                   sample_document sample_epic (nth 1 (tickets sample_epic) sample_add_ticket)
                   sample_document_ok sample_epic_In _ eq_refl)).
  right. left. reflexivity.
Defined.

Lemma numbered_occurs (columns : list string) : forall k i col,
  nth_error columns i = Some col ->
  occurs_in (str_of_nat (k + i + 1) ++ ". " ++ col) (join nl (numbered k columns)).
Proof.
  induction columns as [|c cs IH]; intros k i col H; [destruct i; discriminate|].
  destruct i as [|i]; cbn [nth_error] in H.
  - injection H as ->. rewrite Nat.add_0_r. cbn [numbered join].
    destruct (numbered (S k) cs); [apply occurs_in_refl|apply occurs_in_app_l, occurs_in_refl].
  - specialize (IH (S k) i col H).
    replace (k + S i + 1) with (S k + i + 1) by lia.
    cbn [numbered join]. destruct (numbered (S k) cs) as [|l ls] eqn:E.
    + destruct cs; [destruct i; discriminate|discriminate].
    + now apply occurs_in_app_r, occurs_in_app_r.
Qed.

Lemma field_lines_occurs (fields : list Field) : forall s f,
  field_lines (map field_dict fields) = Some s -> In f fields ->
  occurs_in (field_text f) s.
Proof.
  induction fields as [|f0 fs IH]; intros s f H Hin; [destruct Hin|].
  cbn [map field_lines] in H.
  change (field_line (field_dict f0)) with (Some (field_text f0)) in H.
  destruct (field_lines (map field_dict fs)) as [rest|] eqn:E; [|discriminate].
  assert (Hs : s = field_text f0 ++ rest) by (cbv beta iota in H; congruence).
  rewrite Hs. clear H Hs. destruct Hin as [<-|Hin].
  - apply occurs_in_app_l, occurs_in_refl.
  - apply occurs_in_app_r. now apply IH.
Qed.

Ltac find_inside H :=
  repeat first [ apply occurs_in_app_l; exact H | apply occurs_in_app_r ].

(** X25. The description that the workflow writes for a table ticket
    lists every column of its details with its number, from 1; the one it
    writes for an "add_entity" ticket has the line of every field of its
    details, with a star for a mandatory field. *)
Theorem workflow_description_lists_details :
  forall t e j,
    _generate_ticket_from_spec t e = Some j ->
    (ticket_type t = "view_table_data" ->
     forall i col, nth_error (columns_of t) i = Some col ->
       occurs_in (str_of_nat (i + 1) ++ ". " ++ col) (j_description j)) /\
    (ticket_type t = "add_entity" ->
     forall f, In f (fields_of t) -> occurs_in (field_text f) (j_description j)).
Proof.
  intros t e j H. unfold _generate_ticket_from_spec in H. cbv zeta in H. split.
  - intros Hk i col Hc. rewrite Hk, description_view in H. injection H as <-.
    cbn [j_description]. unfold _template_view_table_data. cbv zeta.
    unfold spec_kwargs. cbn [k_columns]. unfold columns_of in Hc.
    destruct (details t) as [d|]; [|destruct i; discriminate].
    cbn [given]. destruct (d_columns d) as [[|c cs]|]; try (destruct i; discriminate).
    pose proof (numbered_occurs (c :: cs) 0 i col Hc) as Ho. cbn [Nat.add] in Ho.
    find_inside Ho.
  - intros Hk f Hf. rewrite Hk, description_add in H.
    destruct (_template_add_entity (spec_kwargs (epic_name e) (details t))) as [d|] eqn:E;
      [|discriminate].
    injection H as <-. cbn [j_description].
    unfold _template_add_entity in E. cbv zeta in E. unfold spec_kwargs in E.
    cbn [k_fields] in E. unfold fields_of in Hf.
    destruct (details t) as [dt|]; [|destruct Hf].
    cbn [given] in E. destruct (d_fields dt) as [[|f0 fs]|]; try (now destruct Hf).
    cbn [option_map] in E.
    destruct (field_lines (map field_dict (f0 :: fs))) as [s|] eqn:El.
    + pose proof (field_lines_occurs (f0 :: fs) s f El Hf) as Ho.
      cbn [map] in El, E. rewrite El in E. cbv beta iota in E.
      match type of E with
      | Some ?x = Some _ => assert (Hd : d = x) by congruence
      end.
      rewrite Hd. find_inside Ho.
    + cbn [map] in El, E. rewrite El in E. discriminate.
Qed.


Lemma workflow_description_witness :
  occurs_in (field_text sample_field)
            (j_description (given (_generate_ticket_from_spec sample_add_ticket sample_epic)
                                  (story EmptyString EmptyString))).
Proof.
  refine (proj2 (workflow_description_lists_details sample_add_ticket sample_epic _ _)
                eq_refl sample_field _).
  - vm_compute. reflexivity.
  - left. reflexivity.
Defined.

(** X26. [generate_description] has a template of its own for five types
    of ticket only: for any other type, among them "perform_actions",
    "download", "upload_csv", "nav_menu" and "edge_cases", for which
    [generate_summary] has a summary, it answers with the generic text,
    the same whatever the keywords; for none of the five does it answer
    with that text. *)
Theorem generate_description_generic :
  forall ticket_type kw,
    generate_description ticket_type kw = Some (_template_generic no_kwargs) <->
    ~ In ticket_type templated_types.
Proof.
  intros ticket_type kw. split.
  - intros H Hin. unfold templated_types in Hin. cbn [In] in Hin.
    assert (Hg : forall d, Some d = Some (_template_generic no_kwargs) ->
                           String.get 0 d = Some "*"%char).
    { intros d [= ->]. reflexivity. }
    destruct Hin as [<-|[<-|[<-|[<-|[<-|[]]]]]].
    + rewrite description_backend in H. vm_compute in H. discriminate H.
    + rewrite description_view in H. apply Hg in H. vm_compute in H. discriminate H.
    + rewrite description_add in H. unfold _template_add_entity in H. cbv zeta in H.
      match type of H with
      | match ?m with _ => _ end = _ => destruct m; [|discriminate H]
      end.
      apply Hg in H. vm_compute in H. discriminate H.
    + rewrite description_rbac in H. apply Hg in H. vm_compute in H. discriminate H.
    + rewrite description_search in H. unfold _template_search_filter in H. cbv zeta in H.
      match type of H with
      | match ?m with _ => _ end = _ => destruct m; [|discriminate H]
      end.
      apply Hg in H. vm_compute in H. discriminate H.
  - intros Hn. unfold templated_types in Hn. cbn [In] in Hn. unfold generate_description.
    repeat match goal with
           | |- context [String.eqb ticket_type ?l] =>
               destruct (String.eqb_spec ticket_type l); [exfalso; apply Hn; auto 10|]
           end.
    reflexivity.
Qed.

Lemma generate_description_generic_witness :
  generate_description "nav_menu" (feature_kwargs "Billing")
  = Some (_template_generic no_kwargs).
Proof.
  refine (proj2 (generate_description_generic "nav_menu" (feature_kwargs "Billing")) _).
  unfold templated_types. cbn [In].
  intros [H|[H|[H|[H|[H|[]]]]]]; discriminate H.
Defined.

(* ================================================================= *)
(** ** The review report *)

Lemma join_occurs (sep x : string) (xs : list string) :
  In x xs -> occurs_in x (join sep xs).
Proof.
  induction xs as [|y ys IH]; intros H; [destruct H|].
  cbn [join]. destruct ys as [|z zs].
  - destruct H as [<-|[]]. apply occurs_in_refl.
  - destruct H as [<-|H].
    + apply occurs_in_app_l, occurs_in_refl.
    + now apply occurs_in_app_r, occurs_in_app_r, IH.
Qed.

Lemma epic_lines_In (epics : list Epic) : forall k i e,
  nth_error epics i = Some e ->
  In (nl ++ str_of_nat (k + i) ++ ". " ++ epic_name e) (epic_lines k epics) /\
  In ("   Priority: " ++ e_priority e) (epic_lines k epics) /\
  In ("   Tickets: " ++ str_of_nat (List.length (tickets e))) (epic_lines k epics) /\
  In ("   Tabs: " ++ join ", " (tabs e)) (epic_lines k epics).
Proof.
  induction epics as [|e0 es IH]; intros k i e H; [destruct i; discriminate|].
  destruct i as [|i]; cbn [nth_error] in H.
  - injection H as ->. rewrite Nat.add_0_r. cbn [epic_lines app In]. tauto.
  - destruct (IH (S k) i e H) as (H1 & H2 & H3 & H4).
    replace (k + S i) with (S k + i) by lia.
    cbn [epic_lines app In]. tauto.
Qed.

(** X27. The review report names every epic of the document with its
    number, from 1, its priority, the number of its tickets and its tabs;
    it has the question of every clarification, and the first three
    action items, whatever their number. *)
Theorem review_report_mentions :
  forall doc,
    (forall i e, nth_error (epics doc) i = Some e ->
       occurs_in (nl ++ str_of_nat (i + 1) ++ ". " ++ epic_name e)
                 (generate_review_report doc) /\
       occurs_in ("   Priority: " ++ e_priority e) (generate_review_report doc) /\
       occurs_in ("   Tickets: " ++ str_of_nat (List.length (tickets e)))
                 (generate_review_report doc) /\
       occurs_in ("   Tabs: " ++ join ", " (tabs e)) (generate_review_report doc)) /\
    (forall c, In c (clarifications_needed doc) ->
       occurs_in ("   - " ++ question c) (generate_review_report doc)) /\
    (forall i a, i < 3 -> nth_error (action_items doc) i = Some a ->
       occurs_in ("   - " ++ item a) (generate_review_report doc)).
Proof.
  intros doc. unfold generate_review_report. cbv zeta. split; [|split].
  - intros i e H. destruct (epic_lines_In (epics doc) 1 i e H) as (H1 & H2 & H3 & H4).
    replace (1 + i) with (i + 1) in H1 by lia.
    repeat split; apply join_occurs; apply in_or_app; right;
      apply in_or_app; left; assumption.
  - intros c Hc. apply join_occurs. do 3 (apply in_or_app; right).
    apply in_or_app; left.
    destruct (clarifications_needed doc) as [|c0 cs]; [destruct Hc|].
    right. apply in_map_iff. exists c. auto.
  - intros i a Hi Ha. apply join_occurs. do 2 (apply in_or_app; right).
    apply in_or_app; left.
    destruct (action_items doc) as [|a0 rest] eqn:E; [destruct i; discriminate|].
    right. apply in_map_iff. exists a. split; [reflexivity|].
    apply (nth_error_In _ i). rewrite nth_error_firstn.
    destruct (Nat.ltb_spec i 3); [exact Ha|lia].
Qed.

(* ================================================================= *)
(** ** The separators of a list of names *)

Lemma name_char_facts (c : ascii) :
  name_char c = true ->
  Py.is_space c = false /\
  cset_ok false (CSet false [IChar ","; IChar ";"]) c = false /\
  cset_ok false sp c = false /\
  cset_ok true no_dot c = true.
Proof. destruct c as [[] [] [] [] [] [] [] []]; vm_compute; intros H; repeat split; congruence. Qed.

Lemma space_facts (c : ascii) :
  Py.is_space c = true ->
  name_char c = false /\
  cset_ok false (CSet false [IChar ","; IChar ";"]) c = false /\
  cset_ok false sp c = true /\
  cset_ok true sp c = true /\
  cset_ok true no_dot c = true /\
  char_eq false "a" c = false.
Proof. destruct c as [[] [] [] [] [] [] [] []]; vm_compute; intros H; repeat split; congruence. Qed.

(** What the separator rule does at one place, written out. *)
Lemma match_at_separator pos s :
  match_at false list_separator pos s =
  let K := fun n (_ : string) (c : caps) =>
             Some (MkMatch pos (pos + n) (substring 0 n s)
                     (map (fun e => (fst e, substring (fst (snd e))
                                              (snd (snd e) - fst (snd e)) s)) c)) in
  match match s with
        | String a s' =>
            if cset_ok false (CSet false [IChar ","; IChar ";"]) a then K 1 s' [] else None
        | EmptyString => None
        end with
  | Some x => Some x
  | None =>
      rep_greedy false sp 1 None 0 s
        (fun n' s' =>
           match lit false "and" n' s' with
           | Some (n'', s'') => rep_greedy false sp 1 None n'' s'' (fun n3 s3 => K n3 s3 [])
           | None => None
           end)
  end.
Proof. reflexivity. Qed.

Lemma separator_not_at_name (pos : nat) (c : ascii) (s : string) :
  name_char c = true -> match_at false list_separator pos (String c s) = None.
Proof.
  intros H. destruct (name_char_facts c H) as (_ & H1 & H2 & _).
  rewrite match_at_separator. cbv zeta. rewrite H1. cbn [rep_greedy hi_pos andb Nat.eqb].
  now rewrite H2.
Qed.

Lemma separator_not_at_end (pos : nat) : match_at false list_separator pos EmptyString = None.
Proof. reflexivity. Qed.

Lemma span_exact ic cs (w post : string) :
  all_chars (cset_ok ic cs) w = true ->
  match post with
  | EmptyString => True
  | String d _ => cset_ok ic cs d = false
  end ->
  span ic cs (w ++ post) = String.length w.
Proof.
  intros Hw Hp. induction w as [|c w IH]; cbn [append String.length].
  - destruct post as [|d post]; [reflexivity|]. cbn [span]. now rewrite Hp.
  - cbn [all_chars] in Hw. apply andb_true_iff in Hw. destruct Hw as [Hc Hw].
    cbn [span]. now rewrite Hc, IH.
Qed.

Lemma lit_exact (l : string) : forall n s n' s',
  lit false l n s = Some (n', s') -> s = l ++ s' /\ n' = n + String.length l.
Proof.
  induction l as [|a l IH]; intros n s n' s' H; cbn [lit] in H.
  - injection H as <- <-. split; [reflexivity|cbn; lia].
  - destruct s as [|b s]; [discriminate|]. unfold char_eq in H.
    destruct (Ascii.eqb a b) eqn:E; [|discriminate].
    apply Ascii.eqb_eq in E. subst b. apply IH in H. destruct H as [-> ->].
    split; [reflexivity|cbn [String.length]; lia].
Qed.

Lemma lit_app (l : string) : forall n s,
  lit false l n (l ++ s) = Some (n + String.length l, s).
Proof.
  induction l as [|a l IH]; intros n s; cbn [lit append String.length].
  - now rewrite Nat.add_0_r.
  - unfold char_eq. rewrite Ascii.eqb_refl, IH. f_equal. f_equal. lia.
Qed.

Lemma app_nil_r_str (s : string) : s ++ EmptyString = s.
Proof. induction s as [|c s IH]; cbn [append]; [reflexivity|now rewrite IH]. Qed.

(** The word "and" is not read where a name of one word stands. *)
Lemma and_not_at_word {A : Type} (w t : string) (n : nat) (k : nat -> string -> option A) :
  one_word w -> ends_name t ->
  match lit false "and" n (w ++ t) with
  | Some (n'', s'') => rep_greedy false sp 1 None n'' s'' k
  | None => None
  end = None.
Proof.
  intros (Hne & Hand & Hw) Ht.
  destruct (lit false "and" n (w ++ t)) as [[n'' s'']|] eqn:E; [|reflexivity].
  apply lit_exact in E. destruct E as [E _].
  assert (Hn : forall c s, t = String c s -> name_char c = true -> False).
  { intros c s -> Hc. cbn [ends_name] in Ht. congruence. }
  destruct w as [|c1 w]; [contradiction|]. cbn [append] in E. injection E as -> E.
  destruct w as [|c2 w]; [exfalso; eapply Hn; [exact E|reflexivity]|].
  cbn [append] in E. injection E as -> E.
  destruct w as [|c3 w]; [exfalso; eapply Hn; [exact E|reflexivity]|].
  cbn [append] in E. injection E as -> E.
  destruct w as [|c4 w]; [contradiction|].
  cbn [append] in E. subst s''.
  cbn [all_chars] in Hw. do 3 (apply andb_true_iff in Hw; destruct Hw as [_ Hw]).
  apply andb_true_iff in Hw. destruct Hw as [Hc4 _].
  destruct (name_char_facts c4 Hc4) as (_ & _ & H2 & _).
  cbn [rep_greedy hi_pos andb Nat.eqb]. now rewrite H2.
Qed.

Lemma and_not_after_white {A : Type} (w t : string) (k : nat -> string -> option A) :
  one_word w -> ends_name t ->
  forall u lo n,
    white u = true ->
    rep_greedy false sp lo None n (u ++ w ++ t)
      (fun n' s' =>
         match lit false "and" n' s' with
         | Some (n'', s'') => rep_greedy false sp 1 None n'' s'' k
         | None => None
         end) = None.
Proof.
  intros Hw Ht. induction u as [|a u IH]; intros lo n Hall.
  - cbn [append]. pose proof Hw as (Hne & Hand & Hw'). destruct w as [|c w]; [contradiction|].
    pose proof Hw' as Hc. cbn [all_chars] in Hc. apply andb_true_iff in Hc.
    destruct Hc as [Hc _]. destruct (name_char_facts c Hc) as (_ & _ & H2 & _).
    cbn [append rep_greedy hi_pos andb]. rewrite H2.
    destruct (lo =? 0); [|reflexivity].
    change (String c (w ++ t)) with (String c w ++ t).
    now apply and_not_at_word.
  - cbn [white all_chars] in Hall. apply andb_true_iff in Hall. destruct Hall as [Ha Hu].
    destruct (space_facts a Ha) as (_ & _ & H2 & _ & _ & H3).
    cbn [append rep_greedy hi_pos andb]. rewrite H2, (IH _ _ Hu).
    destruct (lo =? 0); [|reflexivity]. cbn [lit]. now rewrite H3.
Qed.

(** No separator begins in the white space before a name of one word. *)
Lemma separator_not_before_word (ws w t : string) : forall pos,
  white ws = true -> one_word w -> ends_name t ->
  match_at false list_separator pos (ws ++ w ++ t) = None.
Proof.
  intros pos Hws Hw Ht. destruct ws as [|a ws].
  - destruct Hw as (Hne & Hand & Hw). destruct w as [|c w]; [contradiction|].
    cbn [all_chars] in Hw. apply andb_true_iff in Hw.
    apply separator_not_at_name. apply Hw.
  - rewrite match_at_separator. cbv zeta.
    pose proof Hws as Ha. cbn [white all_chars] in Ha. apply andb_true_iff in Ha.
    destruct Ha as [Ha _].
    destruct (space_facts a Ha) as (_ & H1 & _). cbn [append]. rewrite H1.
    change (String a (ws ++ w ++ t)) with (String a ws ++ w ++ t).
    now apply and_not_after_white.
Qed.

Lemma separator_at_char (pos : nat) (c : ascii) (t : string) :
  (c = "," \/ c = ";")%char ->
  match_at false list_separator pos (String c t)
  = Some (MkMatch pos (pos + 1) (String c EmptyString) []).
Proof.
  intros [-> | ->]; rewrite match_at_separator; cbv zeta.
  all: match goal with |- context [cset_ok ?a ?b ?c] =>
         change (cset_ok a b c) with true end.
  all: destruct t; reflexivity.
Qed.

Lemma span_white ic (ws rest : string) :
  white ws = true ->
  match rest with
  | EmptyString => True
  | String d _ => Py.is_space d = false
  end ->
  span ic sp (ws ++ rest) = String.length ws.
Proof.
  intros Hws Hr. apply span_exact.
  - eapply all_chars_impl; [|exact Hws]. intros c Hc.
    destruct (space_facts c Hc) as (_ & _ & H1 & H2 & _). now destruct ic.
  - destruct rest as [|d rest]; [exact I|].
    destruct ic; unfold cset_ok, sp; cbn [neg items existsb item_ok xorb];
      now rewrite Hr.
Qed.

Lemma separator_at_and (pos : nat) (lead trail rest : string) :
  lead <> EmptyString -> trail <> EmptyString ->
  white lead = true -> white trail = true ->
  match rest with
  | EmptyString => True
  | String d _ => Py.is_space d = false
  end ->
  match_at false list_separator pos (lead ++ "and" ++ trail ++ rest)
  = Some (MkMatch pos (pos + (String.length lead + 3 + String.length trail))
            (substring 0 (String.length lead + 3 + String.length trail)
               (lead ++ "and" ++ trail ++ rest)) []).
Proof.
  intros Hl Ht Hwl Hwt Hr.
  rewrite match_at_separator. cbv zeta.
  remember ("and" ++ trail ++ rest) as tl eqn:Etl.
  assert (Htl : match tl with
                | EmptyString => True
                | String d _ => Py.is_space d = false
                end) by (subst tl; reflexivity).
  destruct lead as [|a lead]; [contradiction|].
  pose proof Hwl as Ha. cbn [white all_chars] in Ha. apply andb_true_iff in Ha.
  destruct Ha as [Ha _]. destruct (space_facts a Ha) as (_ & H1 & _).
  cbn [append]. rewrite H1.
  change (String a (lead ++ tl)) with (String a lead ++ tl).
  apply rep_greedy_max.
  - rewrite (span_white false (String a lead) tl Hwl Htl). cbn [String.length]. lia.
  - rewrite (span_white false (String a lead) tl Hwl Htl).
    rewrite drop_app_length. subst tl. rewrite lit_app.
    apply rep_greedy_max.
    + rewrite (span_white false trail rest Hwt Hr).
      destruct trail; [contradiction|cbn [String.length]; lia].
    + rewrite (span_white false trail rest Hwt Hr). reflexivity.
Qed.

Lemma finditer_skip ic r : forall skip s pos,
  skip <= String.length s ->
  finditer_from ic r pos skip s = finditer_from ic r (pos + skip) 0 (Py.drop skip s).
Proof.
  induction skip as [|k IH]; intros s pos H.
  - rewrite Nat.add_0_r. now destruct s.
  - destruct s as [|a s]; [cbn [String.length] in H; lia|].
    cbn [String.length] in H. cbn [finditer_from Py.drop].
    rewrite IH by lia. now rewrite Nat.add_succ_comm.
Qed.

(** After a match of [len] characters, [finditer] goes on behind it. *)
Lemma finditer_at_match ic r pos s m len :
  match_at ic r pos s = Some m ->
  m_start m = pos -> m_end m = pos + len ->
  1 <= len <= String.length s ->
  finditer_from ic r pos 0 s = m :: finditer_from ic r (pos + len) 0 (Py.drop len s).
Proof.
  intros Hm Hs He Hlen. destruct s as [|a s]; [cbn [String.length] in Hlen; lia|].
  cbn [String.length] in Hlen. cbn [finditer_from]. rewrite Hm. f_equal. rewrite Hs, He.
  destruct len as [|len]; [lia|].
  replace (pred (pos + S len - pos)) with len by lia.
  rewrite finditer_skip by lia. cbn [Py.drop]. now rewrite Nat.add_succ_comm.
Qed.

Lemma finditer_over_word (w t : string) : forall pos,
  all_chars name_char w = true ->
  finditer_from false list_separator pos 0 (w ++ t)
  = finditer_from false list_separator (pos + String.length w) 0 t.
Proof.
  induction w as [|a w IH]; intros pos H; cbn [append String.length].
  - now rewrite Nat.add_0_r.
  - cbn [all_chars] in H. apply andb_true_iff in H. destruct H as [Ha Hw].
    cbn [finditer_from]. rewrite (separator_not_at_name _ _ _ Ha), (IH _ Hw).
    now rewrite Nat.add_succ_comm.
Qed.

Lemma finditer_over_white (w t : string) :
  one_word w -> ends_name t ->
  forall ws pos,
    white ws = true ->
    finditer_from false list_separator pos 0 (ws ++ w ++ t)
    = finditer_from false list_separator (pos + String.length ws) 0 (w ++ t).
Proof.
  intros Hw Ht. induction ws as [|a ws IH]; intros pos Hws; cbn [append String.length].
  - now rewrite Nat.add_0_r.
  - pose proof (separator_not_before_word (String a ws) w t pos Hws Hw Ht) as Hn.
    cbn [append] in Hn. cbn [finditer_from]. rewrite Hn.
    cbn [white all_chars] in Hws. apply andb_true_iff in Hws. destruct Hws as [_ Hws].
    rewrite (IH _ Hws). now rewrite Nat.add_succ_comm.
Qed.

Lemma tail_ends_name (rest : list (separator * string)) :
  Forall (fun q => sep_ok (fst q) /\ one_word (snd q)) rest -> ends_name (tail_text rest).
Proof.
  destruct rest as [|[s name] more]; [intros _; exact I|].
  intros H. inversion H as [|q l [Hs _] _]. subst. cbn [fst] in Hs.
  destruct s as [c trail|lead trail]; cbn [tail_text sep_text sep_ok] in *.
  - destruct Hs as [[-> | ->] _]; reflexivity.
  - destruct Hs as (Hl & _ & Hw & _). destruct lead as [|a lead]; [contradiction|].
    cbn [white all_chars] in Hw. apply andb_true_iff in Hw. destruct Hw as [Ha _].
    cbn [append ends_name]. apply (space_facts a Ha).
Qed.

Lemma word_starts (w t : string) :
  one_word w ->
  match w ++ t with
  | EmptyString => True
  | String d _ => Py.is_space d = false
  end.
Proof.
  intros (Hne & _ & Hw). destruct w as [|c w]; [contradiction|].
  cbn [all_chars] in Hw. apply andb_true_iff in Hw. destruct Hw as [Hc _].
  cbn [append]. apply (name_char_facts c Hc).
Qed.

Lemma drop_app_more (a b : string) (n : nat) :
  Py.drop (String.length a + n) (a ++ b) = Py.drop n b.
Proof. induction a as [|c a IH]; [reflexivity|exact IH]. Qed.

Lemma white_length (ws : string) : ws <> EmptyString -> 1 <= String.length ws.
Proof. destruct ws; [contradiction|cbn [String.length]; lia]. Qed.

(** What [re.split] makes of a list of names: the names, each with the
    white space that its separator left before it. *)
Lemma split_pieces : forall rest first base p,
  white p = true -> one_word first ->
  Forall (fun q => sep_ok (fst q) /\ one_word (snd q)) rest ->
  pieces (finditer_from false list_separator (base + String.length p) 0
            (first ++ tail_text rest))
         base (p ++ first ++ tail_text rest)
  = raw_pieces p first rest.
Proof.
  induction rest as [|[s name] more IH]; intros first base p Hp Hfirst Hrest.
  - cbn [tail_text raw_pieces]. rewrite finditer_over_word by apply Hfirst.
    cbn [finditer_from]. rewrite separator_not_at_end. cbn [pieces].
    now rewrite app_nil_r_str.
  - inversion Hrest as [|q l [Hs Hname] Hmore]. subst q l. cbn [fst snd] in Hs, Hname.
    pose proof (tail_ends_name more Hmore) as Hends.
    cbn [tail_text raw_pieces].
    rewrite finditer_over_word by apply Hfirst.
    set (b1 := base + String.length p + String.length first).
    assert (Hsub : forall sept x, b1 - base = String.length (p ++ first) /\
              substring 0 (String.length (p ++ first)) (p ++ first ++ sept ++ x) = p ++ first).
    { intros sept x. split; [unfold b1; rewrite length_app; lia|].
      rewrite <- (app_assoc_str p first). apply substring_prefix. }
    assert (Hdrop : forall sept x n, b1 + n - base = String.length ((p ++ first) ++ sept) + (n - String.length sept) ->
              Py.drop (b1 + n - base) (p ++ first ++ sept ++ x) = Py.drop (n - String.length sept) x).
    { intros sept x n E. rewrite E, <- (app_assoc_str p first), <- (app_assoc_str (p ++ first) sept).
      apply drop_app_more. }
    destruct s as [c trail|lead trail]; cbn [sep_text sep_ok left_over] in *.
    + destruct Hs as [Hc Htrail].
      change (String c trail ++ name ++ tail_text more)
        with (String c (trail ++ name ++ tail_text more)).
      rewrite (finditer_at_match false list_separator b1 _ _ 1
                 (separator_at_char b1 c _ Hc) eq_refl eq_refl)
        by (cbn [String.length]; lia).
      cbn [Py.drop]. rewrite (finditer_over_white name _ Hname Hends trail _ Htrail).
      cbn [pieces m_start m_end].
      change (String c (trail ++ name ++ tail_text more))
        with (String c EmptyString ++ trail ++ name ++ tail_text more).
      destruct (Hsub (String c EmptyString) (trail ++ name ++ tail_text more)) as [E1 E2].
      rewrite E1, E2. f_equal.
      rewrite Hdrop by (rewrite !length_app; unfold b1; cbn [String.length]; lia).
      cbn [String.length Nat.sub Py.drop].
      apply (IH name (b1 + 1) trail Htrail Hname Hmore).
    + destruct Hs as (Hl & Ht & Hwl & Hwt).
      set (x := name ++ tail_text more).
      set (len := String.length lead + 3 + String.length trail).
      assert (Hlen : len = String.length (lead ++ "and" ++ trail))
        by (unfold len; rewrite !length_app; cbn [String.length]; lia).
      assert (Hassoc : (lead ++ "and" ++ trail) ++ x = lead ++ "and" ++ trail ++ x)
        by now rewrite (app_assoc_str lead), (app_assoc_str "and").
      rewrite Hassoc.
      pose proof (separator_at_and b1 lead trail x Hl Ht Hwl Hwt
                    (word_starts name _ Hname)) as Hm.
      fold len in Hm.
      pose proof (white_length lead Hl) as Hl1.
      rewrite (finditer_at_match false list_separator b1 _ _ len Hm eq_refl eq_refl)
        by (rewrite !length_app; unfold len; cbn [String.length]; lia).
      assert (Hd : Py.drop len (lead ++ "and" ++ trail ++ x) = x)
        by (rewrite <- Hassoc, Hlen; apply drop_app_length).
      rewrite Hd. cbn [pieces m_start m_end].
      rewrite <- Hassoc.
      destruct (Hsub (lead ++ "and" ++ trail) x) as [E1 E2].
      rewrite E1, E2. f_equal.
      rewrite Hdrop by (rewrite length_app, <- Hlen; unfold b1; lia).
      rewrite <- Hlen, Nat.sub_diag. cbn [Py.drop].
      pose proof (IH name (b1 + len) EmptyString eq_refl Hname Hmore) as IH'.
      cbn [String.length append] in IH'. rewrite Nat.add_0_r in IH'. exact IH'.
Qed.

Lemma lstrip_white (w : string) :
  one_word w -> forall ws, white ws = true -> Py.lstrip (ws ++ w) = w.
Proof.
  intros Hw. induction ws as [|a ws IH]; intros Hws; cbn [append].
  - pose proof (word_starts w EmptyString Hw) as H. rewrite app_nil_r_str in H.
    destruct w as [|c w]; [reflexivity|]. cbn [Py.lstrip]. now rewrite H.
  - cbn [white all_chars] in Hws. apply andb_true_iff in Hws. destruct Hws as [Ha Hws].
    cbn [Py.lstrip]. rewrite Ha. now apply IH.
Qed.

Lemma rstrip_word (w : string) : all_chars name_char w = true -> Py.rstrip w = w.
Proof.
  induction w as [|c w IH]; intros H; [reflexivity|].
  cbn [all_chars] in H. apply andb_true_iff in H. destruct H as [Hc Hw].
  rewrite rstrip_keep by apply (name_char_facts c Hc). now rewrite IH.
Qed.

Lemma strip_left_over (ws w : string) :
  white ws = true -> one_word w -> Py.strip (ws ++ w) = w.
Proof.
  intros Hws Hw. unfold Py.strip. rewrite (lstrip_white w Hw ws Hws).
  apply rstrip_word, Hw.
Qed.

(** Stripped, the pieces are the names. *)
Lemma stripped_raw_pieces : forall rest p first,
  white p = true -> one_word first ->
  Forall (fun q => sep_ok (fst q) /\ one_word (snd q)) rest ->
  stripped_nonempty (raw_pieces p first rest) = first :: map snd rest.
Proof.
  induction rest as [|[s name] more IH]; intros p first Hp Hfirst Hrest;
    unfold stripped_nonempty; cbn [raw_pieces map filter];
    rewrite (strip_left_over p first Hp Hfirst);
    (assert (Ht : Py.truthy first = true)
       by (destruct Hfirst as (Hne & _); destruct first; [contradiction|reflexivity]));
    rewrite Ht; [reflexivity|].
  f_equal. inversion Hrest as [|q l [Hs Hname] Hmore]. subst q l. cbn [fst snd] in Hs, Hname.
  apply IH; [|exact Hname|exact Hmore].
  destruct s as [c trail|lead trail]; cbn [left_over sep_ok] in *; [apply Hs|reflexivity].
Qed.

(** [re.split] on a list of names of one word, then the stripping: the names. *)
Lemma split_names_text (first : string) (rest : list (separator * string)) :
  names_ok first rest ->
  stripped_nonempty (Re.split false list_separator (names_text first rest))
  = first :: map snd rest.
Proof.
  intros [Hfirst Hrest]. unfold Re.split, finditer, names_text.
  pose proof (split_pieces rest first 0 EmptyString eq_refl Hfirst Hrest) as H.
  cbn [String.length Nat.add append] in H. rewrite H.
  now apply stripped_raw_pieces.
Qed.

Lemma white_no_dot (ws : string) : white ws = true -> all_chars (cset_ok true no_dot) ws = true.
Proof. apply all_chars_impl. intros c Hc. apply (space_facts c Hc). Qed.

Lemma word_no_dot (w : string) :
  all_chars name_char w = true -> all_chars (cset_ok true no_dot) w = true.
Proof. apply all_chars_impl. intros c Hc. apply (name_char_facts c Hc). Qed.

(** A list of names of one word has no period. *)
Lemma names_no_dot (first : string) (rest : list (separator * string)) :
  names_ok first rest -> all_chars (cset_ok true no_dot) (names_text first rest) = true.
Proof.
  intros [Hfirst Hrest]. unfold names_text. rewrite all_chars_app.
  rewrite (word_no_dot first) by apply Hfirst. cbn [andb].
  induction Hrest as [|[s name] more [Hs Hname] _ IH]; [reflexivity|].
  cbn [fst snd] in Hs, Hname. cbn [tail_text]. rewrite !all_chars_app, IH.
  rewrite (word_no_dot name) by apply Hname. rewrite andb_true_r.
  destruct s as [c trail|lead trail]; cbn [sep_text sep_ok] in *.
  - destruct Hs as [Hc Htrail]. cbn [all_chars]. rewrite (white_no_dot trail Htrail).
    destruct Hc as [-> | ->]; reflexivity.
  - destruct Hs as (_ & _ & Hl & Ht). rewrite !all_chars_app.
    now rewrite (white_no_dot lead Hl), (white_no_dot trail Ht).
Qed.

Lemma names_start (first : string) (rest : list (separator * string)) :
  names_ok first rest ->
  match names_text first rest with
  | EmptyString => False
  | String c _ => Py.is_space c = false
  end.
Proof.
  intros [(Hne & _ & Hw) _]. unfold names_text. destruct first as [|c w]; [contradiction|].
  cbn [all_chars] in Hw. apply andb_true_iff in Hw. destruct Hw as [Hc _].
  cbn [append]. apply (name_char_facts c Hc).
Qed.

Lemma sp_is_space ic (c : ascii) : cset_ok ic sp c = Py.is_space c.
Proof. unfold cset_ok, sp. cbn [neg items existsb item_ok]. now destruct (Py.is_space c). Qed.

Lemma tabs_rule_1_split {A : Type} n s c (k : @cont A) :
  run true tabs_rule_1 n s c k
  = run_list true tabs_rule_1_head n s c
      (fun n' s' c' => run true (Seq (star sp) (Grp 1 (plus no_dot))) n' s' c' k).
Proof. reflexivity. Qed.

(** At "tabs:" the head of the first rule reads these five characters. *)
Lemma tabs_head_phrase {A : Type} (rest : string) (k : @cont A) x :
  k 5 rest [] = Some x ->
  run_list true tabs_rule_1_head 0 ("tabs:" ++ rest) [] k = Some x.
Proof.
  intros H. vm_compute in H. vm_compute. rewrite H. reflexivity.
Qed.

(** The match of the first rule at "tabs: " and a text without a period
    that a period or the end follows: the group is that text. *)
Lemma tabs_rule_1_at (pos : nat) (body post : string) :
  all_chars (cset_ok true no_dot) body = true ->
  match body with
  | EmptyString => False
  | String c _ => Py.is_space c = false
  end ->
  post = EmptyString \/ (exists r, post = "." ++ r) ->
  exists m,
    match_at true tabs_rule_1 pos ("tabs: " ++ body ++ post) = Some m /\
    group 1 m = body.
Proof.
  intros Hbody Hstart Hpost.
  assert (Hspan : span true no_dot (body ++ post) = String.length body).
  { apply span_exact; [exact Hbody|].
    destruct Hpost as [-> | (r & ->)]; [exact I|reflexivity]. }
  assert (Hsp : span true sp (" " ++ body ++ post) = 1).
  { destruct body as [|c body]; [contradiction|]. cbn [append span].
    change (cset_ok true sp " ") with true. cbv iota.
    now rewrite sp_is_space, Hstart. }
  eexists. split.
  - unfold match_at. rewrite tabs_rule_1_split.
    apply (tabs_head_phrase (" " ++ body ++ post)).
    cbn [run star plus]. apply rep_greedy_max; rewrite Hsp; [lia|].
    cbn [Py.drop append]. apply rep_greedy_max; rewrite Hspan.
    + destruct body; [contradiction|cbn [String.length]; lia].
    + reflexivity.
  - unfold group. cbn [m_groups set_cap filter map fst snd group_opt Nat.eqb Nat.add].
    replace (6 + String.length body - 6) with (String.length body) by lia.
    cbn [substring]. replace (S (S (S (S (S (S (String.length body)))))) - 6)
      with (String.length body) by lia.
    now rewrite substring_prefix.
Qed.

(** A match of the first rule that starts at "tabs: " and a list of
    names of one word that a period or the end follows: its group is the
    list, and it gives the names. *)
Lemma split_names_at_tabs (pre post : string) (m : rmatch)
      (first : string) (rest : list (separator * string)) :
  names_ok first rest ->
  post = EmptyString \/ (exists r, post = "." ++ r) ->
  In m (finditer true tabs_rule_1 (pre ++ "tabs: " ++ names_text first rest ++ post)) ->
  m_start m = String.length pre ->
  group 1 m = names_text first rest /\ split_names m = first :: map snd rest.
Proof.
  intros Hok Hpost Hin Hm.
  apply finditer_sound in Hin. rewrite Hm, drop_app_length in Hin.
  destruct (tabs_rule_1_at (String.length pre) (names_text first rest) post
              (names_no_dot first rest Hok) (names_start first rest Hok) Hpost)
    as (m' & Hm' & Hg).
  assert (m' = m) by congruence. subst m'.
  split; [exact Hg|]. unfold split_names. rewrite Hg. now apply split_names_text.
Qed.

Lemma extract_tabs_flat (text : string) :
  _extract_tabs init text
  = (flat_map split_names (finditer true tabs_rule_1 text)
     ++ flat_map split_names (finditer true tabs_rule_2 text))%list.
Proof.
  unfold _extract_tabs.
  change (p_tabs (extraction_patterns init)) with [tabs_rule_1; tabs_rule_2].
  cbn [flat_map]. now rewrite app_nil_r.
Qed.

Lemma tabs_phrase_names :
  tabs_phrase
  = "tabs: " ++ names_text "Active" [(SepChar "," " ", "Discontinued");
                                     (SepAnd " " " ", "History")].
Proof. reflexivity. Qed.

Lemma tabs_phrase_names_ok :
  names_ok "Active" [(SepChar "," " ", "Discontinued"); (SepAnd " " " ", "History")].
Proof.
  split; [repeat split; discriminate || reflexivity|].
  repeat constructor; cbn [fst snd sep_ok one_word]; try discriminate; try reflexivity.
Qed.

(** The claim C9 read on the code: in the transcript below the phrase is
    there, the first tab rule has one match, which starts at the phrase,
    and the second rule has none; but the match runs on to the end of the
    sentence, and the last tab is not "History". *)
Lemma C9_tabs_counterexample :
  map m_start (finditer true tabs_rule_1 (tabs_phrase ++ " are needed")) = [0] /\
  finditer true tabs_rule_2 (tabs_phrase ++ " are needed") = [] /\
  _extract_tabs init (tabs_phrase ++ " are needed")
  = ["Active"; "Discontinued"; "History are needed"].
Proof. vm_compute. repeat split; reflexivity. Qed.

(** C9 as the code has it.  Take names of one word (no white space, comma,
    semicolon or period in them, and none of them the word "and"), written
    one after the other with a separator between two of them: a comma or a
    semicolon and any white space after it, or the word "and" with white
    space on both sides.  When "tabs: " and these names are followed by a
    period or by the end of the transcript, and the only match of the tab
    rules is the match of the first rule that starts at that text, the
    tabs are these names, in their order.  So for the phrase of the claim
    the tabs are "Active", "Discontinued", "History".  With more matches,
    each match of the first rule that starts at such a text has the whole
    list of names as its group and gives these names; and on every
    transcript the names of all matches of the first rule and then of all
    matches of the second rule are put one after the other, none of them
    empty or with white space at an end, and a name found twice stays
    twice: "split into 2 tabs: Open and Closed" is matched by both
    rules. *)
Theorem C9_tabs_split :
  (forall pre post m first rest,
      names_ok first rest ->
      post = EmptyString \/ (exists r, post = "." ++ r) ->
      finditer true tabs_rule_1 (pre ++ "tabs: " ++ names_text first rest ++ post) = [m] ->
      m_start m = String.length pre ->
      finditer true tabs_rule_2 (pre ++ "tabs: " ++ names_text first rest ++ post) = [] ->
      _extract_tabs init (pre ++ "tabs: " ++ names_text first rest ++ post)
      = first :: map snd rest) /\
  (forall pre post m,
      post = EmptyString \/ (exists r, post = "." ++ r) ->
      finditer true tabs_rule_1 (pre ++ tabs_phrase ++ post) = [m] ->
      m_start m = String.length pre ->
      finditer true tabs_rule_2 (pre ++ tabs_phrase ++ post) = [] ->
      _extract_tabs init (pre ++ tabs_phrase ++ post) = ["Active"; "Discontinued"; "History"]) /\
  (forall pre post m first rest,
      names_ok first rest ->
      post = EmptyString \/ (exists r, post = "." ++ r) ->
      In m (finditer true tabs_rule_1 (pre ++ "tabs: " ++ names_text first rest ++ post)) ->
      m_start m = String.length pre ->
      group 1 m = names_text first rest /\ split_names m = first :: map snd rest) /\
  (forall text,
      _extract_tabs init text
      = (flat_map split_names (finditer true tabs_rule_1 text)
         ++ flat_map split_names (finditer true tabs_rule_2 text))%list) /\
  (forall text, Forall trimmed (_extract_tabs init text)) /\
  _extract_tabs init "split into 2 tabs: Open and Closed" = ["Open"; "Closed"; "Open"; "Closed"] /\
  _extract_tabs init "Tabs: Open,, Closed; Archived. Sections: Archived and Open."
  = ["Open"; "Closed"; "Archived"; "Archived"; "Open"].
Proof.
  assert (Hnames : forall pre post m first rest,
      names_ok first rest ->
      post = EmptyString \/ (exists r, post = "." ++ r) ->
      finditer true tabs_rule_1 (pre ++ "tabs: " ++ names_text first rest ++ post) = [m] ->
      m_start m = String.length pre ->
      finditer true tabs_rule_2 (pre ++ "tabs: " ++ names_text first rest ++ post) = [] ->
      _extract_tabs init (pre ++ "tabs: " ++ names_text first rest ++ post)
      = first :: map snd rest).
  { intros pre post m first rest Hok Hpost H1 Hm H2.
    assert (Hin : In m (finditer true tabs_rule_1
                          (pre ++ "tabs: " ++ names_text first rest ++ post)))
      by (rewrite H1; left; reflexivity).
    destruct (split_names_at_tabs pre post m first rest Hok Hpost Hin Hm) as [_ Hs].
    rewrite extract_tabs_flat, H1, H2. cbn [flat_map]. rewrite !app_nil_r. exact Hs. }
  split; [exact Hnames|]. split; [|split; [|split; [|split; [|split]]]].
  - intros pre post m Hpost H1 Hm H2.
    pose proof (Hnames pre post m "Active"
                  [(SepChar "," " ", "Discontinued"); (SepAnd " " " ", "History")]
                  tabs_phrase_names_ok Hpost) as H.
    rewrite tabs_phrase_names in H1, H2 |- *. rewrite !app_assoc_str in H1, H2 |- *.
    exact (H H1 Hm H2).
  - exact split_names_at_tabs.
  - exact extract_tabs_flat.
  - intros text. apply extract_tabs_keeps.
  - vm_compute. reflexivity.
  - vm_compute. reflexivity.
Qed.

Lemma C9_tabs_witness :
  _extract_tabs init
    "Use these tabs: Active, Discontinued and History; Archive. Then we are done."
  = ["Active"; "Discontinued"; "History"; "Archive"].
Proof.
  refine (proj1 C9_tabs_split "Use these " ". Then we are done."
            (MkMatch 10 57 "tabs: Active, Discontinued and History; Archive"
                     [(1, "Active, Discontinued and History; Archive")])
            "Active"
            [(SepChar "," " ", "Discontinued"); (SepAnd " " " ", "History");
             (SepChar ";" " ", "Archive")] _ _ _ _ _).
  - split; [repeat split; discriminate || reflexivity|].
    repeat apply Forall_cons; try apply Forall_nil; cbn [fst snd sep_ok one_word];
      repeat split; try discriminate; try reflexivity.
    + left. reflexivity.
    + right. reflexivity.
  - right. exists " Then we are done.". reflexivity.
  - vm_compute. reflexivity.
  - reflexivity.
  - vm_compute. reflexivity.
Defined.
